(** * AdonisJS Routes Goto: the definition provider

  A shallow embedding of [AdonisRoutesDefinitionProvider] (the
  "Go to Definition" provider for AdonisJS route files) and the
  properties of its click classification, alias resolution, member
  location and error handling.

  Conventions of the embedding:
  - JavaScript strings are [string]s; the functions of [String.prototype]
    the provider calls are written out below, for ASCII text (one
    character is one code unit).
  - The functions of Node's [path] module are written out for the POSIX
    flavour ([path.sep] is "/").
  - A TypeScript syntax tree is an inductive tree; a node (an object
    with reference identity and a [parent] link) is addressed by the
    path leading to it from the root of its source file.
  - The file system, [JSON.parse], the TypeScript parser and the
    editor's open documents are the fields of a [Host] record. The
    [imports] object of a manifest is a finite map from strings to
    strings, as the manifest contract has it, over the members every
    object inherits from [Object.prototype].
  - The two caches of the provider are threaded through a small
    state-and-exception monad. *)

From Stdlib Require Import String Ascii List ZArith Lia Bool Arith.
From stdpp Require Import gmap strings.
Import ListNotations.
Set Warnings "-register-all".
#[local] Open Scope string_scope.
#[local] Open Scope list_scope.

(** ** JavaScript strings *)

Module JsString.

(** A string is truthy when it is not empty. *)
Definition truthy (s : string) : bool :=
  match s with EmptyString => false | String _ _ => true end.

(** [s.startsWith(p)] *)
Definition startsWith (s p : string) : bool := String.prefix p s.

(** [s.includes(p)] *)
Fixpoint includes (s p : string) : bool :=
  String.prefix p s ||
  match s with
  | EmptyString => false
  | String _ r => includes r p
  end.

(** [s.substring(n)] *)
Fixpoint substringFrom (n : nat) (s : string) : string :=
  match n, s with
  | O, _ => s
  | S _, EmptyString => EmptyString
  | S m, String _ r => substringFrom m r
  end.

(** [s.endsWith(p)] *)
Definition endsWith (s p : string) : bool :=
  (String.length p <=? String.length s)%nat &&
  String.eqb (substringFrom (String.length s - String.length p) s) p.

(** The expansion of the replacement text of [String.prototype.replace]
    with a string pattern (GetSubstitution without captures): [$$] is a
    dollar sign, [$&] the matched text, [$`] the text before the match
    and [$'] the text after it; any other character stands for itself. *)
Fixpoint getSubstitution (matched before after replacement : string) : string :=
  match replacement with
  | EmptyString => EmptyString
  | String "$" (String "$" r) => String "$" (getSubstitution matched before after r)
  | String "$" (String "&" r) => matched +:+ getSubstitution matched before after r
  | String "$" (String "`" r) => before +:+ getSubstitution matched before after r
  | String "$" (String "'" r) => after +:+ getSubstitution matched before after r
  | String c r => String c (getSubstitution matched before after r)
  end.

(** [s.replace(pattern, replacement)] with a string pattern: only the
    first occurrence is replaced. [before] accumulates the text
    already scanned. *)
Fixpoint replaceAt (before : string) (s pattern replacement : string) : option string :=
  if String.prefix pattern s then
    let after := substringFrom (String.length pattern) s in
    Some (getSubstitution pattern before after replacement +:+ after)
  else
    match s with
    | EmptyString => None
    | String c r =>
        match replaceAt (before +:+ String c EmptyString) r pattern replacement with
        | Some t => Some (String c t)
        | None => None
        end
    end.

Definition replace (s pattern replacement : string) : string :=
  match replaceAt EmptyString s pattern replacement with
  | Some t => t
  | None => s
  end.

(** [s.replace(/<suffix>$/, replacement)] for a literal suffix: the
    pattern is anchored at the end of the string, and the replacements
    used by the provider contain no dollar sign. *)
Definition replaceSuffix (s suffix replacement : string) : string :=
  if endsWith s suffix
  then String.substring 0 (String.length s - String.length suffix) s +:+ replacement
  else s.

Definition isLower (c : ascii) : bool :=
  let n := nat_of_ascii c in ((97 <=? n) && (n <=? 122))%nat.

Definition isUpper (c : ascii) : bool :=
  let n := nat_of_ascii c in ((65 <=? n) && (n <=? 90))%nat.

Definition lowerChar (c : ascii) : ascii :=
  if isUpper c then ascii_of_nat (nat_of_ascii c + 32) else c.

(** [s.toLowerCase()] *)
Fixpoint toLowerCase (s : string) : string :=
  match s with
  | EmptyString => EmptyString
  | String c r => String (lowerChar c) (toLowerCase r)
  end.

(** [s.replace(/([a-z])([A-Z])/g, "$1_$2")]: the scan consumes both
    characters of a match and resumes after them. *)
Fixpoint replaceLowerUpper (s : string) : string :=
  match s with
  | EmptyString => EmptyString
  | String a t =>
      match t with
      | EmptyString => s
      | String b r =>
          if isLower a && isUpper b
          then String a (String "_" (String b (replaceLowerUpper r)))
          else String a (replaceLowerUpper t)
      end
  end.

End JsString.
Import JsString.

(** ** Node's [path] module, POSIX flavour *)

Module Path.

Definition sep : string := "/".

(** [s.split("/")] *)
Fixpoint split (s : string) : list string :=
  match s with
  | EmptyString => [EmptyString]
  | String c r =>
      if Ascii.eqb c "/" then EmptyString :: split r
      else match split r with
           | h :: t => String c h :: t
           | [] => [String c EmptyString]
           end
  end.

(** One step of [normalizeString]: [res] holds the segments kept so
    far, the last one first. Empty and "." segments are dropped; ".."
    removes the last kept segment unless there is none or it is ".."
    itself, in which case it is kept when [allowAboveRoot] holds. *)
Definition normalizeStep (allowAboveRoot : bool) (res : list string) (seg : string)
  : list string :=
  if String.eqb seg EmptyString || String.eqb seg "." then res
  else if String.eqb seg ".." then
    match res with
    | last :: rest =>
        if String.eqb last ".." then (if allowAboveRoot then seg :: res else res)
        else rest
    | [] => if allowAboveRoot then [seg] else []
    end
  else seg :: res.

Definition normalizeString (path : string) (allowAboveRoot : bool) : string :=
  String.concat "/" (rev (fold_left (normalizeStep allowAboveRoot) (split path) [])).

Definition isAbsolute (path : string) : bool := startsWith path "/".

(** [path.normalize(p)] *)
Definition normalize (path : string) : string :=
  if negb (truthy path) then "."
  else
    let trailingSeparator := endsWith path "/" in
    let p := normalizeString path (negb (isAbsolute path)) in
    if negb (truthy p) then
      (if isAbsolute path then "/" else if trailingSeparator then "./" else ".")
    else
      let p := if trailingSeparator then p +:+ "/" else p in
      if isAbsolute path then "/" +:+ p else p.

(** [path.join(...args)]: the non-empty arguments joined by "/" and
    normalized. *)
Definition join (args : list string) : string :=
  match List.filter truthy args with
  | [] => "."
  | parts => normalize (String.concat "/" parts)
  end.

(** [path.resolve(...args)]: the arguments are taken from the right
    until an absolute one is met; the working directory [cwd] comes
    last. *)
Fixpoint resolveFrom (rargs : list string) (resolvedPath : string) : string * bool :=
  match rargs with
  | [] => (resolvedPath, false)
  | p :: rest =>
      if negb (truthy p) then resolveFrom rest resolvedPath
      else
        let resolvedPath := p +:+ "/" +:+ resolvedPath in
        if isAbsolute p then (resolvedPath, true) else resolveFrom rest resolvedPath
  end.

Definition resolve (cwd : string) (args : list string) : string :=
  let '(resolvedPath, resolvedAbsolute) := resolveFrom (rev (cwd :: args)) EmptyString in
  let resolvedPath := normalizeString resolvedPath (negb resolvedAbsolute) in
  if resolvedAbsolute then "/" +:+ resolvedPath
  else if truthy resolvedPath then resolvedPath else ".".

(** The backwards scan of [path.dirname] over the characters at the
    indices [len-1 .. 1], given last first: it stops at the first slash
    met after a character that is not a slash, and returns the
    characters before that slash (still last first). *)
Fixpoint dirnameScan (r : list ascii) (matchedSlash : bool) : option (list ascii) :=
  match r with
  | [] => None
  | c :: r' =>
      if Ascii.eqb c "/" then
        (if matchedSlash then dirnameScan r' true else Some r')
      else dirnameScan r' false
  end.

(** [path.dirname(p)] *)
Definition dirname (path : string) : string :=
  match path with
  | EmptyString => "."
  | String c0 rest =>
      let hasRoot := Ascii.eqb c0 "/" in
      match dirnameScan (rev (list_ascii_of_string rest)) true with
      | None => if hasRoot then "/" else "."
      | Some kept =>
          match kept with
          | [] => if hasRoot then "//" else String c0 EmptyString
          | _ :: _ => String c0 (string_of_list_ascii (rev kept))
          end
      end
  end.

End Path.

(** ** TypeScript syntax trees *)

(** The node kinds the provider tells apart; every other kind of node is
  [OtherNode], every other token [OtherToken]. *)
Inductive SyntaxKind :=
| SourceFile | Identifier | StringLiteral
| CallExpression | PropertyAccessExpression | ArrayLiteralExpression
| ArrowFunction | FunctionExpression
| VariableDeclaration | ClassDeclaration | MethodDeclaration
| PropertyDeclaration | FunctionDeclaration
| ImportKeyword | ExportKeyword | DefaultKeyword
| SyntaxList | OtherNode | OtherToken.

Definition SyntaxKind_eqb (a b : SyntaxKind) : bool :=
match a, b with
| SourceFile, SourceFile | Identifier, Identifier | StringLiteral, StringLiteral
| CallExpression, CallExpression
| PropertyAccessExpression, PropertyAccessExpression
| ArrayLiteralExpression, ArrayLiteralExpression
| ArrowFunction, ArrowFunction | FunctionExpression, FunctionExpression
| VariableDeclaration, VariableDeclaration | ClassDeclaration, ClassDeclaration
| MethodDeclaration, MethodDeclaration | PropertyDeclaration, PropertyDeclaration
| FunctionDeclaration, FunctionDeclaration
| ImportKeyword, ImportKeyword | ExportKeyword, ExportKeyword
| DefaultKeyword, DefaultKeyword
| SyntaxList, SyntaxList | OtherNode, OtherNode | OtherToken, OtherToken => true
| _, _ => false
end.

(** The properties of a node that hold child nodes. A property holding a
  node array ([arguments], [elements], [modifiers]) labels each of its
  members. *)
Inductive PropName :=
| p_expression | p_name | p_arguments | p_elements
| p_initializer | p_body | p_modifiers | p_other.

Definition PropName_eqb (a b : PropName) : bool :=
match a, b with
| p_expression, p_expression | p_name, p_name | p_arguments, p_arguments
| p_elements, p_elements | p_initializer, p_initializer | p_body, p_body
| p_modifiers, p_modifiers | p_other, p_other => true
| _, _ => false
end.

(** What [node.getChildren()] lists besides the child nodes themselves:
  the tokens between them and the [SyntaxList] wrapping each node
  array. [Child i] stands for the [i]-th child node. *)
Inductive Layout :=
| Child (i : nat)
| Token (tokenKind : SyntaxKind) (tokenStart tokenEnd : nat)
| List_ (listStart listEnd : nat) (items : list Layout).

(** A node: its kind, its [text] (of an identifier or string literal),
  [getStart()] and [getEnd()], its child nodes labelled by the property
  holding them, in the order [ts.forEachChild] visits them, and the
  layout of [getChildren()]. *)
Inductive Node := mkNode {
kind : SyntaxKind;
text : string;
getStart : nat;
getEnd : nat;
props : list (PropName * Node);
getChildren : list Layout
}.

(** A node of a source file is referred to by the indices of the child
  to take at each level, the innermost first: [i :: r] is the [i]-th
  child of [r], and [[]] is the source file itself. Two references are
  the same node exactly when they are equal. *)
Definition NodeRef := list nat.

Fixpoint NodeRef_eqb (a b : NodeRef) : bool :=
match a, b with
| [], [] => true
| x :: a', y :: b' => Nat.eqb x y && NodeRef_eqb a' b'
| _, _ => false
end.

Definition parent (r : NodeRef) : option NodeRef :=
match r with
| [] => None
| _ :: up => Some up
end.

Fixpoint nodeAt (sourceFile : Node) (r : NodeRef) : option Node :=
match r with
| [] => Some sourceFile
| i :: up =>
    match nodeAt sourceFile up with
    | Some n => option_map snd (nth_error (props n) i)
    | None => None
    end
end.

Section Tree.

Variable sourceFile : Node.

Definition hasKind (k : SyntaxKind) (r : NodeRef) : bool :=
  match nodeAt sourceFile r with
  | Some n => SyntaxKind_eqb (kind n) k
  | None => false
  end.

Definition textOf (r : NodeRef) : string :=
  match nodeAt sourceFile r with
  | Some n => text n
  | None => EmptyString
  end.

(** The indices of the children held by property [name]. *)
Fixpoint propIndices (name : PropName) (i : nat) (ps : list (PropName * Node)) : list nat :=
  match ps with
  | [] => []
  | (q, _) :: rest =>
      if PropName_eqb q name then i :: propIndices name (S i) rest
      else propIndices name (S i) rest
  end.

(** [r.<name>] for a property holding a node array. *)
Definition propList (name : PropName) (r : NodeRef) : list NodeRef :=
  match nodeAt sourceFile r with
  | Some n => map (fun i => i :: r) (propIndices name 0 (props n))
  | None => []
  end.

(** [r.<name>] for a property holding one node. *)
Definition prop (name : PropName) (r : NodeRef) : option NodeRef :=
  hd_error (propList name r).

(** [list.indexOf(node)] *)
Fixpoint indexOf (l : list NodeRef) (node : NodeRef) (i : nat) : option nat :=
  match l with
  | [] => None
  | x :: rest => if NodeRef_eqb x node then Some i else indexOf rest node (S i)
  end.

(** [r.modifiers?.some(m => m.kind === k)] *)
Definition hasModifier (k : SyntaxKind) (r : NodeRef) : bool :=
  existsb (hasKind k) (propList p_modifiers r).


(** ** Position Locator *)

(** The node [findNodeAtPosition] returns: a node of the tree, or one of
  the tokens and syntax lists that only [getChildren()] shows. The
  latter are never identifiers or string literals. *)
Inductive Located :=
| AstNode (r : NodeRef)
| Synthetic (k : SyntaxKind).

Section FirstSome.
Context {A B : Type} (f : A -> option B).

(** [for (const x of l) { const found = f(x); if (found) return found }] *)
Fixpoint firstSome (l : list A) : option B :=
  match l with
  | [] => None
  | x :: rest =>
      match f x with
      | Some y => Some y
      | None => firstSome rest
      end
  end.
End FirstSome.

Definition within (position start_ end_ : nat) : bool :=
(start_ <=? position)%nat && (position <=? end_)%nat.

(** [find] on a member of [getChildren()]; [found] holds the results of
  [find] on the child nodes. *)
Fixpoint findLayout (position : nat) (found : list (option Located)) (item : Layout)
{struct item} : option Located :=
match item with
| Child i => nth i found None
| Token k s e => if within position s e then Some (Synthetic k) else None
| List_ s e items =>
    if within position s e then
      match firstSome (findLayout position found) items with
      | Some f => Some f
      | None => Some (Synthetic SyntaxList)
      end
    else None
end.

Fixpoint find (position : nat) (node : Node) (self : NodeRef) {struct node}
: option Located :=
if within position (getStart node) (getEnd node) then
  let found :=
    (fix each (i : nat) (ps : list (PropName * Node)) : list (option Located) :=
       match ps with
       | [] => []
       | (_, c) :: rest => find position c (i :: self) :: each (S i) rest
       end) 0 (props node) in
  match firstSome (findLayout position found) (getChildren node) with
  | Some f => Some f
  | None => Some (AstNode self)
  end
else None.

Definition findNodeAtPosition (sourceFile : Node) (position : nat) : option Located :=
find position sourceFile [].

(** ** Context Classifier *)

Inductive ClickContext :=
| ControllerVariable (variableName : string) (methodName : option string)
| MethodString (controllerName : string) (methodName : string)
| ControllerImportPath (importPath : string)
| RoutesModule (moduleName : string).

Inductive HandlerInfo :=
| HandlerController (controllerName methodName : string)
| HandlerControllerVariable (variableName : string).

Definition routingVerbs : list string :=
["get"; "post"; "put"; "patch"; "delete"; "route"; "resource"; "group"].

(** [ts.isCallExpression(r) && ts.isPropertyAccessExpression(r.expression)
    && ok(r.expression.name.text)] *)
Definition isCallOnProperty (ok : string -> bool) (r : NodeRef) : bool :=
  hasKind CallExpression r &&
  match prop p_expression r with
  | Some callee =>
      hasKind PropertyAccessExpression callee &&
      match prop p_name callee with
      | Some name => ok (textOf name)
      | None => false
      end
  | None => false
  end.

Definition isRoutingVerb (methodName : string) : bool :=
  existsb (String.eqb methodName) routingVerbs.

Fixpoint findRouterCall (current : NodeRef) : option NodeRef :=
  if isCallOnProperty isRoutingVerb current then Some current
  else match current with
       | [] => None
       | _ :: up => findRouterCall up
       end.

Fixpoint findRoutesGroupCall (current : NodeRef) : option NodeRef :=
  if isCallOnProperty (String.eqb "group") current then Some current
  else match current with
       | [] => None
       | _ :: up => findRoutesGroupCall up
       end.

Definition parseHandlerArgument (arg : NodeRef) : option HandlerInfo :=
  let tuple :=
    if hasKind ArrayLiteralExpression arg then
      match propList p_elements arg with
      | [controllerExpr; methodExpr] =>
          if hasKind Identifier controllerExpr && hasKind StringLiteral methodExpr
          then Some (HandlerController (textOf controllerExpr) (textOf methodExpr))
          else None
      | _ => None
      end
    else None in
  match tuple with
  | Some h => Some h
  | None =>
      if hasKind ArrowFunction arg || hasKind FunctionExpression arg then None
      else if hasKind Identifier arg then Some (HandlerControllerVariable (textOf arg))
      else None
  end.

(** The loop over chained calls: while the parent of [currentCall] is
    a call expression, move to it and use its second argument if it
    has one. *)
Fixpoint chainedHandler (currentCall : NodeRef) : option HandlerInfo :=
  match currentCall with
  | [] => None
  | _ :: up =>
      if hasKind CallExpression up then
        match propList p_arguments up with
        | _ :: handlerArg :: _ => parseHandlerArgument handlerArg
        | _ => chainedHandler up
        end
      else None
  end.

Definition extractHandlerFromRouterCall (call : NodeRef) : option HandlerInfo :=
  match propList p_arguments call with
  | _ :: handlerArg :: _ => parseHandlerArgument handlerArg
  | _ => chainedHandler call
  end.


Definition analyzeIdentifierClick (node : NodeRef) : option ClickContext :=
let fromRouterCall :=
  match findRouterCall node with
  | Some routerCall =>
      match extractHandlerFromRouterCall routerCall with
      | Some handler =>
          let fromVariable :=
            match handler with
            | HandlerControllerVariable variableName =>
                if truthy variableName
                then Some (ControllerVariable variableName None)
                else None
            | HandlerController _ _ => None
            end in
          match fromVariable with
          | Some c => Some c
          | None =>
              match parent node with
              | Some up =>
                  if hasKind ArrayLiteralExpression up then
                    match propList p_elements up with
                    | [first; second] =>
                        if NodeRef_eqb first node && hasKind StringLiteral second
                        then Some (ControllerVariable (textOf node) None)
                        else None
                    | _ => None
                    end
                  else None
              | None => None
              end
          end
      | None => None
      end
  | None => None
  end in
match fromRouterCall with
| Some c => Some c
| None =>
    match findRoutesGroupCall node with
    | Some _ => Some (RoutesModule (textOf node))
    | None => None
    end
end.

(** The body of the loop of [isMethodStringInTuple]: at a two-element
    array literal [current], the literal [node] is looked up among the
    elements. *)
Definition methodStringTupleAt (node current : NodeRef) : option string :=
let elements := propList p_elements current in
if hasKind ArrayLiteralExpression current && (length elements =? 2)%nat then
  match indexOf elements node 0 with
  | Some 1 =>
      match elements with
      | controllerExpr :: _ =>
          if hasKind Identifier controllerExpr
          then Some (textOf controllerExpr)
          else None
      | [] => None
      end
  | _ => None
  end
else None.

(** The loop itself: [current] climbs from the literal to the root. *)
Fixpoint isMethodStringInTupleFrom (node current : NodeRef) : option string :=
match methodStringTupleAt node current with
| Some controllerName => Some controllerName
| None =>
    match current with
    | [] => None
    | _ :: up => isMethodStringInTupleFrom node up
    end
end.

Definition isMethodStringInTuple (node : NodeRef) : option string :=
isMethodStringInTupleFrom node node.

Definition analyzeStringLiteralClick (node : NodeRef) : option ClickContext :=
match isMethodStringInTuple node with
| Some controllerName => Some (MethodString controllerName (textOf node))
| None =>
    if startsWith (textOf node) "#controllers/"
    then Some (ControllerImportPath (textOf node))
    else None
end.

Definition analyzeClickContext (node : Located) : option ClickContext :=
match node with
| AstNode r =>
    if hasKind Identifier r then analyzeIdentifierClick r
    else if hasKind StringLiteral r then analyzeStringLiteralClick r
    else None
| Synthetic _ => None
end.

(** ** Reference Tracer *)

(** [r] is a call of [import] with a string literal as first argument:
    the text of that literal. *)
Definition importArgument (r : NodeRef) : option string :=
if hasKind CallExpression r then
  match prop p_expression r with
  | Some callee =>
      if hasKind ImportKeyword callee then
        match propList p_arguments r with
        | arg0 :: _ => if hasKind StringLiteral arg0 then Some (textOf arg0) else None
        | [] => None
        end
      else None
  | None => None
  end
else None.

(** What [visit] returns for [r] before it descends into the children. *)
Definition declaredImport (variableName : string) (r : NodeRef) : option string :=
if hasKind VariableDeclaration r then
  match prop p_name r with
  | Some name =>
      if hasKind Identifier name && String.eqb (textOf name) variableName then
        match prop p_initializer r with
        | Some initializer =>
            if hasKind ArrowFunction initializer then
              match prop p_body initializer with
              | Some body => importArgument body
              | None => None
              end
            else importArgument initializer
        | None => None
        end
      else None
  | None => None
  end
else None.

(** [ts.forEachChild(node, visit)] stops at the first child for which
    [visit] returns a truthy value; an empty import path is not one. *)
Definition truthyResult (o : option string) : option string :=
match o with
| Some s => if truthy s then Some s else None
| None => None
end.

Fixpoint visitImport (variableName : string) (n : Node) (self : NodeRef) {struct n}
: option string :=
match declaredImport variableName self with
| Some importPath => Some importPath
| None =>
    (fix each (i : nat) (ps : list (PropName * Node)) : option string :=
       match ps with
       | [] => None
       | (_, c) :: rest =>
           match truthyResult (visitImport variableName c (i :: self)) with
           | Some s => Some s
           | None => each (S i) rest
           end
       end) 0 (props n)
end.

Definition findControllerImportPath (variableName : string) : option string :=
visitImport variableName sourceFile [].

(** ** Member Locator *)

Record Candidate := { cnode : NodeRef; priority : nat }.

(** The climb from the parent of a method declaration: the first class
    declaration met decides; without one the priority stays 2. *)
Fixpoint classPriority (up : NodeRef) : nat :=
if hasKind ClassDeclaration up && hasModifier ExportKeyword up
   && hasModifier DefaultKeyword up then 1
else if hasKind ClassDeclaration up then 2
else match up with
     | [] => 2
     | _ :: up' => classPriority up'
     end.

Definition methodPriority (node : NodeRef) : nat :=
match parent node with
| Some up => classPriority up
| None => 2
end.

(** [node.name && ts.isIdentifier(node.name) && node.name.text === methodName] *)
Definition namedBy (methodName : string) (node : NodeRef) : option NodeRef :=
match prop p_name node with
| Some name =>
    if hasKind Identifier name && String.eqb (textOf name) methodName
    then Some name else None
| None => None
end.

(** The candidates [visit] pushes for [node] itself. *)
Definition ownCandidates (methodName : string) (node : NodeRef) : list Candidate :=
match namedBy methodName node with
| Some name =>
    (if hasKind MethodDeclaration node
     then [{| cnode := name; priority := methodPriority node |}] else []) ++
    (if hasKind PropertyDeclaration node
     then [{| cnode := name; priority := 2 |}] else []) ++
    (if hasKind FunctionDeclaration node && hasModifier ExportKeyword node
     then [{| cnode := name; priority := 3 |}] else [])
| None => []
end.

Fixpoint visitCandidates (methodName : string) (n : Node) (self : NodeRef) {struct n}
: list Candidate :=
ownCandidates methodName self ++
(fix each (i : nat) (ps : list (PropName * Node)) : list Candidate :=
   match ps with
   | [] => []
   | (_, c) :: rest => visitCandidates methodName c (i :: self) ++ each (S i) rest
   end) 0 (props n).

(** [candidates.sort((a, b) => a.priority - b.priority)]: the sort is
    stable, candidates of equal priority keep their order. *)
Fixpoint insertByPriority (c : Candidate) (sorted : list Candidate) : list Candidate :=
match sorted with
| [] => [c]
| x :: rest =>
    if (priority c <=? priority x)%nat then c :: x :: rest
    else x :: insertByPriority c rest
end.

Fixpoint sortByPriority (l : list Candidate) : list Candidate :=
match l with
| [] => []
| c :: rest => insertByPriority c (sortByPriority rest)
end.

Definition findBestMethodNameNode (methodName : string) : option NodeRef :=
match sortByPriority (visitCandidates methodName sourceFile []) with
| [] => None
| best :: _ => Some (cnode best)
end.

(** The candidates [findMethodInController] pushes for [node]: method
    declarations and exported function declarations only. The candidate
    is the declaration; its name is what gets located. *)
Definition ownDocumentCandidates (methodName : string) (node : NodeRef) : list Candidate :=
match namedBy methodName node with
| Some name =>
    (if hasKind MethodDeclaration node
     then [{| cnode := name; priority := methodPriority node |}] else []) ++
    (if hasKind FunctionDeclaration node && hasModifier ExportKeyword node
     then [{| cnode := name; priority := 3 |}] else [])
| None => []
end.

Fixpoint visitDocumentCandidates (methodName : string) (n : Node) (self : NodeRef)
{struct n} : list Candidate :=
ownDocumentCandidates methodName self ++
(fix each (i : nat) (ps : list (PropName * Node)) : list Candidate :=
   match ps with
   | [] => []
   | (_, c) :: rest => visitDocumentCandidates methodName c (i :: self) ++ each (S i) rest
   end) 0 (props n).

Definition findBestMethodNameInDocument (methodName : string) : option NodeRef :=
match sortByPriority (visitDocumentCandidates methodName sourceFile []) with
| [] => None
| best :: _ => Some (cnode best)
end.

End Tree.

(** ** Locations *)

Record Position := { line : nat; character : nat }.
Record Range := { range_start : Position; range_end : Position }.
Record Location := { uri : string; range : Range }.

Record LocationLink := {
  originSelectionRange : Range;
  targetUri : string;
  targetRange : Range;
  targetSelectionRange : Range
}.

(** What the provider hands back: a location, or the links built for a
    controller variable. *)
Inductive ProviderResult :=
| ResultLocation (l : Location)
| ResultLinks (links : list LocationLink).

Definition topOfFile (path : string) : Location :=
let zero := {| line := 0; character := 0 |} in
{| uri := path; range := {| range_start := zero; range_end := zero |} |}.

(** [ts.getLineAndCharacterOfPosition]: a line ends after "\n", after
    "\r\n" and after a lone "\r". *)
Fixpoint lineAndCharacter (text : string) (position : nat) (l c : nat) : Position :=
match position with
| O => {| line := l; character := c |}
| S position' =>
    match text with
    | EmptyString => {| line := l; character := c + position |}
    | String ch rest =>
        if Ascii.eqb ch "010" then lineAndCharacter rest position' (S l) 0
        else if Ascii.eqb ch "013" then
          match rest with
          | String "010" _ => lineAndCharacter rest position' l (S c)
          | _ => lineAndCharacter rest position' (S l) 0
          end
        else lineAndCharacter rest position' l (S c)
    end
end.

Definition getLineAndCharacterOfPosition (sourceFile : Node) (position : nat) : Position :=
lineAndCharacter (text sourceFile) position 0 0.

(** [document.positionAt(offset)]: the offset is first brought back into
    the text. *)
Definition positionAt (documentText : string) (offset : nat) : Position :=
lineAndCharacter documentText (Nat.min offset (String.length documentText)) 0 0.

(** The range of the name token [name] of [sourceFile]. *)
Definition nameRange (sourceFile : Node) (name : NodeRef) : Range :=
match nodeAt sourceFile name with
| Some n =>
    {| range_start := getLineAndCharacterOfPosition sourceFile (getStart n);
       range_end := getLineAndCharacterOfPosition sourceFile (getEnd n) |}
| None => range (topOfFile EmptyString)
end.

(** ** The host: file system, JSON, parser, open documents *)

Record PackageJson := { imports : option (gmap string string) }.

Record TextDocument := { fileName : string; getText : string }.

(** [statSync] gives the modification time of a file ([stat.mtime.getTime()]);
    [statSync], [readFileSync] and [JSON_parse] answer [None] where the
    JavaScript function throws. [createSourceFile name text] is the tree
    of [ts.createSourceFile(name, text, ...)] and [normalizePath name] the
    [fileName] that TypeScript gives to that source file: the name with
    its separators and dot segments normalized. *)
Record Host := {
  cwd : string;
  existsSync : string -> bool;
  statSync : string -> option Z;
  readFileSync : string -> option string;
  JSON_parse : string -> option PackageJson;
  createSourceFile : string -> string -> Node;
  normalizePath : string -> string;
  textDocuments : list TextDocument
}.

(** ** The provider's state and the monad of its methods *)

(** The reads and parses performed on behalf of the provider, latest
    first. *)
Inductive IO :=
| IOStat (path : string)
| IORead (path : string)
| IOParse (content : string).

Record State := {
  importsCache : gmap string (gmap string string);
  cacheTimestamps : gmap string Z;
  trace : list IO
}.

Definition freshState : State :=
{| importsCache := ∅; cacheTimestamps := ∅; trace := [] |}.

Inductive Outcome (A : Type) :=
| Returned (a : A)
| Thrown.
Arguments Returned {A} a.
Arguments Thrown {A}.

Definition M (A : Type) : Type := State -> Outcome A * State.

Definition ret {A} (a : A) : M A := fun s => (Returned a, s).

Definition throw {A} : M A := fun s => (Thrown, s).

Definition bind {A B} (m : M A) (k : A -> M B) : M B :=
fun s =>
  match m s with
  | (Returned a, s') => k a s'
  | (Thrown, s') => (Thrown, s')
  end.

(** [try { m } catch (error) { handler }] *)
Definition tryCatch {A} (m : M A) (handler : M A) : M A :=
fun s =>
  match m s with
  | (Returned a, s') => (Returned a, s')
  | (Thrown, s') => handler s'
  end.

Notation "x <- m ;; k" := (bind m (fun x => k))
  (at level 100, m at next level, right associativity).
Notation "m ;;; k" := (bind m (fun _ => k))
  (at level 100, right associativity).

Definition logIO (e : IO) : M unit :=
fun s => (Returned tt, {| importsCache := importsCache s;
                          cacheTimestamps := cacheTimestamps s;
                          trace := e :: trace s |}).

Definition setImportsCache (key : string) (v : gmap string string) : M unit :=
fun s => (Returned tt, {| importsCache := <[key := v]> (importsCache s);
                          cacheTimestamps := cacheTimestamps s;
                          trace := trace s |}).

Definition setCacheTimestamp (key : string) (t : Z) : M unit :=
fun s => (Returned tt, {| importsCache := importsCache s;
                          cacheTimestamps := <[key := t]> (cacheTimestamps s);
                          trace := trace s |}).

Definition getState : M State := fun s => (Returned s, s).

(** A host function that throws when it answers [None]. *)
Definition orThrow {A} (o : option A) : M A :=
match o with
| Some a => ret a
| None => throw
end.

(** A computation that returns or throws without touching the state. *)
Definition fromOutcome {A} (o : Outcome A) : M A := fun s => (o, s).

(** ** Alias Table and Target Resolver *)

Section Provider.

Variable host : Host.

(** The names of the members every object inherits from
    [Object.prototype]: functions and, for [__proto__], the prototype
    itself. All of them are truthy and none is a string. *)
Definition objectPrototypeKeys : list string :=
[ "constructor"; "__defineGetter__"; "__defineSetter__"; "hasOwnProperty";
  "__lookupGetter__"; "__lookupSetter__"; "isPrototypeOf";
  "propertyIsEnumerable"; "toString"; "valueOf"; "__proto__";
  "toLocaleString" ].

Definition isInherited (key : string) : bool :=
existsb (String.eqb key) objectPrototypeKeys.

(** What [imports[key]] evaluates to: the entry of the table under
    [key], else the member inherited under that name, else
    [undefined]. *)
Inductive Property :=
| OwnProperty (value : string)
| InheritedProperty
| Undefined.

Definition getProperty (imports : gmap string string) (key : string) : Property :=
match imports !! key with
| Some v => OwnProperty v
| None => if isInherited key then InheritedProperty else Undefined
end.

(** [imports[key]], kept only when truthy, for the keys ["#controllers/*"]
    and ["#routes/*"], which no object inherits. *)
Definition lookupMapping (imports : gmap string string) (key : string) : option string :=
match imports !! key with
| Some v => if truthy v then Some v else None
| None => None
end.

Definition timestampIs (s : State) (cacheKey : string) (mtime : Z) : bool :=
match cacheTimestamps s !! cacheKey with
| Some t => Z.eqb t mtime
| None => false
end.

Definition loadPackageImports (packageJsonPath : string) (mtime : Z) : M unit :=
tryCatch
  (logIO (IORead packageJsonPath) ;;;
   content <- orThrow (readFileSync host packageJsonPath) ;;
   logIO (IOParse content) ;;;
   packageJson <- orThrow (JSON_parse host content) ;;
   setImportsCache packageJsonPath (default ∅ (imports packageJson)) ;;;
   setCacheTimestamp packageJsonPath mtime)
  (setImportsCache packageJsonPath ∅).

Definition getPackageImports (projectRoot : string) : M (gmap string string) :=
let packageJsonPath := Path.join [projectRoot; "package.json"] in
logIO (IOStat packageJsonPath) ;;;
mtime <- orThrow (statSync host packageJsonPath) ;;
s <- getState ;;
(if timestampIs s packageJsonPath mtime then ret tt
 else loadPackageImports packageJsonPath mtime) ;;;
s' <- getState ;;
ret (default ∅ (importsCache s' !! packageJsonPath)).

(** [for (const p of paths) if (fs.existsSync(p)) return p] *)
Definition firstExisting (paths : list string) : option string :=
List.find (existsSync host) paths.

Definition snakeCase (controllerName : string) : string :=
toLowerCase (replaceLowerUpper controllerName).

Definition controllerPathCandidates (basePath controllerName : string) : list string :=
let snakeCaseName := snakeCase controllerName in
[ Path.join [basePath; snakeCaseName +:+ ".ts"];
  Path.join [basePath; snakeCaseName +:+ ".js"];
  Path.join [basePath; controllerName; "index.ts"];
  Path.join [basePath; controllerName; "index.js"];
  Path.join [basePath; controllerName +:+ ".ts"];
  Path.join [basePath; controllerName +:+ ".js"] ].

(** The body of [resolveControllerPath] once the imports are known. *)
Definition controllerPathIn (imports : gmap string string)
  (controllerName projectRoot : string) : option string :=
match lookupMapping imports "#controllers/*" with
| None => None
| Some controllersMapping =>
    let basePath := Path.resolve (cwd host) [projectRoot; Path.dirname controllersMapping] in
    firstExisting (controllerPathCandidates basePath controllerName)
end.

Definition resolveControllerPath (controllerName projectRoot : string) : M (option string) :=
imports <- getPackageImports projectRoot ;;
ret (controllerPathIn imports controllerName projectRoot).

(** The candidates for a mapped path: ".js" turned into ".ts", the path
    itself, and the two index files. *)
Definition mappedPathCandidates (resolvedPath : string) : list string :=
[ replace resolvedPath ".js" ".ts";
  resolvedPath;
  replaceSuffix resolvedPath ".ts" "/index.ts";
  replaceSuffix resolvedPath ".js" "/index.js" ].

Definition moduleCandidates (basePath controllerModule : string) : list string :=
[ Path.join [basePath; controllerModule +:+ ".ts"];
  Path.join [basePath; controllerModule +:+ ".js"];
  Path.join [basePath; controllerModule; "index.ts"];
  Path.join [basePath; controllerModule; "index.js"] ].

(** The second step of [resolveControllerFromImportPath]: the wildcard
    mapping of ["#controllers/*"]. *)
Definition wildcardLocation (imports : gmap string string)
  (importPath projectRoot : string) : option Location :=
if startsWith importPath "#controllers/" then
  match lookupMapping imports "#controllers/*" with
  | None => None
  | Some mappingPattern =>
      let controllerModule := substringFrom (String.length "#controllers/") importPath in
      if includes mappingPattern "*" then
        let mapped := replace mappingPattern "*" controllerModule in
        let resolvedPath := Path.resolve (cwd host) [projectRoot; mapped] in
        option_map topOfFile (firstExisting (mappedPathCandidates resolvedPath))
      else
        let basePath :=
          Path.resolve (cwd host) [projectRoot; Path.dirname mappingPattern] in
        option_map topOfFile (firstExisting (moduleCandidates basePath controllerModule))
  end
else None.

(** The exact mapping: the candidates of the mapped path. *)
Definition exactLocation (mapping projectRoot : string) : option Location :=
let resolvedPath := Path.resolve (cwd host) [projectRoot; mapping] in
option_map topOfFile (firstExisting (mappedPathCandidates resolvedPath)).

(** The body of [resolveControllerFromImportPath] once the imports are
    known. [imports[importPath]] is taken for the mapping whenever it is
    truthy; when it is an inherited member, [path.resolve] is handed a
    value that is not a string and throws. *)
Definition importPathLocation (imports : gmap string string)
  (importPath projectRoot : string) : Outcome (option Location) :=
match getProperty imports importPath with
| OwnProperty mapping =>
    if truthy mapping then Returned (exactLocation mapping projectRoot)
    else Returned (wildcardLocation imports importPath projectRoot)
| InheritedProperty => Thrown
| Undefined => Returned (wildcardLocation imports importPath projectRoot)
end.

Definition resolveControllerFromImportPath (importPath projectRoot : string)
: M (option Location) :=
imports <- getPackageImports projectRoot ;;
fromOutcome (importPathLocation imports importPath projectRoot).

(** The body of [resolveRoutesModule] once the imports are known. *)
Definition routesModuleLocation (imports : gmap string string)
  (moduleName projectRoot sourceFileName : string) : option Location :=
let fromMapping :=
  match lookupMapping imports "#routes/*" with
  | Some routesMapping =>
      let basePath :=
        Path.resolve (cwd host) [projectRoot; replace routesMapping "/*" EmptyString] in
      firstExisting [ Path.join [basePath; moduleName +:+ ".ts"];
                      Path.join [basePath; moduleName +:+ ".js"] ]
  | None => None
  end in
match fromMapping with
| Some p => Some (topOfFile p)
| None =>
    let currentDir := Path.dirname sourceFileName in
    let localPath := Path.join [currentDir; moduleName +:+ ".ts"] in
    if existsSync host localPath then Some (topOfFile localPath) else None
end.

Definition resolveRoutesModule (moduleName projectRoot sourceFileName : string)
: M (option Location) :=
imports <- getPackageImports projectRoot ;;
ret (routesModuleLocation imports moduleName projectRoot sourceFileName).

(** ** Locating the member in the target file *)

Definition findMethodInControllerFile (controllerPath methodName : string)
: M (option Location) :=
tryCatch
  (logIO (IORead controllerPath) ;;;
   text <- orThrow (readFileSync host controllerPath) ;;
   let sourceFile := createSourceFile host controllerPath text in
   match findBestMethodNameNode sourceFile methodName with
   | None => ret None
   | Some best =>
       ret (Some {| uri := controllerPath; range := nameRange sourceFile best |})
   end)
  (ret None).

Definition findMethodInController (document : TextDocument) (methodName : string)
: option Location :=
let sourceFile := createSourceFile host (fileName document) (getText document) in
match findBestMethodNameInDocument sourceFile methodName with
| None => None
| Some name =>
    match nodeAt sourceFile name with
    | Some n =>
        Some {| uri := fileName document;
                range := {| range_start := positionAt (getText document) (getStart n);
                            range_end := positionAt (getText document) (getEnd n) |} |}
    | None => None
    end
end.

(** ** Resolving a click context *)

(** [methodName] when it is given and truthy. *)
Definition givenMethod (methodName : option string) : option string :=
truthyResult methodName.

Definition resolveControllerDefinition
  (controllerName : string) (methodName : option string) (projectRoot : string)
: M (option Location) :=
controllerPath <- resolveControllerPath controllerName projectRoot ;;
match controllerPath with
| None => ret None
| Some controllerPath =>
    match givenMethod methodName with
    | None => ret (Some (topOfFile controllerPath))
    | Some methodName =>
        methodLocation <- findMethodInControllerFile controllerPath methodName ;;
        match methodLocation with
        | Some l => ret (Some l)
        | None => ret (Some (topOfFile controllerPath))
        end
    end
end.

Definition resolveControllerVariableDefinition
  (variableName : string) (methodName : option string) (projectRoot : string)
  (sourceFile : Node)
: M (option Location) :=
match truthyResult (findControllerImportPath sourceFile variableName) with
| None => ret None
| Some importPath =>
    location <- resolveControllerFromImportPath importPath projectRoot ;;
    match location with
    | None => ret None
    | Some location =>
        let controllerPath := uri location in
        let controllerDocument :=
          List.find (fun doc => String.eqb (fileName doc) controllerPath)
                    (textDocuments host) in
        match givenMethod methodName with
        | None => ret (Some (topOfFile (uri location)))
        | Some methodName =>
            methodLocation <-
              match controllerDocument with
              | Some doc => ret (findMethodInController doc methodName)
              | None => findMethodInControllerFile controllerPath methodName
              end ;;
            match methodLocation with
            | Some l => ret (Some l)
            | None => ret (Some (topOfFile (uri location)))
            end
        end
    end
end.

Definition resolveDefinition
  (context : ClickContext) (projectRoot : string) (sourceFile : Node)
  (sourceFileName : string)
: M (option Location) :=
match context with
| ControllerVariable variableName methodName =>
    if truthy variableName
    then resolveControllerVariableDefinition variableName methodName projectRoot sourceFile
    else ret None
| MethodString controllerName methodName =>
    if truthy controllerName
    then resolveControllerDefinition controllerName (Some methodName) projectRoot
    else ret None
| ControllerImportPath importPath =>
    if truthy importPath
    then resolveControllerFromImportPath importPath projectRoot
    else ret None
| RoutesModule moduleName =>
    if truthy moduleName
    then resolveRoutesModule moduleName projectRoot sourceFileName
    else ret None
end.

(** ** The resolve request *)

Definition isSupportedFile (filePath : string) : bool :=
let normalizedPath := Path.normalize filePath in
includes normalizedPath (Path.sep +:+ "routes" +:+ Path.sep) ||
endsWith normalizedPath (Path.sep +:+ "start" +:+ Path.sep +:+ "routes.ts").

(** The loop of [findProjectRoot]; the outer [None] is an exhausted
    [fuel]. *)
Fixpoint findProjectRootLoop (fuel : nat) (currentDir : string) : option (option string) :=
match fuel with
| O => None
| S fuel' =>
    if String.eqb currentDir (Path.dirname currentDir) then Some None
    else if existsSync host (Path.join [currentDir; "package.json"]) then Some (Some currentDir)
    else findProjectRootLoop fuel' (Path.dirname currentDir)
end.

(** Each turn of the loop shortens [currentDir] or reaches "." or "/",
    so the length of the first directory, plus two, is fuel enough. *)
Definition findProjectRoot (filePath : string) : option string :=
let currentDir := Path.dirname filePath in
match findProjectRootLoop (String.length currentDir + 2) currentDir with
| Some r => r
| None => None
end.

Definition getNodeRange (document : TextDocument) (sourceFile : Node) (node : NodeRef)
: Range :=
match nodeAt sourceFile node with
| Some n =>
    {| range_start := positionAt (getText document) (getStart n);
       range_end := positionAt (getText document) (getEnd n) |}
| None => range (topOfFile EmptyString)
end.

Definition isControllerVariable (context : ClickContext) : bool :=
match context with
| ControllerVariable _ _ => true
| _ => false
end.

(** The body of the [try] block of [provideDefinition]. *)
Definition provideDefinitionBody (document : TextDocument) (offset : nat)
: M (option ProviderResult) :=
let filePath := fileName document in
let sourceFile := createSourceFile host filePath (getText document) in
match findNodeAtPosition sourceFile offset with
| None => ret None
| Some node =>
    if negb (isSupportedFile filePath) then ret None
    else
      match truthyResult (findProjectRoot filePath) with
      | None => ret None
      | Some projectRoot =>
          match analyzeClickContext sourceFile node with
          | None => ret None
          | Some clickContext =>
              resolved <- resolveDefinition clickContext projectRoot sourceFile
                            (normalizePath host filePath) ;;
              match resolved with
              | None => ret None
              | Some resolved =>
                  match node with
                  | AstNode r =>
                      if isControllerVariable clickContext then
                        ret (Some (ResultLinks
                          [ {| originSelectionRange := getNodeRange document sourceFile r;
                               targetUri := uri resolved;
                               targetRange := range resolved;
                               targetSelectionRange := range resolved |} ]))
                      else ret (Some (ResultLocation resolved))
                  | Synthetic _ => ret (Some (ResultLocation resolved))
                  end
              end
          end
      end
end.

(** [provideDefinition]: whatever is thrown inside is caught and turned
    into "no result". *)
Definition provideDefinition (document : TextDocument) (offset : nat)
: State -> option ProviderResult * State :=
fun s =>
  match tryCatch (provideDefinitionBody document offset) (ret None) s with
  | (Returned r, s') => (r, s')
  | (Thrown, s') => (None, s')
  end.

End Provider.

(** * The end-to-end scenario *)

Module Scenario.

(** Building a node and a token leaf. *)
Definition leaf (k : SyntaxKind) (t : string) (s e : nat) : Node :=
{| kind := k; text := t; getStart := s; getEnd := e; props := []; getChildren := [] |}.

Definition node (k : SyntaxKind) (s e : nat) (ps : list (PropName * Node))
  (layout : list Layout) : Node :=
{| kind := k; text := EmptyString; getStart := s; getEnd := e;
   props := ps; getChildren := layout |}.

Definition newline : string := String "010" EmptyString.

(** The routes file, [/proj/start/routes.ts]. *)
Definition routesText : string :=
"const UserController = () => import('#controllers/user_controller')" +:+ newline +:+
"router.get('/users', [UserController, 'index'])".

(** [() => import('#controllers/user_controller')] *)
Definition factoryArrow : Node :=
node ArrowFunction 23 67
  [ (p_other, leaf OtherToken EmptyString 26 28);
    (p_body,
     node CallExpression 29 67
       [ (p_expression, leaf ImportKeyword EmptyString 29 35);
         (p_arguments, leaf StringLiteral "#controllers/user_controller" 36 66) ]
       [ Child 0; Token OtherToken 35 36; List_ 36 66 [Child 1]; Token OtherToken 66 67 ]) ]
  [ Token OtherToken 23 24; List_ 24 24 []; Token OtherToken 24 25; Child 0; Child 1 ].

(** [const UserController = ...] *)
Definition factoryStatement : Node :=
node OtherNode 0 67
  [ (p_other,
     node OtherNode 0 67
       [ (p_other,
          node VariableDeclaration 6 67
            [ (p_name, leaf Identifier "UserController" 6 20);
              (p_initializer, factoryArrow) ]
            [ Child 0; Token OtherToken 21 22; Child 1 ]) ]
       [ Token OtherToken 0 5; List_ 6 67 [Child 0] ]) ]
  [ Child 0 ].

(** [[UserController, 'index']] *)
Definition handlerTuple : Node :=
node ArrayLiteralExpression 89 114
  [ (p_elements, leaf Identifier "UserController" 90 104);
    (p_elements, leaf StringLiteral "index" 106 113) ]
  [ Token OtherToken 89 90;
    List_ 90 113 [Child 0; Token OtherToken 104 105; Child 1];
    Token OtherToken 113 114 ].

(** [router.get('/users', [UserController, 'index'])] *)
Definition routeStatement : Node :=
node OtherNode 68 115
  [ (p_expression,
     node CallExpression 68 115
       [ (p_expression,
          node PropertyAccessExpression 68 78
            [ (p_expression, leaf Identifier "router" 68 74);
              (p_name, leaf Identifier "get" 75 78) ]
            [ Child 0; Token OtherToken 74 75; Child 1 ]);
         (p_arguments, leaf StringLiteral "/users" 79 87);
         (p_arguments, handlerTuple) ]
       [ Child 0; Token OtherToken 78 79;
         List_ 79 114 [Child 1; Token OtherToken 87 88; Child 2];
         Token OtherToken 114 115 ]) ]
  [ Child 0 ].

Definition routesTree : Node :=
{| kind := SourceFile; text := routesText; getStart := 0; getEnd := 115;
   props := [ (p_other, factoryStatement); (p_other, routeStatement);
              (p_other, leaf OtherToken EmptyString 115 115) ];
   getChildren := [ List_ 0 115 [Child 0; Child 1]; Child 2 ] |}.

(** The controller, [/proj/app/controllers/user_controller.ts]. *)
Definition controllerText : string :=
"export default class UserController { index() {} }".

Definition indexMethod : Node :=
node MethodDeclaration 38 48
  [ (p_name, leaf Identifier "index" 38 43);
    (p_body, node OtherNode 46 48 []
               [ Token OtherToken 46 47; List_ 47 47 []; Token OtherToken 47 48 ]) ]
  [ Child 0; Token OtherToken 43 44; List_ 44 44 []; Token OtherToken 44 45; Child 1 ].

Definition controllerTree : Node :=
{| kind := SourceFile; text := controllerText; getStart := 0; getEnd := 50;
   props := [ (p_other,
               node ClassDeclaration 0 50
                 [ (p_modifiers, leaf ExportKeyword EmptyString 0 6);
                   (p_modifiers, leaf DefaultKeyword EmptyString 7 14);
                   (p_name, leaf Identifier "UserController" 21 35);
                   (p_other, indexMethod) ]
                 [ List_ 0 14 [Child 0; Child 1]; Token OtherToken 15 20; Child 2;
                   Token OtherToken 36 37; List_ 38 48 [Child 3];
                   Token OtherToken 49 50 ]);
              (p_other, leaf OtherToken EmptyString 50 50) ];
   getChildren := [ List_ 0 50 [Child 0]; Child 1 ] |}.

Definition quote : string := String "034" EmptyString.

Definition manifestText : string :=
"{" +:+ quote +:+ "imports" +:+ quote +:+ ": {" +:+
quote +:+ "#controllers/*" +:+ quote +:+ ": " +:+
quote +:+ "./app/controllers/*.js" +:+ quote +:+ "}}".

Definition manifest : PackageJson :=
{| imports := Some {[ "#controllers/*" := "./app/controllers/*.js" ]} |}.

Definition controllerPath : string := "/proj/app/controllers/user_controller.ts".

(** The project of the scenario laid over an arbitrary host [base]: the
    manifest at [/proj/package.json], none next to the routes file, and
    the controller file. Everything else is as [base] has it. *)
Definition scenarioHost (base : Host) (mtime : Z) : Host :=
{| cwd := cwd base;
   existsSync := fun p =>
     if String.eqb p "/proj/start/package.json" then false
     else if String.eqb p "/proj/package.json" then true
     else if String.eqb p controllerPath then true
     else existsSync base p;
   statSync := fun p =>
     if String.eqb p "/proj/package.json" then Some mtime else statSync base p;
   readFileSync := fun p =>
     if String.eqb p "/proj/package.json" then Some manifestText
     else if String.eqb p controllerPath then Some controllerText
     else readFileSync base p;
   JSON_parse := fun content =>
     if String.eqb content manifestText then Some manifest else JSON_parse base content;
   createSourceFile := fun name content =>
     if String.eqb content routesText then routesTree
     else if String.eqb content controllerText then controllerTree
     else createSourceFile base name content;
   normalizePath := normalizePath base;
   textDocuments := textDocuments base |}.

Definition routesDocument : TextDocument :=
{| fileName := "/proj/start/routes.ts"; getText := routesText |}.

End Scenario.


(** * Further inputs *)

Module Examples.

Import Scenario.

(** [router.get('/users', UsersController)]: the handler is a bare
    identifier. *)
Definition bareHandlerText : string := "router.get('/users', UsersController)".

Definition bareHandlerTree : Node :=
{| kind := SourceFile; text := bareHandlerText; getStart := 0; getEnd := 37;
   props :=
     [ (p_other,
        node OtherNode 0 37
          [ (p_expression,
             node CallExpression 0 37
               [ (p_expression,
                  node PropertyAccessExpression 0 10
                    [ (p_expression, leaf Identifier "router" 0 6);
                      (p_name, leaf Identifier "get" 7 10) ]
                    [ Child 0; Token OtherToken 6 7; Child 1 ]);
                 (p_arguments, leaf StringLiteral "/users" 11 19);
                 (p_arguments, leaf Identifier "UsersController" 21 36) ]
               [ Child 0; Token OtherToken 10 11;
                 List_ 11 36 [Child 1; Token OtherToken 19 20; Child 2];
                 Token OtherToken 36 37 ]) ]
          [ Child 0 ]);
       (p_other, leaf OtherToken EmptyString 37 37) ];
   getChildren := [ List_ 0 37 [Child 0]; Child 1 ] |}.

(** The receiver [router] of that call. *)
Definition receiverRef : NodeRef := [0; 0; 0; 0].

(** [router.get([Foo, 'x'], [UserController, 'index'])]: a tuple in the
    first argument. *)
Definition twoTuplesText : string :=
"router.get([Foo, 'x'], [UserController, 'index'])".

Definition twoTuplesTree : Node :=
{| kind := SourceFile; text := twoTuplesText; getStart := 0; getEnd := 49;
   props :=
     [ (p_other,
        node OtherNode 0 49
          [ (p_expression,
             node CallExpression 0 49
               [ (p_expression,
                  node PropertyAccessExpression 0 10
                    [ (p_expression, leaf Identifier "router" 0 6);
                      (p_name, leaf Identifier "get" 7 10) ]
                    [ Child 0; Token OtherToken 6 7; Child 1 ]);
                 (p_arguments,
                  node ArrayLiteralExpression 11 21
                    [ (p_elements, leaf Identifier "Foo" 12 15);
                      (p_elements, leaf StringLiteral "x" 17 20) ]
                    [ Token OtherToken 11 12;
                      List_ 12 20 [Child 0; Token OtherToken 15 16; Child 1];
                      Token OtherToken 20 21 ]);
                 (p_arguments,
                  node ArrayLiteralExpression 23 48
                    [ (p_elements, leaf Identifier "UserController" 24 38);
                      (p_elements, leaf StringLiteral "index" 40 47) ]
                    [ Token OtherToken 23 24;
                      List_ 24 47 [Child 0; Token OtherToken 38 39; Child 1];
                      Token OtherToken 47 48 ]) ]
               [ Child 0; Token OtherToken 10 11;
                 List_ 11 48 [Child 1; Token OtherToken 21 22; Child 2];
                 Token OtherToken 48 49 ]) ]
          [ Child 0 ]);
       (p_other, leaf OtherToken EmptyString 49 49) ];
   getChildren := [ List_ 0 49 [Child 0]; Child 1 ] |}.

(** [Foo], the first element of the tuple in the first argument. *)
Definition firstArgumentRef : NodeRef := [0; 1; 0; 0].

(** A target file with three declarations named [show]:
    [export class A { show() {} }],
    [export default class B { show() {} }] and
    [export function show() {}]. The member locator does not call
    [getChildren()], so the layouts list the child nodes only. *)
Definition threeShowsText : string :=
"export class A { show() {} }" +:+ newline +:+
"export default class B { show() {} }" +:+ newline +:+
"export function show() {}".

Definition block (s e : nat) : Node := node OtherNode s e [] [].

Definition threeShowsTree : Node :=
{| kind := SourceFile; text := threeShowsText; getStart := 0; getEnd := 91;
   props :=
     [ (p_other,
        node ClassDeclaration 0 28
          [ (p_modifiers, leaf ExportKeyword EmptyString 0 6);
            (p_name, leaf Identifier "A" 13 14);
            (p_other,
             node MethodDeclaration 17 26
               [ (p_name, leaf Identifier "show" 17 21); (p_body, block 24 26) ]
               [ Child 0; Child 1 ]) ]
          [ Child 0; Child 1; Child 2 ]);
       (p_other,
        node ClassDeclaration 29 65
          [ (p_modifiers, leaf ExportKeyword EmptyString 29 35);
            (p_modifiers, leaf DefaultKeyword EmptyString 36 43);
            (p_name, leaf Identifier "B" 50 51);
            (p_other,
             node MethodDeclaration 54 63
               [ (p_name, leaf Identifier "show" 54 58); (p_body, block 61 63) ]
               [ Child 0; Child 1 ]) ]
          [ Child 0; Child 1; Child 2; Child 3 ]);
       (p_other,
        node FunctionDeclaration 66 91
          [ (p_modifiers, leaf ExportKeyword EmptyString 66 72);
            (p_name, leaf Identifier "show" 82 86);
            (p_body, block 89 91) ]
          [ Child 0; Child 1; Child 2 ]);
       (p_other, leaf OtherToken EmptyString 91 91) ];
   getChildren := [ Child 0; Child 1; Child 2; Child 3 ] |}.

(** A target file in which the default export is made by a statement
    of its own: [export class A { show() {} }], [class B { show() {} }],
    [export default B] and [export function show() {}]. *)
Definition defaultByStatementText : string :=
"export class A { show() {} }" +:+ newline +:+
"class B { show() {} }" +:+ newline +:+
"export default B" +:+ newline +:+
"export function show() {}".

Definition defaultByStatementTree : Node :=
{| kind := SourceFile; text := defaultByStatementText; getStart := 0; getEnd := 93;
   props :=
     [ (p_other,
        node ClassDeclaration 0 28
          [ (p_modifiers, leaf ExportKeyword EmptyString 0 6);
            (p_name, leaf Identifier "A" 13 14);
            (p_other,
             node MethodDeclaration 17 26
               [ (p_name, leaf Identifier "show" 17 21); (p_body, block 24 26) ]
               [ Child 0; Child 1 ]) ]
          [ Child 0; Child 1; Child 2 ]);
       (p_other,
        node ClassDeclaration 29 50
          [ (p_name, leaf Identifier "B" 35 36);
            (p_other,
             node MethodDeclaration 39 48
               [ (p_name, leaf Identifier "show" 39 43); (p_body, block 46 48) ]
               [ Child 0; Child 1 ]) ]
          [ Child 0; Child 1 ]);
       (p_other,
        node OtherNode 51 67
          [ (p_expression, leaf Identifier "B" 66 67) ]
          [ Child 0 ]);
       (p_other,
        node FunctionDeclaration 68 93
          [ (p_modifiers, leaf ExportKeyword EmptyString 68 74);
            (p_name, leaf Identifier "show" 84 88);
            (p_body, block 91 93) ]
          [ Child 0; Child 1; Child 2 ]);
       (p_other, leaf OtherToken EmptyString 93 93) ];
   getChildren := [ Child 0; Child 1; Child 2; Child 3; Child 4 ] |}.

(** A project at [/proj] whose manifest holds [imports], with every
    path existing on disk. The file names used with it are in normal
    form already. *)
Definition projectHost (imports_ : option (gmap string string)) : Host :=
{| cwd := "/";
   existsSync := fun _ => true;
   statSync := fun _ => Some 1%Z;
   readFileSync := fun _ => Some "manifest";
   JSON_parse := fun _ => Some {| imports := imports_ |};
   createSourceFile := fun _ _ => controllerTree;
   normalizePath := fun name => name;
   textDocuments := [] |}.

Definition fooImports : gmap string string := {[ "#foo/*" := "./app/foo/*.js" ]}.

(** A routes file whose controller variable is bound to the import of a
    module named like a member of every object:
    [const UserController = () => import('toString')] and
    [router.get('/users', [UserController, 'index'])]. *)
Definition inheritedNameText : string :=
"const UserController = () => import('toString')" +:+ newline +:+
"router.get('/users', [UserController, 'index'])".

Definition inheritedNameTree : Node :=
{| kind := SourceFile; text := inheritedNameText; getStart := 0; getEnd := 95;
   props :=
     [ (p_other,
        node OtherNode 0 47
          [ (p_other,
             node OtherNode 0 47
               [ (p_other,
                  node VariableDeclaration 6 47
                    [ (p_name, leaf Identifier "UserController" 6 20);
                      (p_initializer,
                       node ArrowFunction 23 47
                         [ (p_other, leaf OtherToken EmptyString 26 28);
                           (p_body,
                            node CallExpression 29 47
                              [ (p_expression, leaf ImportKeyword EmptyString 29 35);
                                (p_arguments, leaf StringLiteral "toString" 36 46) ]
                              [ Child 0; Token OtherToken 35 36; List_ 36 46 [Child 1];
                                Token OtherToken 46 47 ]) ]
                         [ Token OtherToken 23 24; List_ 24 24 [];
                           Token OtherToken 24 25; Child 0; Child 1 ]) ]
                    [ Child 0; Token OtherToken 21 22; Child 1 ]) ]
               [ Token OtherToken 0 5; List_ 6 47 [Child 0] ]) ]
          [ Child 0 ]);
       (p_other,
        node OtherNode 48 95
          [ (p_expression,
             node CallExpression 48 95
               [ (p_expression,
                  node PropertyAccessExpression 48 58
                    [ (p_expression, leaf Identifier "router" 48 54);
                      (p_name, leaf Identifier "get" 55 58) ]
                    [ Child 0; Token OtherToken 54 55; Child 1 ]);
                 (p_arguments, leaf StringLiteral "/users" 59 67);
                 (p_arguments,
                  node ArrayLiteralExpression 69 94
                    [ (p_elements, leaf Identifier "UserController" 70 84);
                      (p_elements, leaf StringLiteral "index" 86 93) ]
                    [ Token OtherToken 69 70;
                      List_ 70 93 [Child 0; Token OtherToken 84 85; Child 1];
                      Token OtherToken 93 94 ]) ]
               [ Child 0; Token OtherToken 58 59;
                 List_ 59 94 [Child 1; Token OtherToken 67 68; Child 2];
                 Token OtherToken 94 95 ]) ]
          [ Child 0 ]);
       (p_other, leaf OtherToken EmptyString 95 95) ];
   getChildren := [ List_ 0 95 [Child 0; Child 1]; Child 2 ] |}.

Definition inheritedNameDocument : TextDocument :=
{| fileName := "/proj/start/routes.ts"; getText := inheritedNameText |}.

(** A project whose manifest has no [imports] field, with every path
    existing on disk, and the parser knowing the routes file above. *)
Definition noImportsHost : Host :=
{| cwd := "/";
   existsSync := fun _ => true;
   statSync := fun _ => Some 1%Z;
   readFileSync := fun _ => Some "manifest";
   JSON_parse := fun _ => Some {| imports := None |};
   createSourceFile := fun _ content =>
     if String.eqb content inheritedNameText then inheritedNameTree else controllerTree;
   normalizePath := fun name => name;
   textDocuments := [] |}.

(** The same project with a manifest that does not parse. *)
Definition brokenManifestHost : Host :=
{| cwd := "/";
   existsSync := fun _ => true;
   statSync := fun _ => Some 1%Z;
   readFileSync := fun _ => Some "{";
   JSON_parse := fun _ => None;
   createSourceFile := fun _ _ => controllerTree;
   normalizePath := fun name => name;
   textDocuments := [] |}.

End Examples.

(** * Specification-level definitions *)

(** The number of manifest parses recorded in a trace. *)
Fixpoint parseCount (t : list IO) : nat :=
match t with
| [] => 0
| IOParse _ :: rest => S (parseCount rest)
| _ :: rest => parseCount rest
end.

(** [seg] names a directory of [path]: it is one of the components
    separated by "/", the last one apart. *)
Definition isDirectorySegment (seg path : string) : bool :=
existsb (String.eqb seg) (removelast (Path.split path)).

(** The file a result points to. *)
Definition resultTarget (r : ProviderResult) : list string :=
match r with
| ResultLocation l => [uri l]
| ResultLinks links => map targetUri links
end.

(** An underscore between every lowercase letter and the uppercase
    letter that follows it. *)
Fixpoint underscoreAtBoundaries (s : string) : string :=
match s with
| EmptyString => EmptyString
| String a t =>
    match t with
    | String b _ =>
        if isLower a && isUpper b
        then String a (String "_" (underscoreAtBoundaries t))
        else String a (underscoreAtBoundaries t)
    | EmptyString => s
    end
end.

Section TreeSpec.

Variable sourceFile : Node.

(** The literal [node] is the second element of a two-element array
    literal whose first element is an identifier: the text of that
    identifier. *)
Definition secondOfIdentifierTuple (node : NodeRef) : option string :=
match parent node with
| Some up =>
    if hasKind sourceFile ArrayLiteralExpression up then
      match propList sourceFile p_elements up with
      | [first; second] =>
          if NodeRef_eqb second node && hasKind sourceFile Identifier first
          then Some (textOf sourceFile first)
          else None
      | _ => None
      end
    else None
| None => None
end.

(** The classification of a string literal, rule by rule. *)
Definition classifyStringLiteral (node : NodeRef) : option ClickContext :=
match secondOfIdentifierTuple node with
| Some controllerName => Some (MethodString controllerName (textOf sourceFile node))
| None =>
    if String.prefix "#controllers/" (textOf sourceFile node)
    then Some (ControllerImportPath (textOf sourceFile node))
    else None
end.

(** The nearest class declaration among [up] and its ancestors. *)
Fixpoint enclosingClass (up : NodeRef) : option NodeRef :=
if hasKind sourceFile ClassDeclaration up then Some up
else match up with
     | [] => None
     | _ :: up' => enclosingClass up'
     end.

(** The priority of a method declaration: 1 when the nearest class
    declaration around it carries both the [export] and the [default]
    modifier, 2 otherwise (any other class declaration, or none). *)
Definition methodPrioritySpec (node : NodeRef) : nat :=
match parent node with
| Some up =>
    match enclosingClass up with
    | Some c =>
        if hasModifier sourceFile ExportKeyword c && hasModifier sourceFile DefaultKeyword c
        then 1 else 2
    | None => 2
    end
| None => 2
end.

(** The nodes below [n] (at [self]) in document order. *)
Fixpoint preorder (n : Node) (self : NodeRef) {struct n} : list NodeRef :=
self ::
(fix each (i : nat) (ps : list (PropName * Node)) : list NodeRef :=
   match ps with
   | [] => []
   | (_, c) :: rest => preorder c (i :: self) ++ each (S i) rest
   end) 0 (props n).

(** [r] lies inside a declaration of [variableName] that is bound to
    a dynamic import. *)
Fixpoint insideDeclaredImport (variableName : string) (r : NodeRef) : bool :=
match r with
| [] => false
| _ :: up =>
    match declaredImport sourceFile variableName up with
    | Some _ => true
    | None => insideDeclaredImport variableName up
    end
end.

(** The import path a node offers to the search for [variableName]: the
    path of a declaration of the variable bound to a dynamic import,
    when it is not empty and the declaration does not lie inside
    another such declaration. *)
Definition offeredImport (variableName : string) (r : NodeRef) : option string :=
if insideDeclaredImport variableName r then None
else truthyResult (declaredImport sourceFile variableName r).

(** The identifier that names the declaration [node], when it spells
    [methodName]. *)
Definition nameSpelled (methodName : string) (node : NodeRef) : option NodeRef :=
match prop sourceFile p_name node with
| Some name =>
    if hasKind sourceFile Identifier name then
      if String.eqb (textOf sourceFile name) methodName then Some name else None
    else None
| None => None
end.

(** The score of a declaration: that of a method ([methodPrioritySpec]),
    2 for a property, 3 for a function declaration that carries the
    [export] modifier; other nodes have none. *)
Definition declarationScore (node : NodeRef) : option nat :=
if hasKind sourceFile MethodDeclaration node then Some (methodPrioritySpec node)
else if hasKind sourceFile PropertyDeclaration node then Some 2
else if hasKind sourceFile FunctionDeclaration node
        && hasModifier sourceFile ExportKeyword node then Some 3
else None.

(** The candidate a node stands for: a scored declaration named like
    the member. *)
Definition collectedCandidate (methodName : string) (node : NodeRef) : option Candidate :=
match nameSpelled methodName node, declarationScore node with
| Some name, Some score => Some {| cnode := name; priority := score |}
| _, _ => None
end.

(** The candidates of the whole file, in document order. *)
Definition collectedCandidates (methodName : string) : list Candidate :=
flat_map (fun node =>
            match collectedCandidate methodName node with
            | Some c => [c]
            | None => []
            end)
         (preorder sourceFile []).

End TreeSpec.

(** The resolvers run [getPackageImports] and then compute without
    touching the state. *)
Definition thenPure {A B} (f : A -> B) (r : Outcome A * State) : Outcome B * State :=
match r with
| (Returned a, s) => (Returned (f a), s)
| (Thrown, s) => (Thrown, s)
end.

(** The same for a resolver whose computation may throw. *)
Definition thenTry {A B} (f : A -> Outcome B) (r : Outcome A * State) : Outcome B * State :=
match r with
| (Returned a, s) => (f a, s)
| (Thrown, s) => (Thrown, s)
end.

(** The manifest of [projectRoot] can be read and parsed. *)
Definition manifestParses (host : Host) (projectRoot : string) : bool :=
match readFileSync host (Path.join [projectRoot; "package.json"]) with
| Some content =>
    match JSON_parse host content with
    | Some _ => true
    | None => false
    end
| None => false
end.

Section CacheRuns.

Variable host : Host.

(** What one run of [getPackageImports] does on the manifest at [key],
    case by case: the stat fails; the cached timestamp is current; the
    manifest is loaded; it cannot be read; it cannot be parsed. *)
Inductive ImportsRun (key : string) (s : State)
  : Outcome (gmap string string) -> State -> Prop :=
| RunStatFails :
    statSync host key = None ->
    ImportsRun key s Thrown
      {| importsCache := importsCache s; cacheTimestamps := cacheTimestamps s;
         trace := IOStat key :: trace s |}
| RunCacheHit mtime :
    statSync host key = Some mtime ->
    timestampIs s key mtime = true ->
    ImportsRun key s (Returned (default ∅ (importsCache s !! key)))
      {| importsCache := importsCache s; cacheTimestamps := cacheTimestamps s;
         trace := IOStat key :: trace s |}
| RunLoaded mtime content packageJson :
    statSync host key = Some mtime ->
    timestampIs s key mtime = false ->
    readFileSync host key = Some content ->
    JSON_parse host content = Some packageJson ->
    ImportsRun key s (Returned (default ∅ (imports packageJson)))
      {| importsCache := <[key := default ∅ (imports packageJson)]> (importsCache s);
         cacheTimestamps := <[key := mtime]> (cacheTimestamps s);
         trace := IOParse content :: IORead key :: IOStat key :: trace s |}
| RunUnreadable mtime :
    statSync host key = Some mtime ->
    timestampIs s key mtime = false ->
    readFileSync host key = None ->
    ImportsRun key s (Returned ∅)
      {| importsCache := <[key := ∅]> (importsCache s);
         cacheTimestamps := cacheTimestamps s;
         trace := IORead key :: IOStat key :: trace s |}
| RunMalformed mtime content :
    statSync host key = Some mtime ->
    timestampIs s key mtime = false ->
    readFileSync host key = Some content ->
    JSON_parse host content = None ->
    ImportsRun key s (Returned ∅)
      {| importsCache := <[key := ∅]> (importsCache s);
         cacheTimestamps := cacheTimestamps s;
         trace := IOParse content :: IORead key :: IOStat key :: trace s |}.

End CacheRuns.

(** [c] is the candidate picked from [cs]: no earlier candidate has a
    priority as low, no later one a lower priority. *)
Definition isBest (c : Candidate) (cs : list Candidate) : Prop :=
exists before after,
  cs = before ++ c :: after /\
  Forall (fun x => priority c < priority x) before /\
  Forall (fun x => priority c <= priority x) after.

(** * The earlier provider

    The repository keeps an earlier version of the provider beside the
    current one. It shares the locator, the walks to the enclosing
    calls, the handler parser, [getPackageImports] and
    [resolveRoutesModule]; the methods below differ. *)

Module Legacy.

Inductive ClickContext :=
| ControllerIdentifier (controllerName methodName : string)
| MethodString (controllerName methodName : string)
| ControllerImportPath (importPath : string)
| RoutesModule (moduleName : string).

Definition analyzeIdentifierClick (sourceFile : Node) (node : NodeRef)
: option ClickContext :=
let fromRouterCall :=
  match findRouterCall sourceFile node with
  | Some routerCall =>
      match extractHandlerFromRouterCall sourceFile routerCall with
      | Some (HandlerController controllerName methodName) =>
          Some (ControllerIdentifier controllerName methodName)
      | _ => None
      end
  | None => None
  end in
match fromRouterCall with
| Some c => Some c
| None =>
    match findRoutesGroupCall sourceFile node with
    | Some _ => Some (RoutesModule (textOf sourceFile node))
    | None => None
    end
end.

Definition analyzeStringLiteralClick (sourceFile : Node) (node : NodeRef)
: option ClickContext :=
match isMethodStringInTuple sourceFile node with
| Some controllerName => Some (MethodString controllerName (textOf sourceFile node))
| None =>
    if startsWith (textOf sourceFile node) "#controllers/"
    then Some (ControllerImportPath (textOf sourceFile node))
    else None
end.

Definition analyzeClickContext (sourceFile : Node) (node : Located)
: option ClickContext :=
match node with
| AstNode r =>
    if hasKind sourceFile Identifier r then analyzeIdentifierClick sourceFile r
    else if hasKind sourceFile StringLiteral r then analyzeStringLiteralClick sourceFile r
    else None
| Synthetic _ => None
end.

Section Provider.

Variable host : Host.

(** The body of [resolveControllerPath] once the imports are known: the
    base directory is the mapping without its first "/*", and the
    candidates are spelled like the controller name. *)
Definition controllerPathIn (imports : gmap string string)
  (controllerName projectRoot : string) : option string :=
match lookupMapping imports "#controllers/*" with
| None => None
| Some controllersMapping =>
    let basePath :=
      Path.resolve (cwd host) [projectRoot; replace controllersMapping "/*" EmptyString] in
    firstExisting host
      [ Path.join [basePath; controllerName +:+ ".ts"];
        Path.join [basePath; controllerName +:+ ".js"];
        Path.join [basePath; controllerName; "index.ts"];
        Path.join [basePath; controllerName; "index.js"] ]
end.

Definition resolveControllerPath (controllerName projectRoot : string) : M (option string) :=
imports <- getPackageImports host projectRoot ;;
ret (controllerPathIn imports controllerName projectRoot).

(** The member is located at the start of its name token. *)
Definition findMethodInController (document : TextDocument) (methodName : string)
: option Location :=
let sourceFile := createSourceFile host (fileName document) (getText document) in
match findBestMethodNameInDocument sourceFile methodName with
| None => None
| Some name =>
    match nodeAt sourceFile name with
    | Some n =>
        let position := positionAt (getText document) (getStart n) in
        Some {| uri := fileName document;
                range := {| range_start := position; range_end := position |} |}
    | None => None
    end
end.

Definition resolveControllerDefinition
  (controllerName : string) (methodName : option string) (projectRoot : string)
: M (option Location) :=
controllerPath <- resolveControllerPath controllerName projectRoot ;;
match controllerPath with
| None => ret None
| Some controllerPath =>
    match List.find (fun doc => String.eqb (fileName doc) controllerPath)
                    (textDocuments host) with
    | None => ret (Some (topOfFile controllerPath))
    | Some controllerDocument =>
        match givenMethod methodName with
        | None => ret (Some (topOfFile controllerPath))
        | Some methodName =>
            match findMethodInController controllerDocument methodName with
            | Some l => ret (Some l)
            | None => ret (Some (topOfFile controllerPath))
            end
        end
    end
end.

(** The body of [resolveControllerFromImportPath] once the imports are
    known: only an exact key is looked up. *)
Definition importPathLocation (imports : gmap string string)
  (importPath projectRoot : string) : Outcome (option Location) :=
match getProperty imports importPath with
| OwnProperty mapping =>
    if truthy mapping then Returned (exactLocation host mapping projectRoot)
    else Returned None
| InheritedProperty => Thrown
| Undefined => Returned None
end.

Definition resolveControllerFromImportPath (importPath projectRoot : string)
: M (option Location) :=
imports <- getPackageImports host projectRoot ;;
fromOutcome (importPathLocation imports importPath projectRoot).

Definition resolveDefinition
  (context : ClickContext) (projectRoot : string) (sourceFileName : string)
: M (option Location) :=
match context with
| ControllerIdentifier controllerName methodName =>
    if truthy controllerName
    then resolveControllerDefinition controllerName (Some methodName) projectRoot
    else ret None
| MethodString controllerName methodName =>
    if truthy controllerName
    then resolveControllerDefinition controllerName (Some methodName) projectRoot
    else ret None
| ControllerImportPath importPath =>
    if truthy importPath
    then resolveControllerFromImportPath importPath projectRoot
    else ret None
| RoutesModule moduleName =>
    if truthy moduleName
    then resolveRoutesModule host moduleName projectRoot sourceFileName
    else ret None
end.

(** The body of the [try] block of [provideDefinition]. *)
Definition provideDefinitionBody (document : TextDocument) (offset : nat)
: M (option Location) :=
let filePath := fileName document in
let sourceFile := createSourceFile host filePath (getText document) in
match findNodeAtPosition sourceFile offset with
| None => ret None
| Some node =>
    if negb (isSupportedFile filePath) then ret None
    else
      match truthyResult (findProjectRoot host filePath) with
      | None => ret None
      | Some projectRoot =>
          match analyzeClickContext sourceFile node with
          | None => ret None
          | Some clickContext =>
              resolveDefinition clickContext projectRoot (normalizePath host filePath)
          end
      end
end.

Definition provideDefinition (document : TextDocument) (offset : nat)
: State -> option Location * State :=
fun s =>
  match tryCatch (provideDefinitionBody document offset) (ret None) s with
  | (Returned r, s') => (r, s')
  | (Thrown, s') => (None, s')
  end.

End Provider.

End Legacy.

(** [path.dirname] applied [n] times. *)
Fixpoint dirnameIter (n : nat) (path : string) : string :=
match n with
| O => path
| S n' => dirnameIter n' (Path.dirname path)
end.

(** A directory the walk of [findProjectRoot] can stop at: one that is
    not its own parent. *)
Definition hasParent (dir : string) : bool :=
negb (String.eqb dir (Path.dirname dir)).

(** The spans of [r] and of all its ancestors contain [position], ends
    included. *)
Fixpoint spansContain (sourceFile : Node) (position : nat) (r : NodeRef) : bool :=
match nodeAt sourceFile r with
| Some n => within position (getStart n) (getEnd n)
| None => false
end &&
match r with
| [] => true
| _ :: up => spansContain sourceFile position up
end.

(** From [s] to [s'] the manifest at [key] was looked at, and nothing
    else of the caches was touched: the trace grew by entries that start
    with the stat of [key], and the cache entries of other manifests are
    the same. *)
Definition touchesOnly (key : string) (s s' : State) : Prop :=
(exists t, trace s' = t ++ IOStat key :: trace s) /\
forall other, other <> key ->
  importsCache s' !! other = importsCache s !! other /\
  cacheTimestamps s' !! other = cacheTimestamps s !! other.

(** No character of the string is an uppercase letter. *)
Fixpoint noUpper (s : string) : bool :=
match s with
| EmptyString => true
| String c r => negb (isUpper c) && noUpper r
end.

(** * Properties *)

(** Goals made of closed computations: conjunctions are taken apart,
    every equation is evaluated. *)
Ltac evaluate :=
  intros;
  repeat match goal with
         | |- _ /\ _ => split
         | |- Forall _ (_ :: _) => apply List.Forall_cons
         | |- Forall _ [] => apply List.Forall_nil
         | |- Forall _ (seq _ _) => cbn [seq]
         | |- _ = _ => vm_compute; reflexivity
         end.

(** ** The end-to-end scenario *)

(** C1 (the code departs from the specification at one offset). In the
    project of the scenario, whatever else the host holds, a click
    anywhere on the string ['index'] of the route (offsets 106 to 113)
    lands on that literal and resolves to the name token of the method
    [index] in [user_controller.ts] (line 0, columns 38 to 43); a click
    on the identifier [UserController] of the route at any offset but
    its first (offsets 91 to 104) lands on that identifier and resolves
    to the same file, at its top since a click on the identifier carries
    no method name. A click on the first character of the identifier
    (offset 90, the [U]) is not resolved: [findNodeAtPosition] counts
    the end of a span as part of it and takes the first member of
    [getChildren()] that contains the offset, which is the bracket
    before the identifier, and the request answers nothing. *)
Theorem C1_end_to_end_scenario (base : Host) (mtime : Z) :
  let host := Scenario.scenarioHost base mtime in
  let request := provideDefinition host Scenario.routesDocument in
  let methodNameToken :=
    {| range_start := {| line := 0; character := 38 |};
       range_end := {| line := 0; character := 43 |} |} in
  option_map text (nodeAt Scenario.routesTree [1; 2; 0; 1]) = Some "index" /\
  option_map text (nodeAt Scenario.controllerTree [0; 3; 0]) = Some "index" /\
  nameRange Scenario.controllerTree [0; 3; 0] = methodNameToken /\
  Forall (fun offset =>
            findNodeAtPosition Scenario.routesTree offset = Some (AstNode [1; 2; 0; 1]) /\
            fst (request offset freshState) =
              Some (ResultLocation {| uri := Scenario.controllerPath;
                                      range := methodNameToken |}))
         (seq 106 8) /\
  option_map text (nodeAt Scenario.routesTree [0; 2; 0; 1]) = Some "UserController" /\
  option_map getStart (nodeAt Scenario.routesTree [0; 2; 0; 1]) = Some 90 /\
  String.get 90 Scenario.routesText = Some "U"%char /\
  findNodeAtPosition Scenario.routesTree 90 = Some (Synthetic OtherToken) /\
  request 90 freshState = (None, freshState) /\
  Forall (fun offset =>
            findNodeAtPosition Scenario.routesTree offset = Some (AstNode [0; 2; 0; 1]) /\
            fst (request offset freshState) =
              Some (ResultLinks
                      [ {| originSelectionRange :=
                             {| range_start := {| line := 1; character := 22 |};
                                range_end := {| line := 1; character := 36 |} |};
                           targetUri := Scenario.controllerPath;
                           targetRange := range (topOfFile Scenario.controllerPath);
                           targetSelectionRange :=
                             range (topOfFile Scenario.controllerPath) |} ]))
         (seq 91 14).
Proof.
  intros host request methodNameToken.
  subst host request methodNameToken.
  evaluate.
Qed.

(** ** Identifier clicks *)

(** C3 (the code departs from the specification). In
    [router.get('/users', UsersController)] a click on the receiver
    [router] is classified as a controller variable named
    [UsersController]: when the handler is a bare identifier, any
    identifier of the call is taken for it. In
    [router.get([Foo, 'x'], [UserController, 'index'])] a click on [Foo],
    inside the first argument, is classified as a controller variable as
    well. *)
Theorem C3_identifier_elsewhere_in_the_call :
  findNodeAtPosition Examples.bareHandlerTree 3 = Some (AstNode Examples.receiverRef) /\
  option_map text (nodeAt Examples.bareHandlerTree Examples.receiverRef) = Some "router" /\
  analyzeClickContext Examples.bareHandlerTree (AstNode Examples.receiverRef)
    = Some (ControllerVariable "UsersController" None) /\
  findNodeAtPosition Examples.twoTuplesTree 13 = Some (AstNode Examples.firstArgumentRef) /\
  option_map text (nodeAt Examples.twoTuplesTree Examples.firstArgumentRef) = Some "Foo" /\
  analyzeClickContext Examples.twoTuplesTree (AstNode Examples.firstArgumentRef)
    = Some (ControllerVariable "Foo" None).
Proof. evaluate. Qed.

(** ** The alias table and its cache *)

Section CacheFacts.

Variable host : Host.

Lemma getPackageImports_run (projectRoot : string) (s : State) :
  ImportsRun host (Path.join [projectRoot; "package.json"]) s
    (fst (getPackageImports host projectRoot s))
    (snd (getPackageImports host projectRoot s)).
Proof.
  unfold getPackageImports, bind, logIO, orThrow, getState, ret, throw. cbn.
  set (key := Path.join [projectRoot; "package.json"]).
  destruct (statSync host key) as [mtime|] eqn:Hstat; cbn.
  2: { now apply RunStatFails. }
  destruct (timestampIs _ key mtime) eqn:Hts; cbn.
  { now apply RunCacheHit with (mtime := mtime). }
  assert (Hts' : timestampIs s key mtime = false) by exact Hts.
  unfold loadPackageImports, tryCatch, bind, logIO, orThrow, setImportsCache,
    setCacheTimestamp, ret, throw; cbn.
  destruct (readFileSync host key) as [content|] eqn:Hread; cbn.
  2: { rewrite lookup_insert_eq. now apply RunUnreadable with (mtime := mtime). }
  destruct (JSON_parse host content) as [packageJson|] eqn:Hparse; cbn.
  - rewrite lookup_insert_eq. now apply RunLoaded with (mtime := mtime).
  - rewrite lookup_insert_eq. now apply RunMalformed with (mtime := mtime).
Qed.

Lemma resolveControllerFromImportPath_run importPath projectRoot s :
  resolveControllerFromImportPath host importPath projectRoot s =
  thenTry (fun imports => importPathLocation host imports importPath projectRoot)
          (getPackageImports host projectRoot s).
Proof.
  unfold resolveControllerFromImportPath, bind, fromOutcome, thenTry.
  now destruct (getPackageImports host projectRoot s) as [[imports|] s'].
Qed.

Lemma resolveControllerPath_run controllerName projectRoot s :
  resolveControllerPath host controllerName projectRoot s =
  thenPure (fun imports => controllerPathIn host imports controllerName projectRoot)
           (getPackageImports host projectRoot s).
Proof.
  unfold resolveControllerPath, bind, ret, thenPure.
  now destruct (getPackageImports host projectRoot s) as [[imports|] s'].
Qed.

Lemma resolveRoutesModule_run moduleName projectRoot sourceFileName s :
  resolveRoutesModule host moduleName projectRoot sourceFileName s =
  thenPure (fun imports =>
              routesModuleLocation host imports moduleName projectRoot sourceFileName)
           (getPackageImports host projectRoot s).
Proof.
  unfold resolveRoutesModule, bind, ret, thenPure.
  now destruct (getPackageImports host projectRoot s) as [[imports|] s'].
Qed.

Lemma lookupMapping_empty key : lookupMapping ∅ key = None.
Proof. unfold lookupMapping. now rewrite lookup_empty. Qed.

Lemma wildcardLocation_empty importPath projectRoot :
  wildcardLocation host ∅ importPath projectRoot = None.
Proof.
  unfold wildcardLocation. rewrite lookupMapping_empty.
  now destruct (startsWith importPath "#controllers/").
Qed.

(** With an empty table the lookup of an import path finds nothing of
    the table: it finds an inherited member or nothing at all. *)
Lemma importPathLocation_empty importPath projectRoot :
  importPathLocation host ∅ importPath projectRoot =
  if isInherited importPath then Thrown else Returned None.
Proof.
  unfold importPathLocation, getProperty. rewrite lookup_empty.
  destruct (isInherited importPath); [reflexivity|].
  now rewrite wildcardLocation_empty.
Qed.

Lemma controllerPathIn_empty controllerName projectRoot :
  controllerPathIn host ∅ controllerName projectRoot = None.
Proof. unfold controllerPathIn. now rewrite lookupMapping_empty. Qed.

Lemma getPackageImports_loaded projectRoot s mtime content packageJson :
  let key := Path.join [projectRoot; "package.json"] in
  statSync host key = Some mtime ->
  timestampIs s key mtime = false ->
  readFileSync host key = Some content ->
  JSON_parse host content = Some packageJson ->
  getPackageImports host projectRoot s =
  (Returned (default ∅ (imports packageJson)),
   {| importsCache := <[key := default ∅ (imports packageJson)]> (importsCache s);
      cacheTimestamps := <[key := mtime]> (cacheTimestamps s);
      trace := IOParse content :: IORead key :: IOStat key :: trace s |}).
Proof.
  intros key Hstat Hts Hread Hparse.
  pose proof (getPackageImports_run projectRoot s) as R. fold key in R.
  destruct (getPackageImports host projectRoot s) as [o s1]; cbn [fst snd] in R.
  inversion R; subst; simplify_eq; try congruence; reflexivity.
Qed.

Lemma getPackageImports_hit projectRoot s mtime :
  let key := Path.join [projectRoot; "package.json"] in
  statSync host key = Some mtime ->
  timestampIs s key mtime = true ->
  getPackageImports host projectRoot s =
  (Returned (default ∅ (importsCache s !! key)),
   {| importsCache := importsCache s; cacheTimestamps := cacheTimestamps s;
      trace := IOStat key :: trace s |}).
Proof.
  intros key Hstat Hts.
  pose proof (getPackageImports_run projectRoot s) as R. fold key in R.
  destruct (getPackageImports host projectRoot s) as [o s1]; cbn [fst snd] in R.
  inversion R; subst; simplify_eq; try congruence; reflexivity.
Qed.

(** Running [getPackageImports] a second time, right after a first run,
    gives the same outcome; when the manifest parses, the second run
    only stats the manifest and the two runs together parse at most
    once. *)
Lemma getPackageImports_twice projectRoot s :
  let first := getPackageImports host projectRoot s in
  let second := getPackageImports host projectRoot (snd first) in
  fst second = fst first /\
  (manifestParses host projectRoot = true ->
   trace (snd second)
     = IOStat (Path.join [projectRoot; "package.json"]) :: trace (snd first) /\
   parseCount (trace (snd first)) <= S (parseCount (trace s))).
Proof.
  cbv zeta.
  pose proof (getPackageImports_run projectRoot s) as R1.
  destruct (getPackageImports host projectRoot s) as [o1 s1]; cbn [fst snd] in *.
  pose proof (getPackageImports_run projectRoot s1) as R2.
  destruct (getPackageImports host projectRoot s1) as [o2 s2]; cbn [fst snd] in *.
  unfold manifestParses.
  set (key := Path.join [projectRoot; "package.json"]) in *.
  inversion R1; subst; inversion R2; subst; simplify_eq.
  all: unfold timestampIs in *; cbn [cacheTimestamps importsCache trace] in *.
  all: try congruence.
  all: try rewrite lookup_insert_eq in *; try rewrite Z.eqb_refl in *; try discriminate.
  all: (split; [reflexivity|]).
  all: intros Hparses.
  all: repeat match goal with
              | H : readFileSync _ _ = _ |- _ => rewrite H in Hparses; clear H
              | H : JSON_parse _ _ = _ |- _ => rewrite H in Hparses; clear H
              end.
  all: try discriminate.
  all: cbn; split; [reflexivity|lia].
Qed.

(** The same for a resolver, which computes its answer from the imports
    without touching the state. *)
Lemma thenTry_twice {B} (f : gmap string string -> Outcome B) projectRoot s :
  let first := thenTry f (getPackageImports host projectRoot s) in
  let second := thenTry f (getPackageImports host projectRoot (snd first)) in
  fst second = fst first /\
  (manifestParses host projectRoot = true ->
   trace (snd second)
     = IOStat (Path.join [projectRoot; "package.json"]) :: trace (snd first) /\
   parseCount (trace (snd second)) <= S (parseCount (trace s))).
Proof.
  cbv zeta.
  pose proof (getPackageImports_twice projectRoot s) as [Hsame Hparses].
  destruct (getPackageImports host projectRoot s) as [o1 s1]; cbn [fst snd] in *.
  assert (Hs1 : snd (thenTry f (o1, s1)) = s1) by now destruct o1.
  rewrite Hs1.
  destruct (getPackageImports host projectRoot s1) as [o2 s2]; cbn [fst snd] in *.
  subst o2. split.
  - now destruct o1.
  - intros Hp. destruct (Hparses Hp) as [Heq Hle].
    assert (Hs2 : snd (thenTry f (o1, s2)) = s2) by now destruct o1.
    rewrite Hs2. split; [exact Heq|]. rewrite Heq. cbn [parseCount]. exact Hle.
Qed.

Lemma thenPure_thenTry {A B} (f : A -> B) (r : Outcome A * State) :
  thenPure f r = thenTry (fun a => Returned (f a)) r.
Proof. now destruct r as [[a|] s]. Qed.

Lemma thenPure_twice {B} (f : gmap string string -> B) projectRoot s :
  let first := thenPure f (getPackageImports host projectRoot s) in
  let second := thenPure f (getPackageImports host projectRoot (snd first)) in
  fst second = fst first /\
  (manifestParses host projectRoot = true ->
   trace (snd second)
     = IOStat (Path.join [projectRoot; "package.json"]) :: trace (snd first) /\
   parseCount (trace (snd second)) <= S (parseCount (trace s))).
Proof.
  cbv zeta. rewrite !thenPure_thenTry. apply thenTry_twice.
Qed.

End CacheFacts.

(** ** Resolving import paths and controller names *)

Lemma find_first {A} (f : A -> bool) (l : list A) :
  match List.find f l with
  | Some p =>
      exists before after,
        l = before ++ p :: after /\ f p = true /\
        Forall (fun q => f q = false) before
  | None => Forall (fun q => f q = false) l
  end.
Proof.
  induction l as [|x l IH]; cbn.
  - constructor.
  - destruct (f x) eqn:Hx.
    + exists [], l. repeat split; auto.
    + destruct (List.find f l) as [p|].
      * destruct IH as (before & after & -> & Hp & Hb).
        exists (x :: before), after. repeat split; auto.
      * constructor; auto.
Qed.

(** *** Snake case *)

Lemma isUpper_not_isLower c : isUpper c = true -> isLower c = false.
Proof.
  unfold isUpper, isLower. cbv zeta.
  rewrite !andb_true_iff, andb_false_iff, !Nat.leb_le, !Nat.leb_gt. lia.
Qed.

Lemma replaceLowerUpper_upper b r :
  isUpper b = true -> replaceLowerUpper (String b r) = String b (replaceLowerUpper r).
Proof.
  intros Hb. cbn. destruct r as [|c r]; [reflexivity|].
  now rewrite (isUpper_not_isLower b Hb).
Qed.

Lemma underscoreAtBoundaries_upper b r :
  isUpper b = true ->
  underscoreAtBoundaries (String b r) = String b (underscoreAtBoundaries r).
Proof.
  intros Hb. cbn. destruct r as [|c r]; [reflexivity|].
  now rewrite (isUpper_not_isLower b Hb).
Qed.

(** The scan of the regular expression, which jumps over both characters
    of a match, marks the same places as a scan that looks at every pair
    of neighbours. *)
Lemma replaceLowerUpper_boundaries s :
  replaceLowerUpper s = underscoreAtBoundaries s.
Proof.
  assert (H : forall n s, String.length s <= n ->
                          replaceLowerUpper s = underscoreAtBoundaries s).
  { clear s. induction n as [|n IH]; intros s Hlen.
    - destruct s; [reflexivity|cbn in Hlen; lia].
    - destruct s as [|a [|b r]]; try reflexivity.
      cbn in Hlen.
      change (replaceLowerUpper (String a (String b r)))
        with (if isLower a && isUpper b
              then String a (String "_" (String b (replaceLowerUpper r)))
              else String a (replaceLowerUpper (String b r))).
      change (underscoreAtBoundaries (String a (String b r)))
        with (if isLower a && isUpper b
              then String a (String "_" (underscoreAtBoundaries (String b r)))
              else String a (underscoreAtBoundaries (String b r))).
      destruct (isLower a && isUpper b) eqn:Hab.
      + apply andb_true_iff in Hab as [_ Hb].
        rewrite (underscoreAtBoundaries_upper b r Hb).
        rewrite (IH r) by lia. reflexivity.
      + rewrite (IH (String b r)) by (cbn; lia). reflexivity. }
  apply (H (String.length s)). lia.
Qed.

(** C5. A bare controller name is turned into a file name by putting an
    underscore at every boundary between a lowercase and an uppercase
    letter and lowercasing the whole ([UserPostController] gives
    [user_post_controller]); with a mapping for ["#controllers/*"] the
    resolver then probes, under the directory of that mapping,
    [<snake>.ts], [<snake>.js], [<Name>/index.ts], [<Name>/index.js],
    [<Name>.ts] and [<Name>.js] in this order, returns the first path
    that exists and nothing when none exists. *)
Theorem C5_bare_controller_name
  (host : Host) (controllerName projectRoot : string) (s s' : State)
  (imports : gmap string string) (mapping : string) :
  getPackageImports host projectRoot s = (Returned imports, s') ->
  lookupMapping imports "#controllers/*" = Some mapping ->
  let basePath := Path.resolve (cwd host) [projectRoot; Path.dirname mapping] in
  let snake := toLowerCase (underscoreAtBoundaries controllerName) in
  let candidates :=
    [ Path.join [basePath; snake +:+ ".ts"];
      Path.join [basePath; snake +:+ ".js"];
      Path.join [basePath; controllerName; "index.ts"];
      Path.join [basePath; controllerName; "index.js"];
      Path.join [basePath; controllerName +:+ ".ts"];
      Path.join [basePath; controllerName +:+ ".js"] ] in
  snakeCase "UserPostController" = "user_post_controller" /\
  snakeCase controllerName = snake /\
  exists found,
    resolveControllerPath host controllerName projectRoot s = (Returned found, s') /\
    match found with
    | Some p =>
        exists before after,
          candidates = before ++ p :: after /\
          existsSync host p = true /\
          Forall (fun q => existsSync host q = false) before
    | None => Forall (fun q => existsSync host q = false) candidates
    end.
Proof.
  intros Hrun Hmapping basePath snake candidates.
  split; [reflexivity|].
  assert (Hsnake : snakeCase controllerName = snake).
  { unfold snakeCase, snake. now rewrite replaceLowerUpper_boundaries. }
  split; [exact Hsnake|].
  exists (firstExisting host candidates). split.
  - rewrite resolveControllerPath_run, Hrun. cbn [thenPure].
    unfold controllerPathIn. rewrite Hmapping.
    unfold controllerPathCandidates. rewrite Hsnake. reflexivity.
  - apply find_first.
Qed.

Lemma C5_bare_controller_name_witness :
  let host := Examples.projectHost
                (Some {[ "#controllers/*" := "./app/controllers/*.js" ]}) in
  snakeCase "UserPostController" = "user_post_controller" /\
  fst (resolveControllerPath host "UserPostController" "/proj" freshState)
    = Returned (Some "/proj/app/controllers/user_post_controller.ts").
Proof.
  intros host.
  destruct (C5_bare_controller_name host "UserPostController" "/proj" freshState
              (snd (getPackageImports host "/proj" freshState))
              {[ "#controllers/*" := "./app/controllers/*.js" ]}
              "./app/controllers/*.js")
    as (Hexample & _ & found & Hrun & _);
    [vm_compute; reflexivity | vm_compute; reflexivity |].
  split; [exact Hexample|].
  vm_compute. reflexivity.
Defined.

(** ** A manifest without imports *)

(** C7 (the code departs from the specification on inherited names).
    When the manifest is there and is loaded, and it has no [imports]
    field, the alias table is empty. Whichever files exist, a bare
    controller name resolves to nothing, and so does an import path (by
    exact key or by wildcard) unless it is the name of a member every
    object inherits, now and on later requests served from the cache.
    For such a name, [toString] for one, [imports[importPath]] is the
    inherited member, it is taken for a mapping, and the resolver throws
    instead of returning nothing. A routes file can bring this about:
    with [const UserController = () => import('toString')] a click on
    the controller of [[UserController, 'index']] throws inside the
    request, which then answers nothing. *)
Theorem C7_manifest_without_imports
  (host : Host) (projectRoot : string) (s : State) (mtime : Z) (content : string) :
  let key := Path.join [projectRoot; "package.json"] in
  statSync host key = Some mtime ->
  timestampIs s key mtime = false ->
  readFileSync host key = Some content ->
  JSON_parse host content = Some {| imports := None |} ->
  let s' := snd (getPackageImports host projectRoot s) in
  fst (getPackageImports host projectRoot s) = Returned ∅ /\
  importsCache s' !! key = Some ∅ /\
  (forall importPath,
     let outcome := if isInherited importPath then Thrown else Returned None in
     fst (resolveControllerFromImportPath host importPath projectRoot s) = outcome /\
     fst (resolveControllerFromImportPath host importPath projectRoot s') = outcome) /\
  (forall controllerName,
     fst (resolveControllerPath host controllerName projectRoot s) = Returned None /\
     fst (resolveControllerPath host controllerName projectRoot s') = Returned None) /\
  isInherited "toString" = true /\
  findNodeAtPosition Examples.inheritedNameTree 75 = Some (AstNode [0; 2; 0; 1]) /\
  analyzeClickContext Examples.inheritedNameTree (AstNode [0; 2; 0; 1])
    = Some (ControllerVariable "UserController" None) /\
  findControllerImportPath Examples.inheritedNameTree "UserController" = Some "toString" /\
  fst (provideDefinitionBody Examples.noImportsHost Examples.inheritedNameDocument 75
         freshState) = Thrown /\
  fst (provideDefinition Examples.noImportsHost Examples.inheritedNameDocument 75
         freshState) = None.
Proof.
  intros key Hstat Hts Hread Hparse s'.
  pose proof (getPackageImports_loaded host projectRoot s mtime content _
                Hstat Hts Hread Hparse) as E1.
  fold key in E1. cbn [imports default] in E1.
  assert (E2 : fst (getPackageImports host projectRoot s') = Returned ∅).
  { subst s'. rewrite E1. cbn [snd].
    rewrite (getPackageImports_hit host projectRoot _ mtime); fold key.
    - cbn. now rewrite lookup_insert_eq.
    - exact Hstat.
    - unfold timestampIs. cbn. now rewrite lookup_insert_eq, Z.eqb_refl. }
  split; [now rewrite E1|].
  split; [subst s'; rewrite E1; cbn; apply lookup_insert_eq|].
  split; [intros x; cbv zeta; split|split; [intros x; split|]].
  - rewrite resolveControllerFromImportPath_run, E1. cbn [thenTry fst].
    apply importPathLocation_empty.
  - rewrite resolveControllerFromImportPath_run.
    destruct (getPackageImports host projectRoot s') as [o2 s2]; cbn in E2; subst o2.
    cbn [thenTry fst]. apply importPathLocation_empty.
  - rewrite resolveControllerPath_run, E1. cbn.
    now rewrite controllerPathIn_empty.
  - rewrite resolveControllerPath_run.
    destruct (getPackageImports host projectRoot s') as [o2 s2]; cbn in E2; subst o2.
    cbn. now rewrite controllerPathIn_empty.
  - evaluate.
Qed.

Lemma C7_manifest_without_imports_witness :
  let host := Examples.projectHost None in
  existsSync host "/proj/app/controllers/user_controller.ts" = true /\
  fst (resolveControllerFromImportPath host "#controllers/user_controller" "/proj"
         freshState) = Returned None /\
  fst (resolveControllerFromImportPath host "toString" "/proj" freshState) = Thrown /\
  fst (resolveControllerPath host "UserController" "/proj" freshState) = Returned None.
Proof.
  intros host.
  destruct (C7_manifest_without_imports host "/proj" freshState 1%Z "manifest")
    as (_ & _ & Himport & Hname & _); try (vm_compute; reflexivity).
  split; [reflexivity|]. split; [|split].
  - apply (Himport "#controllers/user_controller").
  - apply (Himport "toString").
  - apply (Hname "UserController").
Defined.

(** ** Resolving twice *)

(** C8 (counterexample). With a manifest that does not parse and whose
    timestamp never changes, resolving the same import path twice parses
    the manifest twice: a failed load records no timestamp, so the second
    call is not served from the cache. *)
Lemma C8_failed_load_is_parsed_again :
  let host := Examples.brokenManifestHost in
  let first :=
    resolveControllerFromImportPath host "#controllers/bar" "/proj" freshState in
  let second :=
    resolveControllerFromImportPath host "#controllers/bar" "/proj" (snd first) in
  statSync host "/proj/package.json" = Some 1%Z /\
  fst first = Returned None /\
  fst second = Returned None /\
  parseCount (trace (snd second)) = 2.
Proof. evaluate. Qed.

(** C8 (amended). Resolving the same import path, or the same controller
    name, twice in a row on a host that does not change in between
    yields the same outcome both times; when the manifest can be read
    and parsed, the second call only stats the manifest (it is served
    from the cache) and the two calls together parse the manifest at
    most once. (When the load fails, every call reads the manifest
    again.) *)
Theorem C8_resolving_twice
  (host : Host) (importPath controllerName projectRoot : string) (s : State) :
  let key := Path.join [projectRoot; "package.json"] in
  let first := resolveControllerFromImportPath host importPath projectRoot s in
  let second := resolveControllerFromImportPath host importPath projectRoot (snd first) in
  let first' := resolveControllerPath host controllerName projectRoot s in
  let second' := resolveControllerPath host controllerName projectRoot (snd first') in
  fst second = fst first /\
  fst second' = fst first' /\
  (manifestParses host projectRoot = true ->
   trace (snd second) = IOStat key :: trace (snd first) /\
   parseCount (trace (snd second)) <= S (parseCount (trace s)) /\
   trace (snd second') = IOStat key :: trace (snd first') /\
   parseCount (trace (snd second')) <= S (parseCount (trace s))).
Proof.
  cbv zeta.
  rewrite !resolveControllerFromImportPath_run, !resolveControllerPath_run.
  pose proof (thenTry_twice host
                (fun imports => importPathLocation host imports importPath projectRoot)
                projectRoot s) as [Hsame Hparses].
  pose proof (thenPure_twice host
                (fun imports => controllerPathIn host imports controllerName projectRoot)
                projectRoot s) as [Hsame' Hparses'].
  split; [exact Hsame|]. split; [exact Hsame'|].
  intros Hp. destruct (Hparses Hp). destruct (Hparses' Hp). auto.
Qed.

Lemma C8_resolving_twice_witness :
  let host := Scenario.scenarioHost (Examples.projectHost None) 1%Z in
  let first :=
    resolveControllerFromImportPath host "#controllers/user_controller" "/proj"
      freshState in
  let second :=
    resolveControllerFromImportPath host "#controllers/user_controller" "/proj"
      (snd first) in
  fst second = fst first /\ parseCount (trace (snd second)) <= 1.
Proof.
  intros host first second.
  destruct (C8_resolving_twice host "#controllers/user_controller" "UserController"
              "/proj" freshState) as (Hsame & _ & Hparses).
  split; [exact Hsame|].
  apply Hparses. vm_compute. reflexivity.
Defined.

(** ** String literal clicks *)

Lemma NodeRef_eqb_eq (a b : NodeRef) : NodeRef_eqb a b = true <-> a = b.
Proof.
  revert b. induction a as [|x a IH]; intros [|y b]; cbn; try (split; congruence).
  rewrite andb_true_iff, Nat.eqb_eq, IH. split; [intros [-> ->]|intros [= -> ->]]; auto.
Qed.

Lemma NodeRef_eqb_refl (a : NodeRef) : NodeRef_eqb a a = true.
Proof. now apply NodeRef_eqb_eq. Qed.

Lemma propIndices_bounds name i ps :
  Forall (fun j => i <= j) (propIndices name i ps) /\ NoDup (propIndices name i ps).
Proof.
  revert i. induction ps as [|[q c] ps IH]; intros i; cbn.
  - split; constructor.
  - destruct (IH (S i)) as [Hge Hnd].
    assert (Hge' : Forall (fun j => i <= j) (propIndices name (S i) ps)).
    { eapply Forall_impl; [exact Hge|]. cbn. intros; lia. }
    destruct (PropName_eqb q name); [|now split].
    split; [constructor; auto|].
    constructor; [|exact Hnd].
    intros Hin. rewrite Forall_forall in Hge.
    specialize (Hge _ Hin). lia.
Qed.

Section ClassifierFacts.

Variable sourceFile : Node.

(** The members of a node array of [r] are children of [r], all
    different. *)
Lemma propList_children name r x :
  In x (propList sourceFile name r) -> exists i, x = i :: r.
Proof.
  unfold propList. destruct (nodeAt sourceFile r); [|intros []].
  rewrite in_map_iff. intros (i & <- & _). now exists i.
Qed.

Lemma propList_NoDup name r : NoDup (propList sourceFile name r).
Proof.
  unfold propList. destruct (nodeAt sourceFile r); [|constructor].
  apply NoDup_fmap_2; [intros i j [=]; auto|].
  apply propIndices_bounds.
Qed.

Lemma indexOf_In l node k i :
  indexOf l node k = Some i -> In node l.
Proof.
  revert k. induction l as [|x l IH]; intros k; cbn; [discriminate|].
  destruct (NodeRef_eqb x node) eqn:E.
  - apply NodeRef_eqb_eq in E. auto.
  - intros H. right. eapply IH, H.
Qed.

(** A tuple found by the loop holds the literal as an element. *)
Lemma methodStringTupleAt_child node current c :
  methodStringTupleAt sourceFile node current = Some c -> exists i, node = i :: current.
Proof.
  unfold methodStringTupleAt.
  destruct (_ && _); [|discriminate].
  destruct (indexOf _ node 0) as [i|] eqn:E; [|discriminate].
  intros _. eapply propList_children, indexOf_In, E.
Qed.

Lemma methodStringTupleAt_far node current :
  length node <> S (length current) ->
  methodStringTupleAt sourceFile node current = None.
Proof.
  intros Hlen. destruct (methodStringTupleAt sourceFile node current) eqn:E; [|reflexivity].
  apply methodStringTupleAt_child in E as [i ->]. cbn in Hlen. lia.
Qed.

Lemma isMethodStringInTupleFrom_far node current :
  S (length current) < length node ->
  isMethodStringInTupleFrom sourceFile node current = None.
Proof.
  induction current as [|i up IH]; intros Hlen; cbn [isMethodStringInTupleFrom].
  - rewrite methodStringTupleAt_far; [reflexivity|cbn; lia].
  - rewrite methodStringTupleAt_far by (cbn in *; lia).
    apply IH. cbn in Hlen. lia.
Qed.

(** At the parent of the literal the loop tests what the specification
    says. *)
Lemma methodStringTupleAt_parent i up :
  methodStringTupleAt sourceFile (i :: up) up
  = secondOfIdentifierTuple sourceFile (i :: up).
Proof.
  unfold methodStringTupleAt, secondOfIdentifierTuple. cbn [parent].
  destruct (hasKind sourceFile ArrayLiteralExpression up); [|reflexivity].
  pose proof (propList_NoDup p_elements up) as Hnd.
  destruct (propList sourceFile p_elements up) as [|first [|second [|third rest]]];
    try reflexivity.
  cbn [length Nat.eqb andb indexOf].
  destruct (NodeRef_eqb first (i :: up)) eqn:E1.
  - apply NodeRef_eqb_eq in E1. subst first.
    destruct (NodeRef_eqb second (i :: up)) eqn:E2; [|reflexivity].
    apply NodeRef_eqb_eq in E2. subst second.
    apply NoDup_cons in Hnd as [Hnot _]. exfalso. apply Hnot. constructor.
  - destruct (NodeRef_eqb second (i :: up)); reflexivity.
Qed.

Lemma isMethodStringInTuple_spec node :
  isMethodStringInTuple sourceFile node = secondOfIdentifierTuple sourceFile node.
Proof.
  unfold isMethodStringInTuple. destruct node as [|i up].
  - cbn [isMethodStringInTupleFrom].
    rewrite methodStringTupleAt_far by (cbn; lia). reflexivity.
  - cbn [isMethodStringInTupleFrom].
    rewrite methodStringTupleAt_far by (cbn; lia).
    rewrite <- methodStringTupleAt_parent.
    destruct up as [|j up']; cbn [isMethodStringInTupleFrom].
    + now destruct (methodStringTupleAt sourceFile [i] []).
    + destruct (methodStringTupleAt sourceFile (i :: j :: up') (j :: up')); [reflexivity|].
      apply isMethodStringInTupleFrom_far. cbn. lia.
Qed.

(** C2. A string literal is classified by two rules tried in order: if
    it is the second element of a two-element array literal whose first
    element is an identifier, the click is a method string carrying the
    text of that identifier and the text of the literal; otherwise, if
    its text starts with ["#controllers/"], the click is a controller
    import path; otherwise there is no context. In particular a literal
    that is the first element of an array literal is never a method
    string. *)
Theorem C2_string_literal_classification (node : NodeRef) :
  hasKind sourceFile StringLiteral node = true ->
  analyzeClickContext sourceFile (AstNode node) = classifyStringLiteral sourceFile node /\
  (forall up,
     parent node = Some up ->
     hd_error (propList sourceFile p_elements up) = Some node ->
     forall controllerName methodName,
       analyzeClickContext sourceFile (AstNode node)
       <> Some (MethodString controllerName methodName)).
Proof.
  intros Hkind.
  assert (Hclass : analyzeClickContext sourceFile (AstNode node)
                   = classifyStringLiteral sourceFile node).
  { unfold analyzeClickContext, classifyStringLiteral, analyzeStringLiteralClick.
    assert (Hid : hasKind sourceFile Identifier node = false).
    { unfold hasKind in *. destruct (nodeAt sourceFile node) as [n|]; [|reflexivity].
      destruct (kind n); cbn in *; congruence. }
    rewrite Hid, Hkind, isMethodStringInTuple_spec. reflexivity. }
  split; [exact Hclass|].
  intros up Hparent Hfirst controllerName methodName. rewrite Hclass.
  unfold classifyStringLiteral, secondOfIdentifierTuple. rewrite Hparent.
  pose proof (propList_NoDup p_elements up) as Hnd.
  destruct (hasKind sourceFile ArrayLiteralExpression up).
  2: { destruct (String.prefix _ _); congruence. }
  destruct (propList sourceFile p_elements up) as [|first [|second [|third rest]]];
    try (destruct (String.prefix _ _); congruence).
  cbn in Hfirst. injection Hfirst as ->.
  destruct (NodeRef_eqb second node) eqn:E.
  - apply NodeRef_eqb_eq in E. subst second.
    apply NoDup_cons in Hnd as [Hnot _]. exfalso. apply Hnot. constructor.
  - cbn. destruct (String.prefix _ _); congruence.
Qed.

End ClassifierFacts.

Lemma C2_string_literal_classification_witness :
  analyzeClickContext Scenario.routesTree (AstNode [1; 2; 0; 1])
    = Some (MethodString "UserController" "index") /\
  analyzeClickContext Scenario.routesTree (AstNode [1; 1; 1; 0; 0; 0])
    = Some (ControllerImportPath "#controllers/user_controller").
Proof.
  split.
  - rewrite (proj1 (C2_string_literal_classification Scenario.routesTree [1; 2; 0; 1]
                      eq_refl)).
    vm_compute. reflexivity.
  - rewrite (proj1 (C2_string_literal_classification Scenario.routesTree
                      [1; 1; 1; 0; 0; 0] eq_refl)).
    vm_compute. reflexivity.
Defined.

(** ** The member locator *)

Lemma SyntaxKind_eqb_eq a b : SyntaxKind_eqb a b = true <-> a = b.
Proof. destruct a, b; cbn; split; congruence. Qed.

(** A node has one kind. *)
Lemma hasKind_unique sourceFile k k' r :
  hasKind sourceFile k r = true ->
  hasKind sourceFile k' r = SyntaxKind_eqb k k'.
Proof.
  unfold hasKind. destruct (nodeAt sourceFile r) as [n|]; [|discriminate].
  intros H. apply SyntaxKind_eqb_eq in H. now rewrite H.
Qed.


(** Induction over a tree, with the property known for the children. *)
Lemma Node_children_ind (P : Node -> Prop) :
  (forall n, Forall (fun pc => P (snd pc)) (props n) -> P n) -> forall n, P n.
Proof.
  intros H. fix IH 1. intros [k t s e ps layout]. apply H. cbn [props].
  induction ps as [|[q c] ps IHps]; constructor; [apply IH|exact IHps].
Qed.

Lemma insertByPriority_head c sorted :
  hd_error (insertByPriority c sorted) =
  match sorted with
  | [] => Some c
  | x :: _ => if (priority c <=? priority x)%nat then Some c else Some x
  end.
Proof.
  destruct sorted as [|x rest]; cbn; [reflexivity|].
  now destruct (priority c <=? priority x)%nat.
Qed.

Lemma isBest_lowest c cs x : isBest c cs -> In x cs -> priority c <= priority x.
Proof.
  intros (before & after & -> & Hb & Ha) Hin.
  rewrite Forall_forall in Hb, Ha.
  apply in_app_or in Hin as [Hin|[<-|Hin]].
  - apply list_elem_of_In in Hin. specialize (Hb _ Hin). lia.
  - lia.
  - apply list_elem_of_In in Hin. exact (Ha _ Hin).
Qed.

(** The head of the sorted candidates is the first candidate of lowest
    priority. *)
Lemma sortByPriority_head cs :
  match hd_error (sortByPriority cs) with
  | Some c => isBest c cs
  | None => cs = []
  end.
Proof.
  induction cs as [|x cs IH]; cbn [sortByPriority]; [reflexivity|].
  rewrite insertByPriority_head.
  destruct (sortByPriority cs) as [|y sorted]; cbn [hd_error] in IH.
  - subst cs. exists [], []. repeat split; constructor.
  - destruct (priority x <=? priority y)%nat eqn:E.
    + apply Nat.leb_le in E.
      exists [], cs. repeat split; [constructor|].
      apply Forall_forall. intros z Hz. apply list_elem_of_In in Hz.
      pose proof (isBest_lowest y cs z IH Hz). lia.
    + apply Nat.leb_gt in E.
      destruct IH as (before & after & -> & Hb & Ha).
      exists (x :: before), after. repeat split; [constructor; auto|exact Ha].
Qed.

Section MemberLocatorFacts.

Variable sourceFile : Node.

Lemma classPriority_spec up :
  classPriority sourceFile up =
  match enclosingClass sourceFile up with
  | Some c =>
      if hasModifier sourceFile ExportKeyword c && hasModifier sourceFile DefaultKeyword c
      then 1 else 2
  | None => 2
  end.
Proof.
  induction up as [|i up IH]; cbn [classPriority enclosingClass].
  - destruct (hasKind sourceFile ClassDeclaration []); cbn; [|reflexivity].
    now destruct (_ && _).
  - destruct (hasKind sourceFile ClassDeclaration (i :: up)); cbn; [|exact IH].
    now destruct (_ && _).
Qed.

Lemma methodPriority_spec node :
  methodPriority sourceFile node = methodPrioritySpec sourceFile node.
Proof.
  unfold methodPriority, methodPrioritySpec.
  destruct (parent node); [apply classPriority_spec|reflexivity].
Qed.

(** [visit] pushes the candidates of each node in document order. *)
Lemma visitCandidates_preorder methodName n self :
  visitCandidates sourceFile methodName n self =
  flat_map (ownCandidates sourceFile methodName) (preorder n self).
Proof.
  revert self. induction n as [n IH] using Node_children_ind. intros self.
  destruct n as [k t s e ps layout]. cbn [visitCandidates preorder props flat_map] in *.
  f_equal. generalize 0 as i.
  induction ps as [|[q c] ps IHps]; intros i; [reflexivity|].
  apply Forall_cons in IH as [Hc Hps]. cbn [snd] in Hc.
  rewrite flat_map_app, <- Hc, <- (IHps Hps). reflexivity.
Qed.

End MemberLocatorFacts.

(** ** Strings and paths *)

Lemma prefix_append p s :
  String.prefix p s = true -> exists t, s = p +:+ t.
Proof.
  revert s. induction p as [|a p IH]; intros s H.
  - now exists s.
  - destruct s as [|b s]; cbn in H; [discriminate|].
    destruct (ascii_dec a b) as [->|]; [|discriminate].
    destruct (IH s H) as [t ->]. now exists t.
Qed.

Lemma append_cons x (a b : string) : String x a +:+ b = String x (a +:+ b).
Proof. reflexivity. Qed.

Lemma append_assoc (a b c : string) : (a +:+ b) +:+ c = a +:+ (b +:+ c).
Proof.
  induction a as [|x a IH]; [reflexivity|].
  now rewrite !append_cons, IH.
Qed.

Lemma length_append (a b : string) :
  String.length (a +:+ b) = String.length a + String.length b.
Proof.
  induction a as [|x a IH]; [reflexivity|].
  rewrite append_cons. cbn [String.length]. now rewrite IH.
Qed.

Lemma substringFrom_append (a b : string) :
  substringFrom (String.length a) (a +:+ b) = b.
Proof.
  induction a as [|x a IH]; [now destruct b|].
  rewrite append_cons. exact IH.
Qed.

Lemma substringFrom_split n s :
  n <= String.length s -> exists pre, s = pre +:+ substringFrom n s.
Proof.
  revert s. induction n as [|n IH]; intros s Hn.
  - exists EmptyString. now destruct s.
  - destruct s as [|c s]; cbn in Hn; [lia|].
    destruct (IH s) as [pre Hpre]; [lia|].
    exists (String c pre). rewrite append_cons.
    change (substringFrom (S n) (String c s)) with (substringFrom n s).
    now rewrite <- Hpre.
Qed.

(** [endsWith] holds exactly of the strings that end with the suffix. *)
Lemma endsWith_append s p : endsWith s p = true <-> exists pre, s = pre +:+ p.
Proof.
  unfold endsWith. rewrite andb_true_iff, Nat.leb_le, String.eqb_eq. split.
  - intros [Hlen Heq].
    destruct (substringFrom_split (String.length s - String.length p) s) as [pre Hpre];
      [lia|].
    exists pre. now rewrite Heq in Hpre.
  - intros [pre ->]. rewrite length_append. split; [lia|].
    replace (String.length pre + String.length p - String.length p)
      with (String.length pre) by lia.
    apply substringFrom_append.
Qed.

Lemma split_nonempty s : Path.split s <> [].
Proof.
  destruct s as [|c s]; cbn; [discriminate|].
  destruct (Ascii.eqb c "/"); [discriminate|].
  destruct (Path.split s); discriminate.
Qed.

Lemma existsb_removelast_tl {A} (f : A -> bool) (l : list A) :
  existsb f (removelast (tl l)) = true -> existsb f (removelast l) = true.
Proof.
  destruct l as [|x [|y l]]; cbn; try discriminate.
  intros ->. apply orb_true_r.
Qed.

Lemma split_routes t :
  Path.split ("/routes/" +:+ t) = EmptyString :: "routes" :: Path.split t.
Proof.
  change ("/routes/" +:+ t)
    with (String "/" (String "r" (String "o" (String "u" (String "t"
            (String "e" (String "s" (String "/" t)))))))).
  reflexivity.
Qed.

(** A path that contains "/routes/" has a directory named "routes". *)
Lemma includes_routes_segment s :
  includes s "/routes/" = true -> isDirectorySegment "routes" s = true.
Proof.
  intros H. apply existsb_removelast_tl.
  induction s as [|c s IH]; [discriminate|].
  change (includes (String c s) "/routes/")
    with (String.prefix "/routes/" (String c s) || includes s "/routes/") in H.
  apply orb_true_iff in H as [H|H].
  - apply prefix_append in H as [t Ht]. rewrite Ht, split_routes.
    pose proof (split_nonempty t) as Hne.
    destruct (Path.split t) as [|h tl']; [congruence|]. reflexivity.
  - specialize (IH H). cbn [Path.split].
    destruct (Ascii.eqb c "/").
    + cbn [tl]. now apply existsb_removelast_tl.
    + pose proof (split_nonempty s) as Hne.
      destruct (Path.split s) as [|h tl']; [congruence|]. exact IH.
Qed.

Lemma endsWith_start_routes s :
  endsWith s "/start/routes.ts" = true -> endsWith s "start/routes.ts" = true.
Proof.
  rewrite !endsWith_append. intros [pre ->].
  exists (pre +:+ "/"). symmetry. exact (append_assoc pre "/" "start/routes.ts").
Qed.

(** ** Paths below an absolute root *)

Lemma append_nil_r (a : string) : a +:+ EmptyString = a.
Proof. induction a as [|x a IH]; [reflexivity|]. now rewrite append_cons, IH. Qed.

Lemma split_append (a b : string) :
  Path.split (a +:+ String "/" b) = Path.split a ++ Path.split b.
Proof.
  induction a as [|c a IH].
  - reflexivity.
  - rewrite append_cons. cbn [Path.split]. rewrite IH.
    destruct (Ascii.eqb c "/"); [reflexivity|].
    pose proof (split_nonempty a) as Hne.
    destruct (Path.split a) as [|h t]; [congruence|]. reflexivity.
Qed.

Lemma concat_app_cons (l : list string) (x : string) (m : list string) :
  String.concat "/" (l ++ x :: m) =
  match l with
  | [] => String.concat "/" (x :: m)
  | _ :: _ => String.concat "/" l +:+ String "/" (String.concat "/" (x :: m))
  end.
Proof.
  induction l as [|a l IH]; [reflexivity|].
  destruct l as [|b l].
  - reflexivity.
  - change (String.concat "/" ((a :: b :: l) ++ x :: m))
      with (a +:+ String "/" (String.concat "/" ((b :: l) ++ x :: m))).
    rewrite IH.
    change (String.concat "/" (a :: b :: l))
      with (a +:+ String "/" (String.concat "/" (b :: l))).
    rewrite !append_assoc. rewrite append_cons. reflexivity.
Qed.

(** [path.resolve(root, m)] for an absolute [root] and a relative [m]:
    the working directory plays no part. *)
Lemma resolve_absolute cwd root m :
  Path.isAbsolute root = true -> truthy m = true -> Path.isAbsolute m = false ->
  Path.resolve cwd [root; m] =
  "/" +:+ String.concat "/"
            (rev (fold_left (Path.normalizeStep false) (Path.split m ++ [EmptyString])
                    (fold_left (Path.normalizeStep false) (Path.split root) []))).
Proof.
  intros Hroot Hm Hrel. unfold Path.resolve.
  cbn [rev app Path.resolveFrom]. rewrite Hm, Hrel. cbn [negb].
  assert (Ht : truthy root = true) by (destruct root; [discriminate|reflexivity]).
  rewrite Ht, Hroot. cbn [negb]. unfold Path.normalizeString.
  change (root +:+ "/" +:+ m +:+ "/" +:+ EmptyString)
    with (root +:+ String "/" (m +:+ String "/" EmptyString)).
  rewrite !split_append, fold_left_app. reflexivity.
Qed.

Lemma resolve_absolute_root cwd root :
  Path.isAbsolute root = true ->
  Path.resolve cwd [root] =
  "/" +:+ String.concat "/"
            (rev (fold_left (Path.normalizeStep false) (Path.split root) [])).
Proof.
  intros Hroot. unfold Path.resolve.
  cbn [rev app Path.resolveFrom].
  assert (Ht : truthy root = true) by (destruct root; [discriminate|reflexivity]).
  rewrite Ht, Hroot. cbn [negb]. unfold Path.normalizeString.
  change (root +:+ "/" +:+ EmptyString) with (root +:+ String "/" EmptyString).
  rewrite split_append, fold_left_app. reflexivity.
Qed.

(** The first ".js" of a text that continues with "/" after a part
    without ".js" lies after that part. *)
Lemma replaceAt_past before P Q :
  includes P ".js" = false -> String.prefix "/" Q = true ->
  replaceAt before (P +:+ Q) ".js" ".ts" =
  option_map (String.append P) (replaceAt (before +:+ P) Q ".js" ".ts").
Proof.
  intros HP HQ. revert before. induction P as [|c P IH]; intros before.
  - change (EmptyString +:+ Q) with Q. rewrite append_nil_r.
    now destruct (replaceAt before Q ".js" ".ts").
  - change (includes (String c P) ".js")
      with (String.prefix ".js" (String c P) || includes P ".js") in HP.
    apply orb_false_iff in HP as [Hhere Hrest].
    rewrite append_cons.
    assert (Hno : String.prefix ".js" (String c (P +:+ Q)) = false).
    { apply prefix_append in HQ as [Q' ->].
      change ("/" +:+ Q') with (String "/" Q').
      destruct (ascii_dec "." c) as [<-|Hc].
      - destruct P as [|p1 P]; [reflexivity|].
        destruct (ascii_dec "j" p1) as [<-|Hp1].
        + destruct P as [|p2 P]; [reflexivity|].
          change (match ascii_dec "s" p2 with
                  | left _ => String.prefix EmptyString P
                  | right _ => false
                  end = false) in Hhere.
          change (match ascii_dec "s" p2 with
                  | left _ => String.prefix EmptyString (P +:+ String "/" Q')
                  | right _ => false
                  end = false).
          destruct (ascii_dec "s" p2); [|reflexivity].
          destruct P; discriminate.
        + change (match ascii_dec "j" p1 with
                  | left _ => String.prefix "s" (P +:+ String "/" Q')
                  | right _ => false
                  end = false).
          destruct (ascii_dec "j" p1); [contradiction|reflexivity].
      - change (match ascii_dec "." c with
                | left _ => String.prefix "js" (P +:+ String "/" Q')
                | right _ => false
                end = false).
        destruct (ascii_dec "." c); [contradiction|reflexivity]. }
    change (replaceAt before (String c (P +:+ Q)) ".js" ".ts")
      with (if String.prefix ".js" (String c (P +:+ Q))
            then Some (getSubstitution ".js" before
                         (substringFrom (String.length ".js") (String c (P +:+ Q))) ".ts"
                       +:+ substringFrom (String.length ".js") (String c (P +:+ Q)))
            else match replaceAt (before +:+ String c EmptyString) (P +:+ Q) ".js" ".ts" with
                 | Some t => Some (String c t)
                 | None => None
                 end).
    rewrite Hno, (IH Hrest), append_assoc.
    change (String c EmptyString +:+ P) with (String c P).
    now destruct (replaceAt (before +:+ String c P) Q ".js" ".ts").
Qed.

Lemma replace_js_below P :
  includes P ".js" = false ->
  replace (P +:+ "/app/controllers/bar.js") ".js" ".ts" = P +:+ "/app/controllers/bar.ts".
Proof.
  intros HP. unfold replace.
  rewrite (replaceAt_past EmptyString P "/app/controllers/bar.js" HP eq_refl).
  reflexivity.
Qed.

Lemma resolve_controllers_file cwd root file :
  Path.isAbsolute root = true ->
  Path.split file = [file] ->
  (String.eqb file EmptyString || String.eqb file "." || String.eqb file "..") = false ->
  Path.resolve cwd [root; "./app/controllers/" +:+ file] =
  match rev (fold_left (Path.normalizeStep false) (Path.split root) []) with
  | [] => "/app/controllers/" +:+ file
  | a :: l => ("/" +:+ String.concat "/" (a :: l)) +:+ "/app/controllers/" +:+ file
  end.
Proof.
  intros Hroot Hsplit Hplain.
  rewrite resolve_absolute; [|exact Hroot|reflexivity|reflexivity].
  change ("./app/controllers/" +:+ file)
    with ("./app" +:+ String "/" ("controllers" +:+ String "/" file)).
  rewrite !split_append, Hsplit.
  change (Path.split "./app") with ["."; "app"].
  change (Path.split "controllers") with ["controllers"].
  set (R := fold_left (Path.normalizeStep false) (Path.split root) []).
  assert (Hfold : fold_left (Path.normalizeStep false)
                    (((["."; "app"] ++ ["controllers"] ++ [file])) ++ [EmptyString]) R
                  = file :: "controllers" :: "app" :: R).
  { cbn [app fold_left].
    change (Path.normalizeStep false R ".") with R.
    change (Path.normalizeStep false R "app") with ("app" :: R).
    change (Path.normalizeStep false ("app" :: R) "controllers")
      with ("controllers" :: "app" :: R).
    assert (Hstep : Path.normalizeStep false ("controllers" :: "app" :: R) file
                    = file :: "controllers" :: "app" :: R).
    { unfold Path.normalizeStep.
      apply orb_false_iff in Hplain as [Hplain Hdots].
      now rewrite Hplain, Hdots. }
    rewrite Hstep. reflexivity. }
  rewrite Hfold. cbn [rev]. rewrite <- !app_assoc. cbn [app].
  rewrite concat_app_cons.
  destruct (rev R) as [|a l].
  - reflexivity.
  - rewrite <- append_assoc. reflexivity.
Qed.

Lemma first_candidate_below_root cwd root :
  Path.isAbsolute root = true ->
  includes (Path.resolve cwd [root]) ".js" = false ->
  replace (Path.resolve cwd [root; "./app/controllers/bar.js"]) ".js" ".ts"
  = Path.resolve cwd [root; "./app/controllers/bar.ts"].
Proof.
  intros Habsolute Hplain.
  rewrite resolve_absolute_root in Hplain by exact Habsolute.
  pose proof (resolve_controllers_file cwd root "bar.js" Habsolute eq_refl eq_refl) as Hjs.
  pose proof (resolve_controllers_file cwd root "bar.ts" Habsolute eq_refl eq_refl) as Hts.
  change ("./app/controllers/" +:+ "bar.js") with "./app/controllers/bar.js" in Hjs.
  change ("./app/controllers/" +:+ "bar.ts") with "./app/controllers/bar.ts" in Hts.
  rewrite Hjs, Hts.
  destruct (rev (fold_left (Path.normalizeStep false) (Path.split root) [])) as [|a l].
  - reflexivity.
  - apply (replace_js_below _ Hplain).
Qed.

(** ** The wildcard of the controllers alias *)

(** C4 (counterexample). With the alias ["#foo/*"] mapped to
    ["./app/foo/*.js"] and every file present, ["#foo/bar"] resolves to
    nothing: no ".ts" candidate is computed for an alias family other
    than ["#controllers/"]. *)
Lemma C4_other_family_is_not_resolved :
  let host := Examples.projectHost (Some Examples.fooImports) in
  existsSync host "/proj/app/foo/bar.ts" = true /\
  fst (resolveControllerFromImportPath host "#foo/bar" "/proj" freshState)
    = Returned None.
Proof. evaluate. Qed.

(** C4 (amended). With an alias table mapping ["#controllers/*"] to
    ["./app/controllers/*.js"] and no entry under ["#controllers/bar"]
    itself, under an absolute project root whose resolved path contains
    no ".js", resolving ["#controllers/bar"] computes as its first
    candidate [./app/controllers/bar.ts] relative to the project root:
    the resolver answers the first existing path among that candidate,
    the ".js" path and the two index files, and so the ".ts" candidate
    whenever it exists. *)
Theorem C4_controllers_wildcard_round_trip
  (host : Host) (projectRoot : string) (s s' : State) (imports : gmap string string) :
  Path.isAbsolute projectRoot = true ->
  includes (Path.resolve (cwd host) [projectRoot]) ".js" = false ->
  getPackageImports host projectRoot s = (Returned imports, s') ->
  imports !! "#controllers/bar" = None ->
  imports !! "#controllers/*" = Some "./app/controllers/*.js" ->
  let mapped := Path.resolve (cwd host) [projectRoot; "./app/controllers/bar.js"] in
  let target := Path.resolve (cwd host) [projectRoot; "./app/controllers/bar.ts"] in
  replace "./app/controllers/*.js" "*" "bar" = "./app/controllers/bar.js" /\
  hd_error (mappedPathCandidates mapped) = Some target /\
  resolveControllerFromImportPath host "#controllers/bar" projectRoot s
    = (Returned
         (option_map topOfFile
            (firstExisting host
               [ target; mapped;
                 replaceSuffix mapped ".ts" "/index.ts";
                 replaceSuffix mapped ".js" "/index.js" ])), s') /\
  (existsSync host target = true ->
   resolveControllerFromImportPath host "#controllers/bar" projectRoot s
     = (Returned (Some (topOfFile target)), s')).
Proof.
  intros Habsolute Hplain Hrun Hexact Hwild mapped target.
  pose proof (first_candidate_below_root (cwd host) projectRoot Habsolute Hplain) as Hfirst.
  fold mapped target in Hfirst.
  split; [reflexivity|]. split.
  { unfold mappedPathCandidates. cbn [hd_error]. now rewrite Hfirst. }
  assert (Hanswer :
            resolveControllerFromImportPath host "#controllers/bar" projectRoot s
            = (Returned
                 (option_map topOfFile
                    (firstExisting host
                       [ target; mapped;
                         replaceSuffix mapped ".ts" "/index.ts";
                         replaceSuffix mapped ".js" "/index.js" ])), s')).
  { rewrite resolveControllerFromImportPath_run, Hrun. cbn [thenTry].
    unfold importPathLocation, getProperty. rewrite Hexact.
    change (isInherited "#controllers/bar") with false. cbv iota.
    unfold wildcardLocation, lookupMapping. rewrite Hwild.
    change (startsWith "#controllers/bar" "#controllers/") with true.
    change (truthy "./app/controllers/*.js") with true.
    change (includes "./app/controllers/*.js" "*") with true. cbv iota zeta.
    change (substringFrom (String.length "#controllers/") "#controllers/bar") with "bar".
    change (replace "./app/controllers/*.js" "*" "bar") with "./app/controllers/bar.js".
    fold mapped. unfold mappedPathCandidates. now rewrite Hfirst. }
  split; [exact Hanswer|].
  intros Hexists. rewrite Hanswer.
  unfold firstExisting. cbn [List.find]. now rewrite Hexists.
Qed.

Lemma C4_controllers_wildcard_round_trip_witness :
  let host := Examples.projectHost
                (Some {[ "#controllers/*" := "./app/controllers/*.js" ]}) in
  Path.resolve (cwd host) ["/proj"; "./app/controllers/bar.ts"]
    = "/proj/app/controllers/bar.ts" /\
  resolveControllerFromImportPath host "#controllers/bar" "/proj" freshState
    = (Returned (Some (topOfFile "/proj/app/controllers/bar.ts")),
       snd (getPackageImports host "/proj" freshState)).
Proof.
  intros host. split; [reflexivity|].
  refine (proj2 (proj2 (proj2
            (C4_controllers_wildcard_round_trip host "/proj" freshState
               (snd (getPackageImports host "/proj" freshState))
               {[ "#controllers/*" := "./app/controllers/*.js" ]} _ _ _ _ _))) _);
    vm_compute; reflexivity.
Defined.

(** The ".js" that [replace] turns into ".ts" is the first one of the
    whole path: under a root that contains ".js" it is the one of the
    root. *)
Lemma first_js_of_the_path_is_replaced :
  hd_error (mappedPathCandidates
              (Path.resolve "/" ["/work/my.js/proj"; "./app/controllers/bar.js"]))
  = Some "/work/my.ts/proj/app/controllers/bar.js".
Proof. vm_compute. reflexivity. Qed.

(** ** The guard on the file path *)

Lemma provideDefinition_unsupported host document offset s :
  isSupportedFile (fileName document) = false ->
  fst (provideDefinition host document offset s) = None.
Proof.
  intros H. unfold provideDefinition, tryCatch, provideDefinitionBody.
  destruct (findNodeAtPosition _ offset); [|reflexivity].
  rewrite H. reflexivity.
Qed.

(** C10. A request for a file whose normalized path has no directory
    named "routes" and does not end with "start/routes.ts" has no
    result, whatever the text, the offset, the host and the state of
    the caches. *)
Theorem C10_file_path_guard
  (host : Host) (document : TextDocument) (offset : nat) (s : State) :
  let normalizedPath := Path.normalize (fileName document) in
  isDirectorySegment "routes" normalizedPath = false ->
  endsWith normalizedPath "start/routes.ts" = false ->
  fst (provideDefinition host document offset s) = None.
Proof.
  intros normalizedPath Hsegment Hsuffix.
  apply provideDefinition_unsupported. unfold isSupportedFile.
  fold normalizedPath. apply orb_false_iff. split.
  - destruct (includes normalizedPath (Path.sep +:+ "routes" +:+ Path.sep)) eqn:E;
      [|reflexivity].
    apply includes_routes_segment in E. congruence.
  - destruct (endsWith normalizedPath
                (Path.sep +:+ "start" +:+ Path.sep +:+ "routes.ts")) eqn:E;
      [|reflexivity].
    apply endsWith_start_routes in E. congruence.
Qed.

Lemma C10_file_path_guard_witness :
  fst (provideDefinition (Scenario.scenarioHost (Examples.projectHost None) 1%Z)
         {| fileName := "/proj/app/models/user.ts"; getText := Scenario.routesText |}
         110 freshState) = None.
Proof.
  apply C10_file_path_guard; vm_compute; reflexivity.
Defined.

(** ** The walk to the project root *)

Lemma dirnameScan_shorter r matchedSlash kept :
  Path.dirnameScan r matchedSlash = Some kept ->
  length kept + (if matchedSlash then 2 else 1) <= length r.
Proof.
  revert matchedSlash. induction r as [|c r IH]; intros matchedSlash; cbn; [discriminate|].
  destruct (Ascii.eqb c "/").
  - destruct matchedSlash.
    + intros H. specialize (IH true H). cbn in IH. lia.
    + intros [= <-]. lia.
  - intros H. specialize (IH false H). destruct matchedSlash; cbn in IH; lia.
Qed.

Lemma length_list_ascii_of_string s :
  length (list_ascii_of_string s) = String.length s.
Proof. induction s as [|c s IH]; cbn; [reflexivity|now rewrite IH]. Qed.

Lemma length_string_of_list_ascii l :
  String.length (string_of_list_ascii l) = length l.
Proof. induction l as [|c l IH]; cbn; [reflexivity|now rewrite IH]. Qed.

(** [path.dirname] answers "." or "/", or a shorter path. *)
Lemma dirname_cases p :
  Path.dirname p = "." \/ Path.dirname p = "/" \/
  String.length (Path.dirname p) < String.length p.
Proof.
  destruct p as [|c0 rest]; [now left|]. unfold Path.dirname.
  destruct (Path.dirnameScan _ true) as [kept|] eqn:E.
  - apply dirnameScan_shorter in E.
    rewrite length_rev, length_list_ascii_of_string in E.
    right. right. destruct kept as [|k kept].
    + cbn in E. destruct (Ascii.eqb c0 "/"); cbn; lia.
    + cbn [String.length]. rewrite length_string_of_list_ascii, length_rev. lia.
  - destruct (Ascii.eqb c0 "/"); auto.
Qed.

(** The loop of [findProjectRoot] ends before the fuel is spent. *)
Lemma findProjectRootLoop_terminates host fuel currentDir :
  String.length currentDir + 1 < fuel ->
  findProjectRootLoop host fuel currentDir <> None.
Proof.
  revert currentDir. induction fuel as [|fuel IH]; intros currentDir Hfuel; [lia|].
  cbn [findProjectRootLoop].
  destruct (String.eqb currentDir (Path.dirname currentDir)); [discriminate|].
  destruct (existsSync host _); [discriminate|].
  destruct (dirname_cases currentDir) as [H|[H|H]].
  - rewrite H. destruct fuel; [lia|]. cbn. discriminate.
  - rewrite H. destruct fuel; [lia|]. cbn. discriminate.
  - apply IH. lia.
Qed.

Lemma findProjectRootLoop_found host fuel currentDir projectRoot :
  findProjectRootLoop host fuel currentDir = Some (Some projectRoot) ->
  existsSync host (Path.join [projectRoot; "package.json"]) = true.
Proof.
  revert currentDir. induction fuel as [|fuel IH]; intros currentDir; cbn; [discriminate|].
  destruct (String.eqb currentDir (Path.dirname currentDir)); [discriminate|].
  destruct (existsSync host (Path.join [currentDir; "package.json"])) eqn:E.
  - now intros [= <-].
  - apply IH.
Qed.

Lemma findProjectRoot_found host filePath projectRoot :
  findProjectRoot host filePath = Some projectRoot ->
  existsSync host (Path.join [projectRoot; "package.json"]) = true.
Proof.
  unfold findProjectRoot.
  destruct (findProjectRootLoop host _ _) as [[r|]|] eqn:E; try discriminate.
  intros [= <-]. eapply findProjectRootLoop_found, E.
Qed.

(** ** Every result points to an existing file *)

Section ResultFacts.

Variable host : Host.

Lemma firstExisting_exists paths p :
  firstExisting host paths = Some p -> existsSync host p = true.
Proof. unfold firstExisting. intros H. now apply find_some in H. Qed.

Lemma getPackageImports_returned projectRoot s imports s' :
  getPackageImports host projectRoot s = (Returned imports, s') ->
  statSync host (Path.join [projectRoot; "package.json"]) <> None.
Proof.
  intros E. pose proof (getPackageImports_run host projectRoot s) as R.
  rewrite E in R. cbn [fst snd] in R. inversion R; congruence.
Qed.

Lemma thenPure_returned {A B} (f : A -> B) (r : Outcome A * State) b s' :
  thenPure f r = (Returned b, s') -> exists a, r = (Returned a, s') /\ b = f a.
Proof. destruct r as [[a|] s0]; cbn; intros [= <- <-]; eauto. Qed.

Lemma thenTry_returned {A B} (f : A -> Outcome B) (r : Outcome A * State) b s' :
  thenTry f r = (Returned b, s') -> exists a, r = (Returned a, s') /\ f a = Returned b.
Proof. destruct r as [[a|] s0]; cbn; [|discriminate]. intros [= H <-]. eauto. Qed.

Lemma exactLocation_target mapping projectRoot l :
  exactLocation host mapping projectRoot = Some l -> existsSync host (uri l) = true.
Proof.
  unfold exactLocation, option_map. cbv zeta.
  destruct (firstExisting host _) as [p|] eqn:E; [|discriminate].
  intros [= <-]. cbn. eapply firstExisting_exists, E.
Qed.

Lemma wildcardLocation_target imports importPath projectRoot l :
  wildcardLocation host imports importPath projectRoot = Some l ->
  existsSync host (uri l) = true.
Proof.
  unfold wildcardLocation, option_map.
  repeat match goal with
         | |- context [match ?x with _ => _ end] => destruct x eqn:?
         end; try discriminate; intros [= <-]; cbn;
    eapply firstExisting_exists; eassumption.
Qed.

Lemma importPathLocation_target imports importPath projectRoot l :
  importPathLocation host imports importPath projectRoot = Returned (Some l) ->
  existsSync host (uri l) = true.
Proof.
  unfold importPathLocation.
  destruct (getProperty imports importPath) as [mapping| |]; [|discriminate|].
  - destruct (truthy mapping); intros [= H].
    + eapply exactLocation_target, H.
    + eapply wildcardLocation_target, H.
  - intros [= H]. eapply wildcardLocation_target, H.
Qed.

Lemma controllerPathIn_target imports controllerName projectRoot p :
  controllerPathIn host imports controllerName projectRoot = Some p ->
  existsSync host p = true.
Proof.
  unfold controllerPathIn. destruct (lookupMapping _ _); [|discriminate].
  apply firstExisting_exists.
Qed.

Lemma routesModuleLocation_target imports moduleName projectRoot sourceFileName l :
  routesModuleLocation host imports moduleName projectRoot sourceFileName = Some l ->
  existsSync host (uri l) = true.
Proof.
  unfold routesModuleLocation. cbv zeta.
  destruct (lookupMapping imports "#routes/*") as [routesMapping|].
  - destruct (firstExisting host _) as [p|] eqn:E.
    + intros [= <-]. cbn. eapply firstExisting_exists, E.
    + destruct (existsSync host _) eqn:Hlocal; [|discriminate].
      now intros [= <-].
  - destruct (existsSync host _) eqn:Hlocal; [|discriminate].
    now intros [= <-].
Qed.

Lemma resolveControllerFromImportPath_target importPath projectRoot s l s' :
  resolveControllerFromImportPath host importPath projectRoot s = (Returned (Some l), s') ->
  existsSync host (uri l) = true /\
  statSync host (Path.join [projectRoot; "package.json"]) <> None.
Proof.
  rewrite resolveControllerFromImportPath_run. intros H.
  apply thenTry_returned in H as (imports & Hrun & Hl). split.
  - eapply importPathLocation_target. exact Hl.
  - eapply getPackageImports_returned, Hrun.
Qed.

Lemma resolveControllerPath_target controllerName projectRoot s p s' :
  resolveControllerPath host controllerName projectRoot s = (Returned (Some p), s') ->
  existsSync host p = true /\
  statSync host (Path.join [projectRoot; "package.json"]) <> None.
Proof.
  rewrite resolveControllerPath_run. intros H.
  apply thenPure_returned in H as (imports & Hrun & Hp). split.
  - eapply controllerPathIn_target. symmetry. exact Hp.
  - eapply getPackageImports_returned, Hrun.
Qed.

Lemma resolveRoutesModule_target moduleName projectRoot sourceFileName s l s' :
  resolveRoutesModule host moduleName projectRoot sourceFileName s
    = (Returned (Some l), s') ->
  existsSync host (uri l) = true /\
  statSync host (Path.join [projectRoot; "package.json"]) <> None.
Proof.
  rewrite resolveRoutesModule_run. intros H.
  apply thenPure_returned in H as (imports & Hrun & Hl). split.
  - eapply routesModuleLocation_target. symmetry. exact Hl.
  - eapply getPackageImports_returned, Hrun.
Qed.

(** [findMethodInControllerFile] never throws, and what it finds is in
    the file it was given. *)
Lemma findMethodInControllerFile_target controllerPath methodName s :
  exists found s',
    findMethodInControllerFile host controllerPath methodName s = (Returned found, s') /\
    forall l, found = Some l -> uri l = controllerPath.
Proof.
  unfold findMethodInControllerFile, tryCatch, bind, logIO, orThrow, ret, throw. cbn.
  destruct (readFileSync host controllerPath) as [text|]; cbn.
  - destruct (findBestMethodNameNode _ methodName); cbn;
      eexists; eexists; (split; [reflexivity|]); intros l [=]; now subst.
  - eexists; eexists; (split; [reflexivity|]); intros l [=].
Qed.

Lemma findMethodInController_target document methodName l :
  findMethodInController host document methodName = Some l ->
  uri l = fileName document.
Proof.
  unfold findMethodInController.
  destruct (findBestMethodNameInDocument _ methodName) as [name|]; [|discriminate].
  destruct (nodeAt _ name); [|discriminate]. now intros [= <-].
Qed.

Lemma resolveControllerDefinition_target controllerName methodName projectRoot s l s' :
  resolveControllerDefinition host controllerName methodName projectRoot s
    = (Returned (Some l), s') ->
  existsSync host (uri l) = true /\
  statSync host (Path.join [projectRoot; "package.json"]) <> None.
Proof.
  unfold resolveControllerDefinition, bind.
  destruct (resolveControllerPath host controllerName projectRoot s)
    as [[[controllerPath|]|] s1] eqn:E; try discriminate.
  apply resolveControllerPath_target in E as [Hexists Hstat].
  destruct (givenMethod methodName) as [m|].
  - destruct (findMethodInControllerFile_target controllerPath m s1)
      as (found & s2 & -> & Huri).
    destruct found as [l'|]; cbn; intros [= <- <-]; split; auto.
    now rewrite (Huri l' eq_refl).
  - cbn. intros [= <- <-]. now split.
Qed.

Lemma resolveControllerVariableDefinition_target
  variableName methodName projectRoot sourceFile s l s' :
  resolveControllerVariableDefinition host variableName methodName projectRoot
    sourceFile s = (Returned (Some l), s') ->
  (exists importPath,
     findControllerImportPath sourceFile variableName = Some importPath /\
     truthy importPath = true) /\
  existsSync host (uri l) = true /\
  statSync host (Path.join [projectRoot; "package.json"]) <> None.
Proof.
  unfold resolveControllerVariableDefinition, bind.
  destruct (findControllerImportPath sourceFile variableName) as [importPath|] eqn:Himport;
    cbn [truthyResult]; [|discriminate].
  destruct (truthy importPath) eqn:Htruthy; [|discriminate].
  destruct (resolveControllerFromImportPath host importPath projectRoot s)
    as [[[location|]|] s1] eqn:E; try discriminate.
  apply resolveControllerFromImportPath_target in E as [Hexists Hstat].
  intros H. split; [eauto|].
  destruct (givenMethod methodName) as [m|].
  - destruct (List.find _ (textDocuments host)) as [doc|] eqn:Hdoc.
    + apply find_some in Hdoc as [_ Hname]. apply String.eqb_eq in Hname.
      cbn in H.
      destruct (findMethodInController host doc m) as [l'|] eqn:Hfound;
        injection H as <- <-; split; auto.
      apply findMethodInController_target in Hfound. congruence.
    + destruct (findMethodInControllerFile_target (uri location) m s1)
        as (found & s2 & Hrun & Huri).
      rewrite Hrun in H.
      destruct found as [l'|]; injection H as <- <-; split; auto.
      now rewrite (Huri l' eq_refl).
  - cbn in H. injection H as <- <-. now split.
Qed.

Lemma resolveDefinition_target context projectRoot sourceFile sourceFileName s l s' :
  resolveDefinition host context projectRoot sourceFile sourceFileName s
    = (Returned (Some l), s') ->
  match context with
  | ControllerVariable variableName _ =>
      exists importPath,
        findControllerImportPath sourceFile variableName = Some importPath /\
        truthy importPath = true
  | _ => True
  end /\
  existsSync host (uri l) = true /\
  statSync host (Path.join [projectRoot; "package.json"]) <> None.
Proof.
  destruct context as [v m|c m|p|m]; cbn [resolveDefinition];
    match goal with |- context [truthy ?x] => destruct (truthy x) end;
    try discriminate; intros H.
  - now apply resolveControllerVariableDefinition_target in H.
  - apply resolveControllerDefinition_target in H. tauto.
  - apply resolveControllerFromImportPath_target in H. tauto.
  - apply resolveRoutesModule_target in H. tauto.
Qed.

End ResultFacts.

(** ** No fault escapes the resolve request *)

Lemma provideDefinition_outcome host document offset s :
  fst (provideDefinition host document offset s) =
  match fst (provideDefinitionBody host document offset s) with
  | Returned r => r
  | Thrown => None
  end.
Proof.
  unfold provideDefinition, tryCatch, ret.
  now destruct (provideDefinitionBody host document offset s) as [[r|] s'].
Qed.

Lemma truthyResult_Some o x : truthyResult o = Some x -> o = Some x.
Proof.
  destruct o as [y|]; cbn; [|discriminate].
  destruct (truthy y); [|discriminate]. now intros [= <-].
Qed.

(** C9. Whatever the document, the offset, the host and the state of
    the caches, the resolve request answers: a fault raised inside
    (an unreadable manifest, for one) is turned into "no result", the
    walk to the project root ends, and a result is given only when every
    step succeeded: a node was found at the offset, the file is a routes
    file, a project root with a manifest was found and its manifest
    could be inspected, the click was classified, a controller variable
    was traced to its import, and the file pointed to exists. Every
    other path ends in "no result". *)
Theorem C9_no_fault_escapes
  (host : Host) (document : TextDocument) (offset : nat) (s : State) :
  let filePath := fileName document in
  let sourceFile := createSourceFile host filePath (getText document) in
  let result := fst (provideDefinition host document offset s) in
  (fst (provideDefinitionBody host document offset s) = Thrown -> result = None) /\
  findProjectRootLoop host (String.length (Path.dirname filePath) + 2)
    (Path.dirname filePath) <> None /\
  (forall r,
     result = Some r ->
     exists node projectRoot context,
       findNodeAtPosition sourceFile offset = Some node /\
       isSupportedFile filePath = true /\
       findProjectRoot host filePath = Some projectRoot /\
       existsSync host (Path.join [projectRoot; "package.json"]) = true /\
       statSync host (Path.join [projectRoot; "package.json"]) <> None /\
       analyzeClickContext sourceFile node = Some context /\
       match context with
       | ControllerVariable variableName _ =>
           exists importPath,
             findControllerImportPath sourceFile variableName = Some importPath /\
             truthy importPath = true
       | _ => True
       end /\
       Forall (fun target => existsSync host target = true) (resultTarget r)).
Proof.
  intros filePath sourceFile result. subst result.
  rewrite provideDefinition_outcome. split; [now intros ->|].
  split; [apply findProjectRootLoop_terminates; lia|].
  intros r Hr.
  destruct (provideDefinitionBody host document offset s) as [[found|] s'] eqn:Hbody;
    cbn [fst] in Hr; [subst found|discriminate].
  unfold provideDefinitionBody in Hbody. fold filePath sourceFile in Hbody.
  destruct (findNodeAtPosition sourceFile offset) as [node|] eqn:Hnode;
    [|discriminate].
  destruct (isSupportedFile filePath) eqn:Hsupported; [|discriminate].
  cbn [negb] in Hbody.
  destruct (truthyResult (findProjectRoot host filePath)) as [projectRoot|] eqn:Hroot;
    [|discriminate].
  apply truthyResult_Some in Hroot.
  destruct (analyzeClickContext sourceFile node) as [context|] eqn:Hcontext;
    [|discriminate].
  unfold bind in Hbody.
  destruct (resolveDefinition host context projectRoot sourceFile
              (normalizePath host filePath) s)
    as [[[resolved|]|] s1] eqn:Hresolved; try discriminate.
  apply resolveDefinition_target in Hresolved as (Htraced & Hexists & Hstat).
  exists node, projectRoot, context.
  repeat (split; [first [assumption | reflexivity
                        | eapply findProjectRoot_found; eassumption]|]).
  destruct node as [clicked|k].
  - destruct (isControllerVariable context); injection Hbody as <- <-; cbn;
      repeat constructor; assumption.
  - injection Hbody as <- <-. cbn. repeat constructor; assumption.
Qed.

Lemma C9_no_fault_escapes_witness :
  let host := Scenario.scenarioHost (Examples.projectHost None) 1%Z in
  exists node projectRoot context,
    findNodeAtPosition (createSourceFile host "/proj/start/routes.ts" Scenario.routesText)
      110 = Some node /\
    findProjectRoot host "/proj/start/routes.ts" = Some projectRoot /\
    analyzeClickContext (createSourceFile host "/proj/start/routes.ts" Scenario.routesText)
      node = Some context.
Proof.
  intros host.
  destruct (C9_no_fault_escapes host Scenario.routesDocument 110 freshState)
    as (_ & _ & Hresult).
  destruct (Hresult (ResultLocation
                       {| uri := Scenario.controllerPath;
                          range := nameRange Scenario.controllerTree [0; 3; 0] |}))
    as (node & projectRoot & context & Hnode & _ & Hroot & _ & _ & Hcontext & _).
  - vm_compute. reflexivity.
  - exists node, projectRoot, context. auto.
Defined.

(** * Further properties *)

(** ** The project root is the nearest directory with a manifest *)

Section ProjectRootFacts.

Variable host : Host.

Lemma findProjectRootLoop_nearest fuel currentDir :
  match findProjectRootLoop host fuel currentDir with
  | Some (Some projectRoot) =>
      exists k,
        projectRoot = dirnameIter k currentDir /\
        hasParent projectRoot = true /\
        existsSync host (Path.join [projectRoot; "package.json"]) = true /\
        forall j, j < k ->
          hasParent (dirnameIter j currentDir) = true /\
          existsSync host (Path.join [dirnameIter j currentDir; "package.json"]) = false
  | Some None =>
      forall k,
        (forall j, j <= k -> hasParent (dirnameIter j currentDir) = true) ->
        existsSync host (Path.join [dirnameIter k currentDir; "package.json"]) = false
  | None => True
  end.
Proof.
  revert currentDir. induction fuel as [|fuel IH]; intros currentDir; [exact I|].
  cbn [findProjectRootLoop].
  destruct (String.eqb currentDir (Path.dirname currentDir)) eqn:Hfix.
  { intros k Hk. specialize (Hk 0 (Nat.le_0_l k)). unfold hasParent in Hk.
    cbn [dirnameIter] in Hk. rewrite Hfix in Hk. discriminate. }
  assert (Hparent : hasParent currentDir = true) by (unfold hasParent; now rewrite Hfix).
  destruct (existsSync host (Path.join [currentDir; "package.json"])) eqn:Hexists.
  { exists 0. cbn [dirnameIter].
    split; [reflexivity|]. split; [exact Hparent|]. split; [exact Hexists|].
    intros j Hj. lia. }
  specialize (IH (Path.dirname currentDir)).
  destruct (findProjectRootLoop host fuel (Path.dirname currentDir)) as [[root|]|].
  - destruct IH as (k & Hroot & Hp & He & Hbefore).
    exists (S k). cbn [dirnameIter].
    split; [exact Hroot|]. split; [exact Hp|]. split; [exact He|].
    intros [|j] Hj; cbn [dirnameIter]; [now split|]. apply Hbefore. lia.
  - intros [|k] Hk; cbn [dirnameIter]; [exact Hexists|].
    apply IH. intros j Hj. apply (Hk (S j)). lia.
  - exact I.
Qed.

(** X1. [findProjectRoot] answers the nearest ancestor directory of the
    file that holds a [package.json], among the ancestors that have a
    parent of their own: the walk stops before the topmost directory
    ("/" or "."), so a manifest there is never found. When it answers
    nothing, no ancestor below the topmost one holds a manifest. *)
Theorem X1_project_root_is_nearest_manifest (filePath : string) :
  match findProjectRoot host filePath with
  | Some projectRoot =>
      exists k,
        projectRoot = dirnameIter (S k) filePath /\
        Path.dirname projectRoot <> projectRoot /\
        existsSync host (Path.join [projectRoot; "package.json"]) = true /\
        forall j, j < k ->
          existsSync host (Path.join [dirnameIter (S j) filePath; "package.json"]) = false
  | None =>
      forall k,
        (forall j, j <= k -> hasParent (dirnameIter (S j) filePath) = true) ->
        existsSync host (Path.join [dirnameIter (S k) filePath; "package.json"]) = false
  end.
Proof.
  unfold findProjectRoot.
  pose proof (findProjectRootLoop_nearest
                (String.length (Path.dirname filePath) + 2) (Path.dirname filePath)) as H.
  pose proof (findProjectRootLoop_terminates host
                (String.length (Path.dirname filePath) + 2) (Path.dirname filePath)) as Hfuel.
  destruct (findProjectRootLoop host _ _) as [[root|]|].
  - destruct H as (k & Hroot & Hp & He & Hbefore).
    exists k. cbn [dirnameIter].
    split; [exact Hroot|]. split; [|split; [exact He|]].
    + unfold hasParent in Hp. apply negb_true_iff, String.eqb_neq in Hp. congruence.
    + intros j Hj. now apply Hbefore.
  - exact H.
  - exfalso. apply Hfuel; [lia|reflexivity].
Qed.

End ProjectRootFacts.

(** ** The node at a position *)

(** Induction over a layout, with the property known for the members of
    a syntax list. *)
Lemma Layout_items_ind (P : Layout -> Prop) :
  (forall i, P (Child i)) ->
  (forall k s e, P (Token k s e)) ->
  (forall s e items, Forall P items -> P (List_ s e items)) ->
  forall item, P item.
Proof.
  intros Hchild Htoken Hlist. fix IH 1. intros [i|k s e|s e items].
  - apply Hchild.
  - apply Htoken.
  - apply Hlist. induction items as [|x items IHitems]; constructor;
      [apply IH|exact IHitems].
Qed.

Lemma firstSome_In {A B} (f : A -> option B) (l : list A) (y : B) :
  firstSome f l = Some y -> exists x, In x l /\ f x = Some y.
Proof.
  induction l as [|x l IH]; cbn; [discriminate|].
  destruct (f x) as [z|] eqn:E.
  - intros [= <-]. exists x. auto.
  - intros H. destruct (IH H) as (x' & Hin & Hx'). exists x'. auto.
Qed.

(** A node answered from the layout is one answered by a child. *)
Lemma findLayout_from_child position found item r :
  findLayout position found item = Some (AstNode r) ->
  In (Some (AstNode r)) found.
Proof.
  induction item as [i|k s e|s e items IH] using Layout_items_ind;
    cbn [findLayout].
  - intros H. destruct (nth_in_or_default i found None) as [Hin|Hdef].
    + now rewrite H in Hin.
    + rewrite H in Hdef. discriminate.
  - destruct (within position s e); discriminate.
  - destruct (within position s e); [|discriminate].
    destruct (firstSome (findLayout position found) items) as [f|] eqn:E;
      [|discriminate].
    intros [= ->]. apply firstSome_In in E as (x & Hin & Hx).
    rewrite List.Forall_forall in IH. exact (IH x Hin Hx).
Qed.

Lemma find_children_In position self (ps : list (PropName * Node)) k x :
  In (Some x)
     ((fix each (i : nat) (ps : list (PropName * Node)) : list (option Located) :=
         match ps with
         | [] => []
         | (_, c) :: rest => find position c (i :: self) :: each (S i) rest
         end) k ps) ->
  exists i q c, nth_error ps i = Some (q, c) /\
                find position c ((k + i) :: self) = Some x.
Proof.
  revert k. induction ps as [|[q c] ps IH]; intros k; [intros []|].
  intros [H|H].
  - exists 0, q, c. rewrite Nat.add_0_r. auto.
  - destruct (IH (S k) H) as (i & q' & c' & Hnth & Hfind).
    exists (S i), q', c'. rewrite Nat.add_succ_r. auto.
Qed.

Section LocatorFacts.

Variable sourceFile : Node.
Variable position : nat.

Lemma find_spans n :
  forall self r,
    nodeAt sourceFile self = Some n ->
    match self with
    | [] => True
    | _ :: up => spansContain sourceFile position up = true
    end ->
    find position n self = Some (AstNode r) ->
    spansContain sourceFile position r = true.
Proof.
  induction n as [n IH] using Node_children_ind. intros self r Hself Hup.
  destruct n as [k t s e ps layout]. cbn [find getStart getEnd props getChildren].
  destruct (within position s e) eqn:Hwithin; [|discriminate].
  assert (Hhere : spansContain sourceFile position self = true).
  { destruct self as [|i up]; cbn [spansContain]; rewrite Hself; cbn [getStart getEnd];
      rewrite Hwithin; [reflexivity|exact Hup]. }
  match goal with
  | |- context [firstSome ?f layout] => destruct (firstSome f layout) as [f'|] eqn:E
  end.
  - intros [= ->]. apply firstSome_In in E as (item & _ & Hitem).
    apply findLayout_from_child in Hitem.
    apply find_children_In in Hitem as (i & q & c & Hnth & Hfind).
    cbn [props] in IH. rewrite List.Forall_forall in IH.
    apply (IH (q, c) (nth_error_In _ _ Hnth) (i :: self) r); cbn [snd]; auto.
    cbn [nodeAt]. rewrite Hself. cbn [props]. now rewrite Hnth.
  - now intros [= <-].
Qed.

Lemma spansContain_ancestors r :
  spansContain sourceFile position r = true ->
  forall q, q `suffix_of` r ->
    exists m, nodeAt sourceFile q = Some m /\
              getStart m <= position /\ position <= getEnd m.
Proof.
  induction r as [|i up IH]; cbn [spansContain]; intros H q Hq.
  - apply suffix_nil_inv in Hq as ->.
    apply andb_true_iff in H as [H _].
    destruct (nodeAt sourceFile []) as [m|]; [|discriminate].
    exists m. unfold within in H. apply andb_true_iff in H as [H1 H2].
    apply Nat.leb_le in H1, H2. auto.
  - apply andb_true_iff in H as [H Hup].
    destruct q as [|x q']; [apply (IH Hup []), suffix_nil|].
    apply suffix_cons_inv in Hq as [[= -> ->]|Hq]; [|exact (IH Hup _ Hq)].
    destruct (nodeAt sourceFile (i :: up)) as [m|]; [|discriminate].
    exists m. unfold within in H. apply andb_true_iff in H as [H1 H2].
    apply Nat.leb_le in H1, H2. auto.
Qed.

(** X2. [findNodeAtPosition] answers nothing exactly when the position
    lies outside the span of the source file (ends included); a node it
    answers exists in the tree, and its span and the span of each of its
    ancestors contain the position. *)
Theorem X2_located_node_contains_position :
  (findNodeAtPosition sourceFile position = None <->
   within position (getStart sourceFile) (getEnd sourceFile) = false) /\
  (forall r,
     findNodeAtPosition sourceFile position = Some (AstNode r) ->
     forall q, q `suffix_of` r ->
       exists m, nodeAt sourceFile q = Some m /\
                 getStart m <= position /\ position <= getEnd m).
Proof.
  split.
  - unfold findNodeAtPosition. destruct sourceFile as [k t s e ps layout].
    cbn [find getStart getEnd props getChildren].
    destruct (within position s e); [|tauto].
    match goal with
    | |- context [firstSome ?f layout] => destruct (firstSome f layout)
    end; split; discriminate.
  - intros r Hfound. apply spansContain_ancestors.
    apply (find_spans sourceFile [] r); auto.
Qed.

End LocatorFacts.

(** ** The enclosing routing call *)

Section EnclosingCallFacts.

Variable sourceFile : Node.

Lemma findRouterCall_innermost r :
  match findRouterCall sourceFile r with
  | Some call =>
      call `suffix_of` r /\
      isCallOnProperty sourceFile isRoutingVerb call = true /\
      forall q, q `suffix_of` r -> length call < length q ->
                isCallOnProperty sourceFile isRoutingVerb q = false
  | None =>
      forall q, q `suffix_of` r -> isCallOnProperty sourceFile isRoutingVerb q = false
  end.
Proof.
  induction r as [|i up IH]; cbn [findRouterCall].
  - destruct (isCallOnProperty sourceFile isRoutingVerb []) eqn:E.
    + split; [reflexivity|]. split; [exact E|].
      intros q Hq Hlen. apply suffix_nil_inv in Hq as ->. cbn in Hlen. lia.
    + intros q Hq. now apply suffix_nil_inv in Hq as ->.
  - destruct (isCallOnProperty sourceFile isRoutingVerb (i :: up)) eqn:E.
    + split; [reflexivity|]. split; [exact E|].
      intros q Hq Hlen. apply suffix_length in Hq. lia.
    + destruct (findRouterCall sourceFile up) as [call|].
      * destruct IH as (Hsuffix & Hcall & Hnearer).
        split; [now apply suffix_cons_r|]. split; [exact Hcall|].
        intros [|x q'] Hq Hlen; [cbn in Hlen; lia|].
        apply suffix_cons_inv in Hq as [[= -> ->]|Hq]; [exact E|].
        now apply Hnearer.
      * intros [|x q'] Hq; [apply IH, suffix_nil|].
        apply suffix_cons_inv in Hq as [[= -> ->]|Hq]; [exact E|]. now apply IH.
Qed.

Lemma findRoutesGroupCall_innermost r :
  match findRoutesGroupCall sourceFile r with
  | Some call =>
      call `suffix_of` r /\
      isCallOnProperty sourceFile (String.eqb "group") call = true /\
      forall q, q `suffix_of` r -> length call < length q ->
                isCallOnProperty sourceFile (String.eqb "group") q = false
  | None =>
      forall q, q `suffix_of` r ->
                isCallOnProperty sourceFile (String.eqb "group") q = false
  end.
Proof.
  induction r as [|i up IH]; cbn [findRoutesGroupCall].
  - destruct (isCallOnProperty sourceFile (String.eqb "group") []) eqn:E.
    + split; [reflexivity|]. split; [exact E|].
      intros q Hq Hlen. apply suffix_nil_inv in Hq as ->. cbn in Hlen. lia.
    + intros q Hq. now apply suffix_nil_inv in Hq as ->.
  - destruct (isCallOnProperty sourceFile (String.eqb "group") (i :: up)) eqn:E.
    + split; [reflexivity|]. split; [exact E|].
      intros q Hq Hlen. apply suffix_length in Hq. lia.
    + destruct (findRoutesGroupCall sourceFile up) as [call|].
      * destruct IH as (Hsuffix & Hcall & Hnearer).
        split; [now apply suffix_cons_r|]. split; [exact Hcall|].
        intros [|x q'] Hq Hlen; [cbn in Hlen; lia|].
        apply suffix_cons_inv in Hq as [[= -> ->]|Hq]; [exact E|].
        now apply Hnearer.
      * intros [|x q'] Hq; [apply IH, suffix_nil|].
        apply suffix_cons_inv in Hq as [[= -> ->]|Hq]; [exact E|]. now apply IH.
Qed.

(** A call on a property named "group" is a routing call. *)
Lemma group_is_routing_call r :
  isCallOnProperty sourceFile (String.eqb "group") r = true ->
  isCallOnProperty sourceFile isRoutingVerb r = true.
Proof.
  unfold isCallOnProperty.
  destruct (hasKind sourceFile CallExpression r); [|discriminate].
  destruct (prop sourceFile p_expression r) as [callee|]; [|discriminate].
  destruct (hasKind sourceFile PropertyAccessExpression callee); [|discriminate].
  destruct (prop sourceFile p_name callee) as [name|]; [|discriminate].
  cbn [andb]. intros H. apply String.eqb_eq in H. now rewrite <- H.
Qed.

(** X3. [findRouterCall] and [findRoutesGroupCall] answer the innermost
    qualifying call among the node and its ancestors, and nothing when
    there is none. Every group call is a routing call, so below a group
    call [findRouterCall] always finds a call, the group call itself or
    one nested in it. *)
Theorem X3_innermost_enclosing_call (r : NodeRef) :
  match findRouterCall sourceFile r with
  | Some call =>
      call `suffix_of` r /\
      isCallOnProperty sourceFile isRoutingVerb call = true /\
      forall q, q `suffix_of` r -> length call < length q ->
                isCallOnProperty sourceFile isRoutingVerb q = false
  | None =>
      forall q, q `suffix_of` r -> isCallOnProperty sourceFile isRoutingVerb q = false
  end /\
  match findRoutesGroupCall sourceFile r with
  | Some group =>
      group `suffix_of` r /\
      isCallOnProperty sourceFile (String.eqb "group") group = true /\
      (forall q, q `suffix_of` r -> length group < length q ->
                 isCallOnProperty sourceFile (String.eqb "group") q = false) /\
      exists call, findRouterCall sourceFile r = Some call /\ group `suffix_of` call
  | None =>
      forall q, q `suffix_of` r ->
                isCallOnProperty sourceFile (String.eqb "group") q = false
  end.
Proof.
  pose proof (findRouterCall_innermost r) as Hrouter.
  pose proof (findRoutesGroupCall_innermost r) as Hgroup.
  split; [exact Hrouter|].
  destruct (findRoutesGroupCall sourceFile r) as [group|]; [|exact Hgroup].
  destruct Hgroup as (Hsuffix & Hcall & Hnearer).
  split; [exact Hsuffix|]. split; [exact Hcall|]. split; [exact Hnearer|].
  apply group_is_routing_call in Hcall.
  destruct (findRouterCall sourceFile r) as [call|].
  - exists call. split; [reflexivity|].
    destruct Hrouter as (Hcs & _ & Hcn).
    destruct (Nat.lt_ge_cases (length call) (length group)) as [Hlt|Hge].
    + rewrite (Hcn group Hsuffix Hlt) in Hcall. discriminate.
    + destruct Hsuffix as [k1 Hk1]. destruct Hcs as [k2 Hk2].
      rewrite Hk1 in Hk2.
      assert (Hlen : length k2 <= length k1).
      { apply (f_equal (@length nat)) in Hk2. rewrite !length_app in Hk2. lia. }
      exists (drop (length k2) k1).
      apply (f_equal (drop (length k2))) in Hk2.
      rewrite drop_app_length in Hk2. rewrite <- Hk2.
      rewrite drop_app_le by exact Hlen. reflexivity.
  - rewrite (Hrouter group Hsuffix) in Hcall. discriminate.
Qed.

End EnclosingCallFacts.

(** ** Clicks on a handler tuple *)

Section TupleFacts.

Variable sourceFile : Node.

Lemma isCallOnProperty_call ok r :
  isCallOnProperty sourceFile ok r = true -> hasKind sourceFile CallExpression r = true.
Proof. unfold isCallOnProperty. now destruct (hasKind sourceFile CallExpression r). Qed.

Lemma not_call_isCallOnProperty ok k r :
  hasKind sourceFile k r = true -> SyntaxKind_eqb k CallExpression = false ->
  isCallOnProperty sourceFile ok r = false.
Proof.
  intros Hk Hne. unfold isCallOnProperty.
  now rewrite (hasKind_unique sourceFile k CallExpression r Hk), Hne.
Qed.

(** A click on the identifier of a handler tuple. *)
Lemma handler_tuple_identifier (call tuple identifier literal first : NodeRef)
  (rest : list NodeRef) :
  isCallOnProperty sourceFile isRoutingVerb call = true ->
  propList sourceFile p_arguments call = first :: tuple :: rest ->
  hasKind sourceFile ArrayLiteralExpression tuple = true ->
  propList sourceFile p_elements tuple = [identifier; literal] ->
  hasKind sourceFile Identifier identifier = true ->
  hasKind sourceFile StringLiteral literal = true ->
  analyzeClickContext sourceFile (AstNode identifier)
    = Some (ControllerVariable (textOf sourceFile identifier) None).
Proof.
  intros Hcall Hargs Harray Helements Hidentifier Hliteral.
  assert (Htuple : exists k, tuple = k :: call).
  { apply (propList_children sourceFile p_arguments). rewrite Hargs. cbn. auto. }
  assert (Hid : exists i, identifier = i :: tuple).
  { apply (propList_children sourceFile p_elements). rewrite Helements. cbn. auto. }
  destruct Htuple as [k ->]. destruct Hid as [i ->].
  unfold analyzeClickContext. rewrite Hidentifier.
  unfold analyzeIdentifierClick. cbn [findRouterCall].
  rewrite (not_call_isCallOnProperty _ _ _ Hidentifier eq_refl).
  rewrite (not_call_isCallOnProperty _ _ _ Harray eq_refl).
  assert (Hfound : findRouterCall sourceFile call = Some call).
  { destruct call; cbn [findRouterCall]; now rewrite Hcall. }
  rewrite Hfound.
  unfold extractHandlerFromRouterCall. rewrite Hargs.
  unfold parseHandlerArgument. rewrite Harray, Helements, Hidentifier, Hliteral.
  cbn [andb parent]. rewrite Harray, Helements, NodeRef_eqb_refl, Hliteral.
  reflexivity.
Qed.

(** A click on the string literal of a handler tuple. *)
Lemma handler_tuple_literal (tuple identifier literal : NodeRef) :
  hasKind sourceFile ArrayLiteralExpression tuple = true ->
  propList sourceFile p_elements tuple = [identifier; literal] ->
  hasKind sourceFile Identifier identifier = true ->
  hasKind sourceFile StringLiteral literal = true ->
  analyzeClickContext sourceFile (AstNode literal)
    = Some (MethodString (textOf sourceFile identifier) (textOf sourceFile literal)).
Proof.
  intros Harray Helements Hidentifier Hliteral.
  assert (Hlit : exists j, literal = j :: tuple).
  { apply (propList_children sourceFile p_elements). rewrite Helements. cbn. auto. }
  destruct Hlit as [j ->].
  unfold analyzeClickContext.
  rewrite (hasKind_unique _ _ Identifier _ Hliteral). cbn [SyntaxKind_eqb].
  rewrite Hliteral. unfold analyzeStringLiteralClick.
  rewrite isMethodStringInTuple_spec. unfold secondOfIdentifierTuple. cbn [parent].
  rewrite Harray, Helements, NodeRef_eqb_refl, Hidentifier. reflexivity.
Qed.

(** X4. For a routing call whose second argument is a two-element array
    literal [[identifier, literal]] made of an identifier and a string
    literal, the two clicks are classified differently. A click on the
    identifier is a controller variable named by the text of the
    identifier, and it carries no method name, although the tuple names
    one. A click on the literal is a method string whose controller name
    is the text of the identifier and whose method name is the text of
    the literal. *)
Theorem X4_handler_tuple_echo (call tuple identifier literal first : NodeRef)
  (rest : list NodeRef) :
  isCallOnProperty sourceFile isRoutingVerb call = true ->
  propList sourceFile p_arguments call = first :: tuple :: rest ->
  hasKind sourceFile ArrayLiteralExpression tuple = true ->
  propList sourceFile p_elements tuple = [identifier; literal] ->
  hasKind sourceFile Identifier identifier = true ->
  hasKind sourceFile StringLiteral literal = true ->
  analyzeClickContext sourceFile (AstNode identifier)
    = Some (ControllerVariable (textOf sourceFile identifier) None) /\
  analyzeClickContext sourceFile (AstNode literal)
    = Some (MethodString (textOf sourceFile identifier) (textOf sourceFile literal)).
Proof.
  intros Hcall Hargs Harray Helements Hidentifier Hliteral. split.
  - eapply handler_tuple_identifier; eassumption.
  - eapply handler_tuple_literal; eassumption.
Qed.

End TupleFacts.

Lemma X4_handler_tuple_echo_witness :
  analyzeClickContext Scenario.routesTree (AstNode [0; 2; 0; 1])
    = Some (ControllerVariable "UserController" None) /\
  analyzeClickContext Scenario.routesTree (AstNode [1; 2; 0; 1])
    = Some (MethodString "UserController" "index").
Proof.
  exact (X4_handler_tuple_echo Scenario.routesTree [0; 1] [2; 0; 1] [0; 2; 0; 1]
           [1; 2; 0; 1] [1; 0; 1] [] eq_refl eq_refl eq_refl eq_refl eq_refl eq_refl).
Defined.

(** ** Controller variables resolve to the top of the file *)

Lemma analyzeIdentifierClick_no_method sourceFile node variableName methodName :
  analyzeIdentifierClick sourceFile node
    = Some (ControllerVariable variableName methodName) ->
  methodName = None.
Proof.
  unfold analyzeIdentifierClick. cbv zeta.
  repeat match goal with
         | |- context [match ?x with _ => _ end] =>
             lazymatch x with
             | context [match _ with _ => _ end] => fail
             | _ => destruct x
             end
         end; congruence.
Qed.

Lemma analyzeClickContext_variable sourceFile node variableName methodName :
  analyzeClickContext sourceFile node
    = Some (ControllerVariable variableName methodName) ->
  methodName = None /\
  exists clicked, node = AstNode clicked /\ hasKind sourceFile Identifier clicked = true.
Proof.
  destruct node as [r|k]; cbn [analyzeClickContext]; [|discriminate].
  destruct (hasKind sourceFile Identifier r) eqn:Hid.
  - intros H. split; [eapply analyzeIdentifierClick_no_method, H|eauto].
  - destruct (hasKind sourceFile StringLiteral r); [|discriminate].
    unfold analyzeStringLiteralClick.
    destruct (isMethodStringInTuple sourceFile r); [discriminate|].
    destruct (startsWith _ _); discriminate.
Qed.



(** ** Tracing a controller variable *)

Lemma firstSome_app {A B} (f : A -> option B) (l1 l2 : list A) :
  firstSome f (l1 ++ l2) =
  match firstSome f l1 with
  | Some y => Some y
  | None => firstSome f l2
  end.
Proof.
  induction l1 as [|x l1 IH]; cbn; [reflexivity|].
  now destruct (f x).
Qed.

Section TracerFacts.

Variable sourceFile : Node.
Variable variableName : string.

Lemma declaredImport_declaration r importPath :
  declaredImport sourceFile variableName r = Some importPath ->
  hasKind sourceFile VariableDeclaration r = true /\
  exists name, prop sourceFile p_name r = Some name /\
               textOf sourceFile name = variableName.
Proof.
  unfold declaredImport.
  destruct (hasKind sourceFile VariableDeclaration r); [|discriminate].
  destruct (prop sourceFile p_name r) as [name|]; [|discriminate].
  destruct (hasKind sourceFile Identifier name && _) eqn:E; [|discriminate].
  apply andb_true_iff in E as [_ E]. apply String.eqb_eq in E.
  intros _. split; [reflexivity|]. now exists name.
Qed.

(** The nodes of a subtree lie below its root. *)
Lemma preorder_below n :
  forall self r, In r (preorder n self) -> exists path, r = path ++ self.
Proof.
  induction n as [n IH] using Node_children_ind. intros self r.
  destruct n as [k t s e ps layout]. cbn [preorder props] in *.
  intros [<-|Hin]; [now exists []|].
  revert Hin. generalize 0 as i.
  induction ps as [|[q c] ps IHps]; intros i; [intros []|].
  apply List.Forall_cons_iff in IH as [Hc Hps]. cbn [snd] in Hc.
  intros Hin. apply in_app_or in Hin as [Hin|Hin].
  - destruct (Hc _ _ Hin) as [path ->]. exists (path ++ [i]).
    now rewrite <- app_assoc.
  - exact (IHps Hps (S i) Hin).
Qed.

Lemma insideDeclaredImport_below self importPath path i :
  declaredImport sourceFile variableName self = Some importPath ->
  insideDeclaredImport sourceFile variableName (path ++ i :: self) = true.
Proof.
  intros Hself. induction path as [|j path IH]; cbn [app insideDeclaredImport].
  - now rewrite Hself.
  - rewrite IH. now destruct (declaredImport sourceFile variableName (path ++ i :: self)).
Qed.

Lemma firstSome_none {A B} (f : A -> option B) (l : list A) :
  (forall x, In x l -> f x = None) -> firstSome f l = None.
Proof.
  induction l as [|x l IH]; intros H; [reflexivity|].
  cbn [firstSome]. rewrite (H x) by now left.
  apply IH. intros y Hy. apply H. now right.
Qed.

(** The loop of [ts.forEachChild] only answers truthy values. *)
Lemma truthyResult_idempotent o : truthyResult (truthyResult o) = truthyResult o.
Proof.
  destruct o as [p|]; [|reflexivity]. cbn [truthyResult].
  destruct (truthy p) eqn:Hp; [|reflexivity]. cbn [truthyResult]. now rewrite Hp.
Qed.

(** [visit], started outside every declaration of the variable, answers
    the first import path that a node of the subtree offers. *)
Lemma visitImport_offered n :
  forall self,
    insideDeclaredImport sourceFile variableName self = false ->
    truthyResult (visitImport sourceFile variableName n self)
    = firstSome (offeredImport sourceFile variableName) (preorder n self).
Proof.
  induction n as [n IH] using Node_children_ind. intros self Hself.
  destruct n as [k t s e ps layout].
  cbn [visitImport preorder props firstSome] in *.
  unfold offeredImport at 1. rewrite Hself.
  destruct (declaredImport sourceFile variableName self) as [p|] eqn:Hdeclared.
  - destruct (truthyResult (Some p)) as [q|]; [reflexivity|].
    symmetry. apply firstSome_none. intros r Hin.
    assert (Hbelow : exists path i, r = path ++ i :: self).
    { clear - Hin. revert Hin. generalize 0 as i.
      induction ps as [|[q c] ps IHps]; intros i; [intros []|].
      intros Hin. apply in_app_or in Hin as [Hin|Hin].
      - apply preorder_below in Hin as [path ->]. now exists path, i.
      - exact (IHps (S i) Hin). }
    destruct Hbelow as (path & i & ->).
    unfold offeredImport.
    now rewrite (insideDeclaredImport_below self p path i Hdeclared).
  - cbn [truthyResult].
    generalize 0 as i.
    induction ps as [|[q c] ps IHps]; intros i; [reflexivity|].
    apply List.Forall_cons_iff in IH as [Hc Hps]. cbn [snd] in Hc.
    rewrite firstSome_app, <- (Hc (i :: self)).
    2: { cbn [insideDeclaredImport]. now rewrite Hdeclared. }
    destruct (truthyResult (visitImport sourceFile variableName c (i :: self)))
      as [p|] eqn:Hchild.
    + rewrite <- Hchild. apply truthyResult_idempotent.
    + exact (IHps Hps (S i)).
Qed.

(** What [visit] answers was declared somewhere in the tree. *)
Lemma visitImport_declared n :
  forall self importPath,
    visitImport sourceFile variableName n self = Some importPath ->
    exists r, In r (preorder n self) /\
              declaredImport sourceFile variableName r = Some importPath.
Proof.
  induction n as [n IH] using Node_children_ind. intros self importPath.
  destruct n as [k t s e ps layout].
  cbn [visitImport preorder props] in *.
  destruct (declaredImport sourceFile variableName self) as [p|] eqn:Hself.
  { intros [= <-]. exists self. split; [now left|exact Hself]. }
  generalize 0 as i.
  induction ps as [|[q c] ps IHps]; intros i; [discriminate|].
  apply List.Forall_cons_iff in IH as [Hc Hps]. cbn [snd] in Hc.
  destruct (truthyResult (visitImport sourceFile variableName c (i :: self)))
    as [p|] eqn:Hchild.
  - intros [= <-]. apply truthyResult_Some in Hchild.
    destruct (Hc _ _ Hchild) as (r & Hin & Hr).
    exists r. split; [|exact Hr]. right. apply in_or_app. now left.
  - intros H. destruct (IHps Hps (S i) H) as (r & Hin & Hr).
    exists r. split; [|exact Hr].
    destruct Hin as [<-|Hin]; [now left|]. right. apply in_or_app. now right.
Qed.

(** X6. [findControllerImportPath] does no scope resolution. Among the
    declarations of the variable that are bound to a dynamic import,
    those nested inside another such declaration apart, the first one in
    document order whose import path is not empty decides: its path is
    the path the caller goes on with, and there is none when no
    declaration offers one. An answer always comes from a variable
    declaration named like the variable. *)
Theorem X6_first_declaration_wins :
  truthyResult (findControllerImportPath sourceFile variableName)
  = firstSome (offeredImport sourceFile variableName) (preorder sourceFile []) /\
  (forall importPath,
     findControllerImportPath sourceFile variableName = Some importPath ->
     exists r name,
       In r (preorder sourceFile []) /\
       declaredImport sourceFile variableName r = Some importPath /\
       hasKind sourceFile VariableDeclaration r = true /\
       prop sourceFile p_name r = Some name /\
       textOf sourceFile name = variableName).
Proof.
  split; [now apply visitImport_offered|].
  intros importPath H. apply visitImport_declared in H as (r & Hin & Hr).
  destruct (declaredImport_declaration r importPath Hr) as (Hkind & name & Hname & Htext).
  exists r, name. auto.
Qed.

End TracerFacts.

(** ** The cache of alias tables *)

Section CacheMoreFacts.

Variable host : Host.


(** X8. [getPackageImports] only touches the cache entry of the manifest
    it is asked about: the tables and timestamps stored for other
    manifests stay as they are, the trace only grows, and a timestamp
    is never stored without a table. *)
Theorem X8_other_manifests_untouched (projectRoot : string) (s : State) :
  let key := Path.join [projectRoot; "package.json"] in
  let s' := snd (getPackageImports host projectRoot s) in
  (forall other, other <> key ->
     importsCache s' !! other = importsCache s !! other /\
     cacheTimestamps s' !! other = cacheTimestamps s !! other) /\
  trace s `suffix_of` trace s' /\
  ((forall k, is_Some (cacheTimestamps s !! k) -> is_Some (importsCache s !! k)) ->
   forall k, is_Some (cacheTimestamps s' !! k) -> is_Some (importsCache s' !! k)).
Proof.
  intros key s'. subst s'.
  pose proof (getPackageImports_run host projectRoot s) as R. fold key in R.
  destruct (getPackageImports host projectRoot s) as [o s1]; cbn [fst snd] in *.
  inversion R; subst; cbn [importsCache cacheTimestamps trace].
  all: split;
    [intros other Hother; rewrite ?lookup_insert_ne by congruence; split; reflexivity|].
  all: split;
    [repeat (apply suffix_cons_r); reflexivity|].
  all: intros Hinv k; try exact (Hinv k).
  all: destruct (decide (k = key)) as [->|Hk];
    rewrite ?lookup_insert_eq, ?lookup_insert_ne by congruence; eauto.
Qed.

End CacheMoreFacts.


(** X9. A reload that fails (the manifest cannot be read or parsed)
    answers the empty table and stores it, but leaves the cached
    timestamp as it was. So the next call, the manifest being as it is,
    reads the manifest again and answers the empty table again; and if
    the manifest is later seen with the timestamp that was cached, the
    call is a cache hit and still answers the empty table, whatever the
    manifest holds by then. *)
Theorem X9_failed_reload_keeps_old_timestamp
  (host later : Host) (projectRoot : string) (s : State) (mtime cached : Z) :
  let key := Path.join [projectRoot; "package.json"] in
  statSync host key = Some mtime ->
  cacheTimestamps s !! key = Some cached ->
  cached <> mtime ->
  manifestParses host projectRoot = false ->
  statSync later key = Some cached ->
  let s' := snd (getPackageImports host projectRoot s) in
  let next := getPackageImports host projectRoot s' in
  fst (getPackageImports host projectRoot s) = Returned ∅ /\
  importsCache s' !! key = Some ∅ /\
  cacheTimestamps s' !! key = Some cached /\
  fst next = Returned ∅ /\
  (exists t, trace (snd next) = t ++ IORead key :: IOStat key :: trace s') /\
  fst (getPackageImports later projectRoot s') = Returned ∅ /\
  trace (snd (getPackageImports later projectRoot s')) = IOStat key :: trace s'.
Proof.
  intros key Hstat Hcached Hne Hfails Hlater s' next. subst next s'.
  assert (Hts : timestampIs s key mtime = false).
  { unfold timestampIs. rewrite Hcached. now apply Z.eqb_neq. }
  pose proof (getPackageImports_run host projectRoot s) as R. fold key in R.
  destruct (getPackageImports host projectRoot s) as [o s1]; cbn [fst snd] in *.
  unfold manifestParses in Hfails. fold key in Hfails.
  assert (Hs1 : o = Returned ∅ /\ importsCache s1 !! key = Some ∅ /\
                cacheTimestamps s1 = cacheTimestamps s).
  { inversion R; subst; simplify_eq; try congruence;
      cbn [importsCache cacheTimestamps]; rewrite ?lookup_insert_eq; auto.
    match goal with
    | H1 : readFileSync host key = Some _, H2 : JSON_parse host _ = Some _ |- _ =>
        rewrite H1, H2 in Hfails; discriminate
    end. }
  destruct Hs1 as (-> & Htable & Hstamps).
  split; [reflexivity|]. split; [exact Htable|].
  split; [now rewrite Hstamps|].
  assert (Hts1 : timestampIs s1 key mtime = false).
  { unfold timestampIs. rewrite Hstamps, Hcached. now apply Z.eqb_neq. }
  assert (Hnext : fst (getPackageImports host projectRoot s1) = Returned ∅ /\
                  exists t, trace (snd (getPackageImports host projectRoot s1))
                            = t ++ IORead key :: IOStat key :: trace s1).
  { pose proof (getPackageImports_run host projectRoot s1) as R1. fold key in R1.
    destruct (getPackageImports host projectRoot s1) as [o2 s2]; cbn [fst snd] in *.
    inversion R1; subst; simplify_eq; try congruence; cbn [trace].
    - match goal with
      | H1 : readFileSync host key = Some _, H2 : JSON_parse host _ = Some _ |- _ =>
          rewrite H1, H2 in Hfails; discriminate
      end.
    - split; [reflexivity|]. now exists [].
    - split; [reflexivity|]. now exists [IOParse content]. }
  destruct Hnext as [Hnext Htrace].
  split; [exact Hnext|]. split; [exact Htrace|].
  rewrite (getPackageImports_hit later projectRoot s1 cached); fold key.
  - cbn [fst snd trace]. now rewrite Htable.
  - exact Hlater.
  - unfold timestampIs. rewrite Hstamps, Hcached. apply Z.eqb_refl.
Qed.

Lemma X9_failed_reload_keeps_old_timestamp_witness :
  let loaded :=
    snd (getPackageImports (Scenario.scenarioHost (Examples.projectHost None) 4%Z)
           "/proj" freshState) in
  let broken := Examples.brokenManifestHost in
  let later := Scenario.scenarioHost (Examples.projectHost None) 4%Z in
  let failed := snd (getPackageImports broken "/proj" loaded) in
  fst (getPackageImports later "/proj" loaded)
    = Returned {[ "#controllers/*" := "./app/controllers/*.js" ]} /\
  fst (getPackageImports broken "/proj" failed) = Returned ∅ /\
  fst (getPackageImports later "/proj" failed) = Returned ∅.
Proof.
  intros loaded broken later failed. split; [vm_compute; reflexivity|].
  destruct (X9_failed_reload_keeps_old_timestamp broken later "/proj" loaded 1%Z 4%Z)
    as (_ & _ & _ & Hnext & _ & Hlater & _); [vm_compute; congruence ..|].
  split; [exact Hnext|exact Hlater].
Defined.

(** ** Snake case, again *)

Lemma lowerChar_not_upper c : isUpper (lowerChar c) = false.
Proof. destruct c as [[] [] [] [] [] [] [] []]; reflexivity. Qed.

Lemma noUpper_toLowerCase s : noUpper (toLowerCase s) = true.
Proof.
  induction s as [|c s IH]; cbn [toLowerCase noUpper]; [reflexivity|].
  now rewrite lowerChar_not_upper, IH.
Qed.

Lemma toLowerCase_noUpper s : noUpper s = true -> toLowerCase s = s.
Proof.
  induction s as [|c s IH]; cbn [toLowerCase noUpper]; [reflexivity|].
  intros H. apply andb_true_iff in H as [Hc Hs]. apply negb_true_iff in Hc.
  unfold lowerChar. now rewrite Hc, (IH Hs).
Qed.

Lemma underscoreAtBoundaries_noUpper s :
  noUpper s = true -> underscoreAtBoundaries s = s.
Proof.
  induction s as [|a t IH]; [reflexivity|].
  cbn [noUpper]. intros H. apply andb_true_iff in H as [_ Ht].
  specialize (IH Ht). cbn [underscoreAtBoundaries].
  destruct t as [|b r]; [reflexivity|].
  cbn [noUpper] in Ht. apply andb_true_iff in Ht as [Hb _]. apply negb_true_iff in Hb.
  now rewrite Hb, andb_false_r, IH.
Qed.

(** X10. The file name derived from a controller name holds no uppercase
    letter, deriving it again changes nothing, and a name without
    uppercase letters is its own file name (its snake-case candidates
    and its candidates by name are then the same paths). *)
Theorem X10_snake_case_is_stable (controllerName : string) :
  noUpper (snakeCase controllerName) = true /\
  snakeCase (snakeCase controllerName) = snakeCase controllerName /\
  (noUpper controllerName = true -> snakeCase controllerName = controllerName).
Proof.
  assert (Hfix : forall s, noUpper s = true -> snakeCase s = s).
  { intros s Hs. unfold snakeCase.
    now rewrite replaceLowerUpper_boundaries, (underscoreAtBoundaries_noUpper s Hs),
      toLowerCase_noUpper. }
  assert (Hlower : noUpper (snakeCase controllerName) = true)
    by apply noUpper_toLowerCase.
  split; [exact Hlower|]. split; [exact (Hfix _ Hlower)|exact (Hfix controllerName)].
Qed.

Lemma X10_snake_case_is_stable_witness :
  snakeCase "user_controller" = "user_controller".
Proof.
  apply (proj2 (proj2 (X10_snake_case_is_stable "user_controller"))).
  reflexivity.
Defined.

(** ** What the member locator answers *)

Section LocatedMemberFacts.

Variable sourceFile : Node.
Variable methodName : string.

Lemma namedBy_name node name :
  namedBy sourceFile methodName node = Some name ->
  prop sourceFile p_name node = Some name /\
  hasKind sourceFile Identifier name = true /\
  textOf sourceFile name = methodName.
Proof.
  unfold namedBy. destruct (prop sourceFile p_name node) as [n|]; [|discriminate].
  destruct (hasKind sourceFile Identifier n && _) eqn:E; [|discriminate].
  apply andb_true_iff in E as [Hid Htext]. apply String.eqb_eq in Htext.
  now intros [= <-].
Qed.

Lemma classPriority_range up : 1 <= classPriority sourceFile up <= 2.
Proof.
  induction up as [|i up IH]; cbn [classPriority];
    repeat match goal with
           | |- context [if ?b then _ else _] => destruct b
           end; lia.
Qed.

Lemma ownCandidates_shape node c :
  In c (ownCandidates sourceFile methodName node) ->
  namedBy sourceFile methodName node = Some (cnode c) /\
  1 <= priority c <= 3 /\
  (hasKind sourceFile MethodDeclaration node = true \/
   hasKind sourceFile PropertyDeclaration node = true \/
   hasKind sourceFile FunctionDeclaration node = true /\
   hasModifier sourceFile ExportKeyword node = true).
Proof.
  unfold ownCandidates.
  destruct (namedBy sourceFile methodName node) as [name|]; [|intros []].
  intros H. apply in_app_or in H as [H|H]; [|apply in_app_or in H as [H|H]].
  - destruct (hasKind sourceFile MethodDeclaration node); [|destruct H].
    destruct H as [<-|[]]. cbn [cnode priority].
    split; [reflexivity|]. split; [|now left].
    unfold methodPriority. destruct (parent node) as [up|]; [|lia].
    pose proof (classPriority_range up). lia.
  - destruct (hasKind sourceFile PropertyDeclaration node); [|destruct H].
    destruct H as [<-|[]]. cbn [cnode priority].
    split; [reflexivity|]. split; [lia|]. right. now left.
  - destruct (hasKind sourceFile FunctionDeclaration node
              && hasModifier sourceFile ExportKeyword node) eqn:Hf; [|destruct H].
    destruct H as [<-|[]]. cbn [cnode priority].
    split; [reflexivity|]. split; [lia|]. right. right.
    now apply andb_true_iff in Hf.
Qed.

(** X11. What [findBestMethodNameNode] answers is an identifier that
    spells the member name and is the name of a declaration of the file:
    a method, a property, or an exported function. It answers nothing
    exactly when the file has no such declaration. *)
Theorem X11_located_member_is_a_declared_name :
  match findBestMethodNameNode sourceFile methodName with
  | Some name =>
      hasKind sourceFile Identifier name = true /\
      textOf sourceFile name = methodName /\
      exists declaration,
        In declaration (preorder sourceFile []) /\
        prop sourceFile p_name declaration = Some name /\
        (hasKind sourceFile MethodDeclaration declaration = true \/
         hasKind sourceFile PropertyDeclaration declaration = true \/
         hasKind sourceFile FunctionDeclaration declaration = true /\
         hasModifier sourceFile ExportKeyword declaration = true)
  | None =>
      forall declaration name,
        In declaration (preorder sourceFile []) ->
        namedBy sourceFile methodName declaration = Some name ->
        hasKind sourceFile MethodDeclaration declaration = false /\
        hasKind sourceFile PropertyDeclaration declaration = false /\
        hasKind sourceFile FunctionDeclaration declaration
          && hasModifier sourceFile ExportKeyword declaration = false
  end.
Proof.
  unfold findBestMethodNameNode. rewrite visitCandidates_preorder.
  pose proof (sortByPriority_head
                (flat_map (ownCandidates sourceFile methodName)
                          (preorder sourceFile []))) as Hhead.
  destruct (sortByPriority _) as [|best rest]; cbn [hd_error] in Hhead.
  - intros declaration name Hin Hname.
    assert (Hown : ownCandidates sourceFile methodName declaration = []).
    { destruct (ownCandidates sourceFile methodName declaration) as [|c cs] eqn:E;
        [reflexivity|].
      assert (Hc : In c (flat_map (ownCandidates sourceFile methodName)
                                  (preorder sourceFile []))).
      { apply in_flat_map. exists declaration. rewrite E. split; [exact Hin|now left]. }
      rewrite Hhead in Hc. destruct Hc. }
    unfold ownCandidates in Hown. rewrite Hname in Hown.
    destruct (hasKind sourceFile MethodDeclaration declaration); [discriminate|].
    destruct (hasKind sourceFile PropertyDeclaration declaration); [discriminate|].
    destruct (hasKind sourceFile FunctionDeclaration declaration
              && hasModifier sourceFile ExportKeyword declaration); [discriminate|].
    auto.
  - destruct Hhead as (before & after & Hcs & _).
    assert (Hc : In best (flat_map (ownCandidates sourceFile methodName)
                                   (preorder sourceFile []))).
    { rewrite Hcs. apply in_or_app. right. now left. }
    apply in_flat_map in Hc as (declaration & Hin & Hown).
    apply ownCandidates_shape in Hown as (Hname & _ & Hkind).
    apply namedBy_name in Hname as (Hprop & Hid & Htext).
    split; [exact Hid|]. split; [exact Htext|].
    exists declaration. auto.
Qed.

End LocatedMemberFacts.

(** ** The candidates of the member locator *)

Section CandidateFacts.

Variable sourceFile : Node.
Variable methodName : string.

Lemma namedBy_nameSpelled node :
  namedBy sourceFile methodName node = nameSpelled sourceFile methodName node.
Proof.
  unfold namedBy, nameSpelled.
  destruct (prop sourceFile p_name node) as [name|]; [|reflexivity].
  now destruct (hasKind sourceFile Identifier name).
Qed.

(** What [visit] pushes for a node is the candidate the node stands
    for: the three tests of [visit] exclude one another. *)
Lemma ownCandidates_collected node :
  ownCandidates sourceFile methodName node =
  match collectedCandidate sourceFile methodName node with
  | Some c => [c]
  | None => []
  end.
Proof.
  unfold ownCandidates, collectedCandidate, declarationScore.
  rewrite namedBy_nameSpelled, methodPriority_spec.
  destruct (nameSpelled sourceFile methodName node) as [name|]; [|reflexivity].
  destruct (hasKind sourceFile MethodDeclaration node) eqn:Hmethod.
  { rewrite (hasKind_unique _ _ PropertyDeclaration _ Hmethod),
      (hasKind_unique _ _ FunctionDeclaration _ Hmethod). reflexivity. }
  destruct (hasKind sourceFile PropertyDeclaration node) eqn:Hproperty.
  { rewrite (hasKind_unique _ _ FunctionDeclaration _ Hproperty). reflexivity. }
  now destruct (hasKind sourceFile FunctionDeclaration node
                && hasModifier sourceFile ExportKeyword node).
Qed.

Lemma visitCandidates_collected :
  visitCandidates sourceFile methodName sourceFile []
  = collectedCandidates sourceFile methodName.
Proof.
  rewrite visitCandidates_preorder. unfold collectedCandidates.
  induction (preorder sourceFile []) as [|node nodes IH]; [reflexivity|].
  cbn [flat_map]. now rewrite ownCandidates_collected, IH.
Qed.

Lemma collectedCandidate_spec node c :
  collectedCandidate sourceFile methodName node = Some c <->
  prop sourceFile p_name node = Some (cnode c) /\
  hasKind sourceFile Identifier (cnode c) = true /\
  textOf sourceFile (cnode c) = methodName /\
  declarationScore sourceFile node = Some (priority c).
Proof.
  unfold collectedCandidate, nameSpelled. destruct c as [name score]. cbn [cnode priority].
  destruct (prop sourceFile p_name node) as [n|].
  2: { split; [discriminate|]. now intros [[=] _]. }
  destruct (hasKind sourceFile Identifier n) eqn:Hid.
  2: { split; [discriminate|]. intros ([= ->] & H & _). congruence. }
  destruct (String.eqb (textOf sourceFile n) methodName) eqn:Htext.
  2: { split; [discriminate|]. intros ([= ->] & _ & H & _).
       apply String.eqb_neq in Htext. congruence. }
  apply String.eqb_eq in Htext.
  destruct (declarationScore sourceFile node) as [p|].
  - split.
    + intros [= -> ->]. auto.
    + intros ([= ->] & _ & _ & [= ->]). reflexivity.
  - split; [discriminate|]. now intros (_ & _ & _ & [=]).
Qed.

End CandidateFacts.

(** C6 (counterexample). In a file where [class B] is made the default
    export by a statement of its own ([export default B]), the method
    [show] of [B] scores 2 like the method of the exported class [A]
    before it, and the member locator answers the name token of the
    method of [A], not that of the default-exported class. *)
Lemma C6_default_export_by_statement :
  let tree := Examples.defaultByStatementTree in
  option_map text (nodeAt tree [1; 0]) = Some "A" /\
  option_map text (nodeAt tree [0; 1]) = Some "B" /\
  option_map text (nodeAt tree [0; 2]) = Some "B" /\
  visitCandidates tree "show" tree [] =
    [ {| cnode := [0; 2; 0]; priority := 2 |};
      {| cnode := [0; 1; 1]; priority := 2 |};
      {| cnode := [1; 3]; priority := 3 |} ] /\
  findBestMethodNameNode tree "show" = Some [0; 2; 0] /\
  findBestMethodNameNode tree "show" <> Some [0; 1; 1].
Proof. intros tree. subst tree. repeat split; try (vm_compute; congruence). Qed.

(** C6 (amended). The member locator collects, in document order, every
    method declaration, property declaration and function declaration
    with the [export] modifier whose name is an identifier that spells
    the member name. A method scores 1 when the nearest class
    declaration around it carries both the [export] and the [default]
    modifier and 2 otherwise, a property 2, a function 3. The first
    candidate of lowest score is picked and its name token answered;
    without candidates there is no answer. With a method [show] in
    [export class A], one in [export default class B] and an exported
    function [show], the name token of the method of [B] is picked. *)
Theorem C6_member_locator_priorities (sourceFile : Node) (methodName : string) :
  let candidates := collectedCandidates sourceFile methodName in
  visitCandidates sourceFile methodName sourceFile [] = candidates /\
  (forall c,
     In c candidates <->
     exists node,
       In node (preorder sourceFile []) /\
       prop sourceFile p_name node = Some (cnode c) /\
       hasKind sourceFile Identifier (cnode c) = true /\
       textOf sourceFile (cnode c) = methodName /\
       declarationScore sourceFile node = Some (priority c)) /\
  match findBestMethodNameNode sourceFile methodName with
  | Some name => exists c, cnode c = name /\ isBest c candidates
  | None => candidates = []
  end /\
  visitCandidates Examples.threeShowsTree "show" Examples.threeShowsTree [] =
    [ {| cnode := [0; 2; 0]; priority := 2 |};
      {| cnode := [0; 3; 1]; priority := 1 |};
      {| cnode := [1; 2]; priority := 3 |} ] /\
  findBestMethodNameNode Examples.threeShowsTree "show" = Some [0; 3; 1] /\
  nameRange Examples.threeShowsTree [0; 3; 1] =
    {| range_start := {| line := 1; character := 25 |};
       range_end := {| line := 1; character := 29 |} |}.
Proof.
  intros candidates.
  assert (Hvisit : visitCandidates sourceFile methodName sourceFile [] = candidates)
    by apply visitCandidates_collected.
  split; [exact Hvisit|]. split.
  { intros c. unfold candidates, collectedCandidates. rewrite in_flat_map. split.
    - intros (node & Hin & Hc). exists node. split; [exact Hin|].
      apply collectedCandidate_spec.
      destruct (collectedCandidate sourceFile methodName node) as [c'|]; [|destruct Hc].
      destruct Hc as [->|[]]. reflexivity.
    - intros (node & Hin & Hc). exists node. split; [exact Hin|].
      apply collectedCandidate_spec in Hc. rewrite Hc. now left. }
  split.
  { unfold findBestMethodNameNode. rewrite Hvisit.
    pose proof (sortByPriority_head candidates) as Hhead.
    destruct (sortByPriority candidates) as [|best rest]; cbn [hd_error] in Hhead.
    - exact Hhead.
    - now exists best. }
  evaluate.
Qed.

(** ** A resolved controller is always opened *)

(** X12. Once the controller file of a method string is found, the click
    always leads into that file: to the name token of the member when
    the file can be read and declares it, and otherwise (no method name,
    unreadable file, no such member) to the top of the file. *)
Theorem X12_resolved_controller_is_opened
  (host : Host) (controllerName : string) (methodName : option string)
  (projectRoot : string) (s s1 : State) (controllerPath : string) :
  resolveControllerPath host controllerName projectRoot s
    = (Returned (Some controllerPath), s1) ->
  exists s2,
    resolveControllerDefinition host controllerName methodName projectRoot s
    = (Returned
         (Some
            match givenMethod methodName with
            | None => topOfFile controllerPath
            | Some member =>
                match readFileSync host controllerPath with
                | None => topOfFile controllerPath
                | Some text =>
                    let target := createSourceFile host controllerPath text in
                    match findBestMethodNameNode target member with
                    | Some name =>
                        {| uri := controllerPath; range := nameRange target name |}
                    | None => topOfFile controllerPath
                    end
                end
            end), s2) /\
    existsSync host controllerPath = true /\
    importsCache s2 = importsCache s1 /\
    cacheTimestamps s2 = cacheTimestamps s1.
Proof.
  intros Hpath.
  pose proof (resolveControllerPath_target host _ _ _ _ _ Hpath) as [Hexists _].
  unfold resolveControllerDefinition, bind. rewrite Hpath.
  destruct (givenMethod methodName) as [member|]; [|exists s1; auto].
  unfold findMethodInControllerFile, tryCatch, bind, logIO, orThrow, ret, throw. cbn.
  destruct (readFileSync host controllerPath) as [text|]; cbn.
  - destruct (findBestMethodNameNode _ member); cbn; eexists; eauto.
  - eexists; eauto.
Qed.

Lemma X12_resolved_controller_is_opened_witness :
  let host := Scenario.scenarioHost (Examples.projectHost None) 1%Z in
  fst (resolveControllerDefinition host "UserController" (Some "nothing") "/proj"
         freshState)
    = Returned (Some (topOfFile Scenario.controllerPath)).
Proof.
  intros host.
  destruct (X12_resolved_controller_is_opened host "UserController" (Some "nothing")
              "/proj" freshState
              (snd (resolveControllerPath host "UserController" "/proj" freshState))
              Scenario.controllerPath) as (s2 & Hrun & _).
  - vm_compute. reflexivity.
  - rewrite Hrun. vm_compute. reflexivity.
Defined.

(** ** What a request does to the provider's state *)

Section RequestEffects.

Variable host : Host.

Lemma getPackageImports_touches projectRoot s :
  touchesOnly (Path.join [projectRoot; "package.json"]) s
    (snd (getPackageImports host projectRoot s)).
Proof.
  pose proof (getPackageImports_run host projectRoot s) as R.
  destruct (getPackageImports host projectRoot s) as [o s1]; cbn [fst snd] in *.
  inversion R; subst; split; cbn [importsCache cacheTimestamps trace].
  all: try (intros other Hother; rewrite ?lookup_insert_ne by congruence;
            split; reflexivity).
  - now exists [].
  - now exists [].
  - now exists [IOParse content; IORead (Path.join [projectRoot; "package.json"])].
  - now exists [IORead (Path.join [projectRoot; "package.json"])].
  - now exists [IOParse content; IORead (Path.join [projectRoot; "package.json"])].
Qed.

Lemma thenPure_state {A B} (f : A -> B) (r : Outcome A * State) :
  snd (thenPure f r) = snd r.
Proof. now destruct r as [[a|] s]. Qed.

Lemma thenTry_state {A B} (f : A -> Outcome B) (r : Outcome A * State) :
  snd (thenTry f r) = snd r.
Proof. now destruct r as [[a|] s]. Qed.

Lemma findMethodInControllerFile_touches key s0 controllerPath methodName s :
  touchesOnly key s0 s ->
  touchesOnly key s0 (snd (findMethodInControllerFile host controllerPath methodName s)).
Proof.
  intros [[t Ht] Hframe].
  unfold findMethodInControllerFile, tryCatch, bind, logIO, orThrow, ret, throw. cbn.
  destruct (readFileSync host controllerPath) as [text|]; cbn;
    [destruct (findBestMethodNameNode _ methodName); cbn|];
    (split; [exists (IORead controllerPath :: t); cbn; now rewrite Ht|exact Hframe]).
Qed.

Lemma resolveDefinition_touches context projectRoot sourceFile sourceFileName s :
  let s' := snd (resolveDefinition host context projectRoot sourceFile sourceFileName s) in
  s' = s \/ touchesOnly (Path.join [projectRoot; "package.json"]) s s'.
Proof.
  cbv zeta.
  destruct context as [v m|c m|p|m]; cbn [resolveDefinition];
    match goal with |- context [truthy ?x] => destruct (truthy x) end;
    try (left; reflexivity).
  - unfold resolveControllerVariableDefinition, bind.
    destruct (truthyResult (findControllerImportPath sourceFile v)) as [importPath|];
      [|left; reflexivity].
    right. rewrite resolveControllerFromImportPath_run.
    pose proof (getPackageImports_touches projectRoot s) as Htouch.
    destruct (getPackageImports host projectRoot s) as [[imports|] s1];
      cbn [thenTry fst snd] in *; [|exact Htouch].
    destruct (importPathLocation host imports importPath projectRoot) as [[location|]|];
      try exact Htouch.
    destruct (givenMethod m) as [member|]; [|exact Htouch].
    destruct (List.find _ (textDocuments host)) as [doc|].
    { unfold ret. destruct (findMethodInController host doc member); exact Htouch. }
    pose proof (findMethodInControllerFile_touches _ s (uri location) member s1 Htouch)
      as Hfile.
    destruct (findMethodInControllerFile host (uri location) member s1)
      as [[[l|]|] s2]; exact Hfile.
  - right. unfold resolveControllerDefinition, bind.
    rewrite resolveControllerPath_run.
    pose proof (getPackageImports_touches projectRoot s) as Htouch.
    destruct (getPackageImports host projectRoot s) as [[imports|] s1];
      cbn [thenPure fst snd] in *; [|exact Htouch].
    destruct (controllerPathIn host imports c projectRoot) as [controllerPath|];
      [|exact Htouch].
    destruct (givenMethod (Some m)) as [member|]; [|exact Htouch].
    pose proof (findMethodInControllerFile_touches _ s controllerPath member s1 Htouch)
      as Hfile.
    destruct (findMethodInControllerFile host controllerPath member s1)
      as [[[l|]|] s2]; exact Hfile.
  - right. rewrite resolveControllerFromImportPath_run, thenTry_state.
    apply getPackageImports_touches.
  - right. rewrite resolveRoutesModule_run, thenPure_state.
    apply getPackageImports_touches.
Qed.

(** X13. A request that finds no node at the offset, or is for a file
    that is not a routes file, or finds no project root, or cannot
    classify the click, answers nothing and leaves the provider's state
    as it was: the manifest is not even looked at. Any other request
    either leaves the state as it was or looks at the manifest of its
    own project root only: what it adds to the trace starts with a stat
    of that manifest, and the cache entries of other manifests are
    untouched. *)
Theorem X13_request_effects (document : TextDocument) (offset : nat) (s : State) :
  let filePath := fileName document in
  let sourceFile := createSourceFile host filePath (getText document) in
  let answer := provideDefinition host document offset s in
  match findNodeAtPosition sourceFile offset with
  | None => answer = (None, s)
  | Some node =>
      if isSupportedFile filePath then
        match truthyResult (findProjectRoot host filePath) with
        | None => answer = (None, s)
        | Some projectRoot =>
            match analyzeClickContext sourceFile node with
            | None => answer = (None, s)
            | Some _ =>
                snd answer = s \/
                touchesOnly (Path.join [projectRoot; "package.json"]) s (snd answer)
            end
        end
      else answer = (None, s)
  end.
Proof.
  intros filePath sourceFile answer. subst answer.
  unfold provideDefinition, tryCatch, provideDefinitionBody.
  fold filePath sourceFile.
  destruct (findNodeAtPosition sourceFile offset) as [node|]; [|reflexivity].
  destruct (isSupportedFile filePath); [|reflexivity]. cbn [negb].
  destruct (truthyResult (findProjectRoot host filePath)) as [projectRoot|];
    [|reflexivity].
  destruct (analyzeClickContext sourceFile node) as [context|]; [|reflexivity].
  unfold bind.
  pose proof (resolveDefinition_touches context projectRoot sourceFile
                (normalizePath host filePath) s) as Htouch.
  cbv zeta in Htouch.
  destruct (resolveDefinition host context projectRoot sourceFile
              (normalizePath host filePath) s)
    as [[[resolved|]|] s1]; cbn [fst snd] in *; try exact Htouch.
  destruct node as [clicked|k]; [destruct (isControllerVariable context)|];
    exact Htouch.
Qed.

End RequestEffects.

(** ** Routes modules next to the routes file *)

(** X14. When the alias table offers nothing for a routes module (the
    manifest maps no ["#routes/*"], be it well-formed or not loaded at
    all, or neither of the two files under the mapped directory exists),
    [resolveRoutesModule] falls back to the file [<module>.ts] in the
    directory of the routes file: it answers the top of that file when
    it exists and nothing when it does not. *)
Theorem X14_routes_module_beside_the_routes_file
  (host : Host) (moduleName projectRoot sourceFileName : string) (s s' : State)
  (imports : gmap string string) :
  let localPath := Path.join [Path.dirname sourceFileName; moduleName +:+ ".ts"] in
  getPackageImports host projectRoot s = (Returned imports, s') ->
  (forall routesMapping,
     lookupMapping imports "#routes/*" = Some routesMapping ->
     let basePath :=
       Path.resolve (cwd host) [projectRoot; replace routesMapping "/*" EmptyString] in
     existsSync host (Path.join [basePath; moduleName +:+ ".ts"]) = false /\
     existsSync host (Path.join [basePath; moduleName +:+ ".js"]) = false) ->
  resolveRoutesModule host moduleName projectRoot sourceFileName s =
  (Returned (if existsSync host localPath then Some (topOfFile localPath) else None), s').
Proof.
  intros localPath Hrun Hnothing.
  rewrite resolveRoutesModule_run, Hrun. cbn [thenPure]. f_equal. f_equal.
  unfold routesModuleLocation. cbv zeta. fold localPath.
  destruct (lookupMapping imports "#routes/*") as [routesMapping|]; [|reflexivity].
  destruct (Hnothing routesMapping eq_refl) as [Hts Hjs].
  unfold firstExisting. cbn [List.find]. now rewrite Hts, Hjs.
Qed.

Lemma X14_routes_module_beside_the_routes_file_witness :
  let host := Scenario.scenarioHost (Examples.projectHost None) 1%Z in
  JSON_parse host Scenario.manifestText = Some Scenario.manifest /\
  fst (resolveRoutesModule host "admin" "/proj" "/proj/start/routes.ts" freshState)
    = Returned (Some (topOfFile "/proj/start/admin.ts")).
Proof.
  intros host. split; [reflexivity|].
  rewrite (X14_routes_module_beside_the_routes_file host "admin" "/proj"
             "/proj/start/routes.ts" freshState
             (snd (getPackageImports host "/proj" freshState))
             {[ "#controllers/*" := "./app/controllers/*.js" ]}).
  - vm_compute. reflexivity.
  - vm_compute. reflexivity.
  - intros routesMapping H. vm_compute in H. discriminate.
Defined.

(** ** The earlier provider and the current one *)

Section LegacyFacts.

Variable host : Host.

Lemma Legacy_resolveControllerFromImportPath_run importPath projectRoot s :
  Legacy.resolveControllerFromImportPath host importPath projectRoot s =
  thenTry (fun imports => Legacy.importPathLocation host imports importPath projectRoot)
          (getPackageImports host projectRoot s).
Proof.
  unfold Legacy.resolveControllerFromImportPath, bind, fromOutcome, thenTry.
  now destruct (getPackageImports host projectRoot s) as [[imports|] s'].
Qed.

Lemma Legacy_importPathLocation_extended imports importPath projectRoot :
  (forall l,
     Legacy.importPathLocation host imports importPath projectRoot = Returned (Some l) ->
     importPathLocation host imports importPath projectRoot = Returned (Some l)) /\
  (startsWith importPath "#controllers/" = false ->
   importPathLocation host imports importPath projectRoot
   = Legacy.importPathLocation host imports importPath projectRoot).
Proof.
  unfold Legacy.importPathLocation, importPathLocation, wildcardLocation.
  destruct (getProperty imports importPath) as [mapping| |];
    [destruct (truthy mapping)| |].
  - split; auto.
  - split; [discriminate|]. now intros ->.
  - split; auto.
  - split; [discriminate|]. now intros ->.
Qed.

(** X15. On import paths the current resolver extends the earlier one:
    whatever the earlier one resolves, the current one resolves to the
    same location; the two differ only on paths that start with
    ["#controllers/"] (which the current one also resolves through the
    wildcard entry); and both leave the provider in the same state. *)
Theorem X15_current_resolver_extends_earlier
  (importPath projectRoot : string) (s : State) :
  let earlier := Legacy.resolveControllerFromImportPath host importPath projectRoot s in
  let current := resolveControllerFromImportPath host importPath projectRoot s in
  snd current = snd earlier /\
  (forall l, fst earlier = Returned (Some l) -> fst current = Returned (Some l)) /\
  (startsWith importPath "#controllers/" = false -> fst current = fst earlier).
Proof.
  cbv zeta.
  rewrite Legacy_resolveControllerFromImportPath_run, resolveControllerFromImportPath_run.
  destruct (getPackageImports host projectRoot s) as [[imports|] s1]; cbn [thenTry fst snd].
  - destruct (Legacy_importPathLocation_extended imports importPath projectRoot)
      as [Hsame Hother].
    split; [reflexivity|]. split.
    + intros l H. exact (Hsame l H).
    + intros H. exact (Hother H).
  - split; [reflexivity|]. split; [discriminate|reflexivity].
Qed.

(** X16. The earlier provider locates a member only in a controller that
    is open in the editor: it never reads the controller from disk. Once
    the controller file is found, the click leads into that file, and
    to its top whenever no open document has that path. *)
Theorem X16_earlier_provider_needs_an_open_document
  (controllerName : string) (methodName : option string) (projectRoot : string)
  (s s1 : State) (controllerPath : string) :
  Legacy.resolveControllerPath host controllerName projectRoot s
    = (Returned (Some controllerPath), s1) ->
  exists l,
    Legacy.resolveControllerDefinition host controllerName methodName projectRoot s
    = (Returned (Some l), s1) /\
    uri l = controllerPath /\
    ((forall doc, In doc (textDocuments host) -> fileName doc <> controllerPath) ->
     l = topOfFile controllerPath).
Proof.
  intros Hpath. unfold Legacy.resolveControllerDefinition, bind. rewrite Hpath.
  destruct (List.find _ (textDocuments host)) as [doc|] eqn:Hdoc.
  - apply find_some in Hdoc as [Hin Hname]. apply String.eqb_eq in Hname.
    assert (Hopen : (forall d, In d (textDocuments host) -> fileName d <> controllerPath)
                    -> False) by (intros H; exact (H doc Hin Hname)).
    destruct (givenMethod methodName) as [member|].
    + destruct (Legacy.findMethodInController host doc member) as [l|] eqn:Hfound.
      * exists l. split; [reflexivity|]. split; [|intros H; destruct (Hopen H)].
        unfold Legacy.findMethodInController in Hfound.
        destruct (findBestMethodNameInDocument _ member) as [name|]; [|discriminate].
        destruct (nodeAt _ name); [|discriminate].
        injection Hfound as <-. exact Hname.
      * exists (topOfFile controllerPath). auto.
    + exists (topOfFile controllerPath). auto.
  - exists (topOfFile controllerPath). auto.
Qed.

End LegacyFacts.

Lemma X16_earlier_provider_needs_an_open_document_witness :
  let host := Examples.projectHost (Some {[ "#controllers/*" := "./app/controllers/*" ]}) in
  fst (Legacy.resolveControllerDefinition host "UserController" (Some "index") "/proj"
         freshState)
    = Returned (Some (topOfFile "/proj/app/controllers/UserController.ts")).
Proof.
  intros host.
  destruct (X16_earlier_provider_needs_an_open_document host "UserController"
              (Some "index") "/proj" freshState
              (snd (Legacy.resolveControllerPath host "UserController" "/proj" freshState))
              "/proj/app/controllers/UserController.ts") as (l & Hrun & _ & Htop).
  - vm_compute. reflexivity.
  - rewrite Hrun. cbn [fst]. rewrite Htop; [reflexivity|]. intros doc [].
Defined.

Section LegacyClassifierFacts.

Variable sourceFile : Node.

(** X17. In the earlier provider, with a routing call whose second
    argument is a tuple [[identifier, literal]], a click on any
    identifier whose innermost routing call is that call (its receiver
    and its method name included) is classified as a click on the
    controller, carrying the texts of the identifier and of the literal
    of the tuple. *)
Theorem X17_earlier_provider_any_identifier
  (call tuple identifier literal first clicked : NodeRef) (rest : list NodeRef) :
  propList sourceFile p_arguments call = first :: tuple :: rest ->
  hasKind sourceFile ArrayLiteralExpression tuple = true ->
  propList sourceFile p_elements tuple = [identifier; literal] ->
  hasKind sourceFile Identifier identifier = true ->
  hasKind sourceFile StringLiteral literal = true ->
  hasKind sourceFile Identifier clicked = true ->
  findRouterCall sourceFile clicked = Some call ->
  Legacy.analyzeClickContext sourceFile (AstNode clicked)
    = Some (Legacy.ControllerIdentifier (textOf sourceFile identifier)
              (textOf sourceFile literal)).
Proof.
  intros Hargs Harray Helements Hidentifier Hliteral Hclicked Hcall.
  unfold Legacy.analyzeClickContext. rewrite Hclicked.
  unfold Legacy.analyzeIdentifierClick. rewrite Hcall.
  unfold extractHandlerFromRouterCall. rewrite Hargs.
  unfold parseHandlerArgument. rewrite Harray, Helements, Hidentifier, Hliteral.
  reflexivity.
Qed.

End LegacyClassifierFacts.

Lemma X17_earlier_provider_any_identifier_witness :
  option_map text (nodeAt Scenario.routesTree [0; 0; 0; 1]) = Some "router" /\
  Legacy.analyzeClickContext Scenario.routesTree (AstNode [0; 0; 0; 1])
    = Some (Legacy.ControllerIdentifier "UserController" "index").
Proof.
  split; [reflexivity|].
  exact (X17_earlier_provider_any_identifier Scenario.routesTree [0; 1] [2; 0; 1]
           [0; 2; 0; 1] [1; 2; 0; 1] [1; 0; 1] [0; 0; 0; 1] []
           eq_refl eq_refl eq_refl eq_refl eq_refl eq_refl eq_refl).
Defined.

(** ** An answer starts from a token under the cursor *)

Lemma analyzeClickContext_token sourceFile node context :
  analyzeClickContext sourceFile node = Some context ->
  exists clicked,
    node = AstNode clicked /\
    (hasKind sourceFile Identifier clicked = true \/
     hasKind sourceFile StringLiteral clicked = true).
Proof.
  destruct node as [r|k]; cbn [analyzeClickContext]; [|discriminate].
  destruct (hasKind sourceFile Identifier r) eqn:Hid; [eauto|].
  destruct (hasKind sourceFile StringLiteral r) eqn:Hlit; [eauto|discriminate].
Qed.

(** X18. The provider answers only for a click on an identifier or a
    string literal: when it gives a result, the node found at the offset
    is such a token of the document's tree and its span (ends included)
    contains the offset. Clicks on punctuation, keywords or blank space
    never lead anywhere. *)
Theorem X18_answer_starts_from_a_token
  (host : Host) (document : TextDocument) (offset : nat) (s : State)
  (r : ProviderResult) :
  let sourceFile := createSourceFile host (fileName document) (getText document) in
  fst (provideDefinition host document offset s) = Some r ->
  exists clicked n,
    findNodeAtPosition sourceFile offset = Some (AstNode clicked) /\
    nodeAt sourceFile clicked = Some n /\
    (kind n = Identifier \/ kind n = StringLiteral) /\
    getStart n <= offset /\ offset <= getEnd n.
Proof.
  intros sourceFile. rewrite provideDefinition_outcome.
  destruct (provideDefinitionBody host document offset s) as [[found|] s'] eqn:Hbody;
    cbn [fst]; [|discriminate].
  intros ->. unfold provideDefinitionBody in Hbody. fold sourceFile in Hbody.
  destruct (findNodeAtPosition sourceFile offset) as [node|] eqn:Hnode; [|discriminate].
  destruct (isSupportedFile (fileName document)); [|discriminate].
  cbn [negb] in Hbody.
  destruct (truthyResult (findProjectRoot host (fileName document))) as [projectRoot|];
    [|discriminate].
  destruct (analyzeClickContext sourceFile node) as [context|] eqn:Hcontext;
    [|discriminate].
  apply analyzeClickContext_token in Hcontext as (clicked & -> & Hkind).
  pose proof (find_spans sourceFile offset sourceFile [] clicked eq_refl I Hnode)
    as Hspans.
  destruct (spansContain_ancestors sourceFile offset clicked Hspans clicked)
    as (n & Hn & Hstart & Hend); [reflexivity|].
  exists clicked, n. split; [reflexivity|]. split; [exact Hn|].
  split; [|split; assumption].
  unfold hasKind in Hkind. rewrite Hn in Hkind.
  destruct Hkind as [H|H]; apply SyntaxKind_eqb_eq in H; auto.
Qed.

Lemma X18_answer_starts_from_a_token_witness :
  let host := Scenario.scenarioHost (Examples.projectHost None) 1%Z in
  exists clicked n,
    findNodeAtPosition Scenario.routesTree 110 = Some (AstNode clicked) /\
    nodeAt Scenario.routesTree clicked = Some n /\
    getStart n <= 110 /\ 110 <= getEnd n.
Proof.
  intros host.
  destruct (X18_answer_starts_from_a_token host Scenario.routesDocument 110 freshState
              (ResultLocation
                 {| uri := Scenario.controllerPath;
                    range := nameRange Scenario.controllerTree [0; 3; 0] |}))
    as (clicked & n & Hnode & Hn & _ & Hstart & Hend).
  - vm_compute. reflexivity.
  - exists clicked, n. auto.
Defined.

(** ** The earlier provider answers with existing files *)

Section LegacyResultFacts.

Variable host : Host.

Lemma Legacy_resolveControllerPath_run controllerName projectRoot s :
  Legacy.resolveControllerPath host controllerName projectRoot s =
  thenPure (fun imports => Legacy.controllerPathIn host imports controllerName projectRoot)
           (getPackageImports host projectRoot s).
Proof.
  unfold Legacy.resolveControllerPath, bind, ret, thenPure.
  now destruct (getPackageImports host projectRoot s) as [[imports|] s'].
Qed.

Lemma Legacy_resolveControllerPath_target controllerName projectRoot s p s' :
  Legacy.resolveControllerPath host controllerName projectRoot s
    = (Returned (Some p), s') ->
  existsSync host p = true.
Proof.
  rewrite Legacy_resolveControllerPath_run. intros H.
  apply thenPure_returned in H as (imports & _ & Hp). symmetry in Hp.
  unfold Legacy.controllerPathIn in Hp.
  destruct (lookupMapping imports "#controllers/*"); [|discriminate].
  eapply firstExisting_exists, Hp.
Qed.

Lemma Legacy_resolveControllerDefinition_target
  controllerName methodName projectRoot s l s' :
  Legacy.resolveControllerDefinition host controllerName methodName projectRoot s
    = (Returned (Some l), s') ->
  existsSync host (uri l) = true.
Proof.
  unfold Legacy.resolveControllerDefinition, bind.
  destruct (Legacy.resolveControllerPath host controllerName projectRoot s)
    as [[[controllerPath|]|] s1] eqn:E; try discriminate.
  pose proof (Legacy_resolveControllerPath_target _ _ _ _ _ E) as Hexists.
  destruct (List.find _ (textDocuments host)) as [doc|] eqn:Hdoc.
  - apply find_some in Hdoc as [_ Hname]. apply String.eqb_eq in Hname.
    destruct (givenMethod methodName) as [member|].
    + destruct (Legacy.findMethodInController host doc member) as [l'|] eqn:Hfound;
        intros [= <- <-]; [|exact Hexists].
      unfold Legacy.findMethodInController in Hfound.
      destruct (findBestMethodNameInDocument _ member) as [name|]; [|discriminate].
      destruct (nodeAt _ name); [|discriminate].
      injection Hfound as <-. cbn [uri]. now rewrite Hname.
    + intros [= <- <-]. exact Hexists.
  - intros [= <- <-]. exact Hexists.
Qed.

(** X19. The earlier provider, too, lets no fault out and only points to
    files that exist: a fault inside its request becomes "no result",
    and a result it gives is a location in a file for which
    [existsSync] answers true. *)
Theorem X19_earlier_provider_answers_existing_files
  (document : TextDocument) (offset : nat) (s : State) :
  let answer := fst (Legacy.provideDefinition host document offset s) in
  (fst (Legacy.provideDefinitionBody host document offset s) = Thrown ->
   answer = None) /\
  (forall l, answer = Some l -> existsSync host (uri l) = true).
Proof.
  cbv zeta. unfold Legacy.provideDefinition, tryCatch, ret.
  destruct (Legacy.provideDefinitionBody host document offset s)
    as [[found|] s'] eqn:Hbody; cbn [fst]; split; try discriminate; try reflexivity.
  intros l ->. unfold Legacy.provideDefinitionBody in Hbody.
  destruct (findNodeAtPosition _ offset) as [node|]; [|discriminate].
  destruct (isSupportedFile (fileName document)); [|discriminate].
  cbn [negb] in Hbody.
  destruct (truthyResult (findProjectRoot host (fileName document))) as [projectRoot|];
    [|discriminate].
  destruct (Legacy.analyzeClickContext _ node) as [context|]; [|discriminate].
  destruct context as [c m|c m|p|m]; cbn [Legacy.resolveDefinition] in Hbody;
    match type of Hbody with context [truthy ?x] => destruct (truthy x) end;
    try discriminate.
  - eapply Legacy_resolveControllerDefinition_target, Hbody.
  - eapply Legacy_resolveControllerDefinition_target, Hbody.
  - rewrite Legacy_resolveControllerFromImportPath_run in Hbody.
    apply thenTry_returned in Hbody as (imports & _ & Hl).
    unfold Legacy.importPathLocation in Hl.
    destruct (getProperty imports p) as [mapping| |]; try discriminate.
    destruct (truthy mapping); [|discriminate].
    injection Hl as Hl. eapply exactLocation_target, Hl.
  - now apply resolveRoutesModule_target in Hbody as [Hexists _].
Qed.

End LegacyResultFacts.
